(** * Job-status and history tracking of the Azure publish plugin

    A shallow embedding of [Composer/plugins/azurePublish/src/index.ts]
    (class [AzurePublisher]) and the properties of its Job Status Table,
    History Store and publish coordinator.

    Conventions.
    - The objects used as dictionaries ([histories], [publishingBots] and
      the per-bot objects in them) are plain objects: a read [o[name]] finds
      an own property first and a member of [Object.prototype] otherwise.
      Own properties are a finite map; the members of [Object.prototype]
      are the table [objectPrototypeMembers].
    - Bot ids are generated by the host application. They are the type
      [BotId]: strings that do not name a member of [Object.prototype].
      Profile names are typed in by users and are arbitrary strings.
    - The status records created by [publish] are mutable objects shared
      between the caller, the table and the completion handler; they live in
      an object store ([objects]) and arrays hold their addresses.
    - An exception is an explicit abrupt completion; it never rolls the
      state back. A call of an async function that is not awaited keeps its
      effects and loses its rejection.
    - [uuid], [hash], [new Date()], fs-extra and the deployer are the
      environment: their results, and what they throw, are inputs of the
      model. *)

From stdpp Require Import base option gmap strings list fin_maps.
From Stdlib Require Import ZArith.

Local Open Scope Z_scope.

(** ** Completions *)

(** A thrown value: an error object with its [message]; [undefined] or
    [null]; or any other value, of which the code looks at the truthiness
    and at the property [message] ([undefined] or a string). *)
Inductive Thrown :=
| TypeError (msg : string)
| Error (msg : string)
| Nullish
| Other (truthy : bool) (message : option string).

(** Reading [.length] or [.result] of [undefined]. *)
Definition undefinedProperty : Thrown :=
  TypeError "Cannot read property of undefined".

(** Calling a property that is not a function, such as [push] of a
    built-in function. *)
Definition notAFunction : Thrown :=
  TypeError "is not a function".

Inductive Completion (A : Type) :=
| Normal (a : A)
| Abrupt (e : Thrown).
Arguments Normal {A} a.
Arguments Abrupt {A} e.

(** [if (error)] *)
Definition truthyThrown (e : Thrown) : bool :=
  match e with
  | TypeError _ | Error _ => true
  | Nullish => false
  | Other truthy _ => truthy
  end.

(** [error.message] *)
Definition messageOf (e : Thrown) : Completion (option string) :=
  match e with
  | TypeError m | Error m => Normal (Some m)
  | Nullish => Abrupt undefinedProperty
  | Other _ m => Normal m
  end.

(** ** JavaScript arrays *)

Module JsArray.
Section ops.
Context {A : Type}.

(** Relative index of [slice]: negative counts from the end, both clamp. *)
Definition relative (len k : Z) : Z :=
  if k <? 0 then Z.max (len + k) 0 else Z.min k len.

(** [l.slice(start, end)]; [l.slice(start)] when [end] is omitted. *)
Definition slice (l : list A) (start : Z) (end_ : option Z) : list A :=
  let len := Z.of_nat (length l) in
  let k := relative len start in
  let final := match end_ with
               | None => len
               | Some e => relative len e
               end in
  take (Z.to_nat (final - k)) (drop (Z.to_nat k) l).

(** [l[i]]: [undefined] outside the array, in particular at [-1]. *)
Definition get (l : list A) (i : Z) : option A :=
  if i <? 0 then None else l !! Z.to_nat i.

(** [l.findIndex(p)], the callback may throw. *)
Fixpoint findIndexFrom (p : A → Completion bool) (l : list A) (i : Z)
  : Completion Z :=
  match l with
  | [] => Normal (-1)
  | x :: l' =>
      match p x with
      | Abrupt e => Abrupt e
      | Normal true => Normal i
      | Normal false => findIndexFrom p l' (i + 1)
      end
  end.

Definition findIndex (p : A → Completion bool) (l : list A) : Completion Z :=
  findIndexFrom p l 0.

(** [l.find(p)]. *)
Fixpoint find (p : A → Completion bool) (l : list A)
  : Completion (option A) :=
  match l with
  | [] => Normal None
  | x :: l' =>
      match p x with
      | Abrupt e => Abrupt e
      | Normal true => Normal (Some x)
      | Normal false => find p l'
      end
  end.

Definition concat (l1 l2 : list A) : list A := l1 ++ l2.
Definition push (l : list A) (x : A) : list A := l ++ [x].
Definition unshift (l : list A) (x : A) : list A := x :: l.
End ops.

(** [l.join(sep)]: an element that is [undefined] counts as the empty
    string. *)
Definition join (sep : string) (l : list (option string)) : string :=
  String.concat sep (default "" <$> l).
End JsArray.

(** ** Plain objects and [Object.prototype] *)

(** A member of [Object.prototype]: a built-in function with its [length],
    or, for [__proto__], the prototype object itself. *)
Inductive Member :=
| Method (arity : nat)
| Prototype.

Definition objectPrototypeMembers : list (string * Member) :=
  [("constructor", Method 1);
   ("hasOwnProperty", Method 1);
   ("isPrototypeOf", Method 1);
   ("propertyIsEnumerable", Method 1);
   ("toLocaleString", Method 0);
   ("toString", Method 0);
   ("valueOf", Method 0);
   ("__defineGetter__", Method 2);
   ("__defineSetter__", Method 2);
   ("__lookupGetter__", Method 1);
   ("__lookupSetter__", Method 1);
   ("__proto__", Prototype)].

Fixpoint assoc {A} (name : string) (l : list (string * A)) : option A :=
  match l with
  | [] => None
  | (k, v) :: l' => if String.eqb k name then Some v else assoc name l'
  end.

(** The member of [Object.prototype] a name stands for, if any. *)
Definition inherited (name : string) : option Member :=
  assoc name objectPrototypeMembers.

(** What [o[name]] finds in a plain object. *)
Inductive Property (A : Type) :=
| Own (a : A)
| Inherited (m : Member)
| Missing.
Arguments Own {A} a.
Arguments Inherited {A} m.
Arguments Missing {A}.

Definition getProperty {A} (o : gmap string A) (name : string) : Property A :=
  match o !! name with
  | Some a => Own a
  | None =>
      match inherited name with
      | Some m => Inherited m
      | None => Missing
      end
  end.

(** [m.length > 0] for a member of [Object.prototype]; the prototype object
    has no [length]. *)
Definition memberHasLength (m : Member) : bool :=
  match m with
  | Method (S _) => true
  | Method O | Prototype => false
  end.

(** A bot id: a string that names no member of [Object.prototype]. *)
Record BotId := {
  botName :> string;
  botName_plain : inherited botName = None;
}.

(** ** Data model *)

Abbreviation loc := nat.

(** [result] of a status record. *)
Record Result := {
  id : string;
  time : Z;
  message : option string;
  log : string;
  comment : option string;
}.

(** [{ status, result }], the record kept in the Job Status Table. *)
Record JobRecord := {
  status : Z;
  result : Result;
}.

(** [{ status, ...result }], the snapshot kept in the History Store. *)
Record HistoryEntry := {
  entry_status : Z;
  entry_id : string;
  entry_time : Z;
  entry_message : option string;
  entry_log : string;
  entry_comment : option string;
}.

Definition PERSIST_HISTORY : bool := false.

(** The fields of [AzurePublisher], the object store and the disk. *)
Record AzurePublisher := {
  histories : gmap string (gmap string (list HistoryEntry));
  publishingBots : gmap string (gmap string (list loc));
  logMessages : list (option string);
  objects : gmap loc JobRecord;
  (** [publishBots/<key>] folders, each with the runtime copied into it *)
  projectFolders : gmap string string;
  (** content of [publishHistory.txt], if written *)
  historyFile : option (gmap string (gmap string (list HistoryEntry)));
}.

(** [new AzurePublisher()] with [PERSIST_HISTORY = false]. *)
Definition constructor : AzurePublisher :=
  {| histories := ∅; publishingBots := ∅; logMessages := [];
     objects := ∅; projectFolders := ∅; historyFile := None |}.

Definition with_histories h (st : AzurePublisher) : AzurePublisher :=
  {| histories := h; publishingBots := publishingBots st;
     logMessages := logMessages st; objects := objects st;
     projectFolders := projectFolders st; historyFile := historyFile st |}.
Definition with_publishingBots p (st : AzurePublisher) : AzurePublisher :=
  {| histories := histories st; publishingBots := p;
     logMessages := logMessages st; objects := objects st;
     projectFolders := projectFolders st; historyFile := historyFile st |}.
Definition with_logMessages m (st : AzurePublisher) : AzurePublisher :=
  {| histories := histories st; publishingBots := publishingBots st;
     logMessages := m; objects := objects st;
     projectFolders := projectFolders st; historyFile := historyFile st |}.
Definition with_objects o (st : AzurePublisher) : AzurePublisher :=
  {| histories := histories st; publishingBots := publishingBots st;
     logMessages := logMessages st; objects := o;
     projectFolders := projectFolders st; historyFile := historyFile st |}.
Definition with_projectFolders f (st : AzurePublisher) : AzurePublisher :=
  {| histories := histories st; publishingBots := publishingBots st;
     logMessages := logMessages st; objects := objects st;
     projectFolders := f; historyFile := historyFile st |}.
Definition with_historyFile f (st : AzurePublisher) : AzurePublisher :=
  {| histories := histories st; publishingBots := publishingBots st;
     logMessages := logMessages st; objects := objects st;
     projectFolders := projectFolders st; historyFile := f |}.

(** ** Stateful computations that may throw *)

Inductive Outcome (A : Type) :=
| Returns (a : A) (st : AzurePublisher)
| Throws (e : Thrown) (st : AzurePublisher).
Arguments Returns {A} a st.
Arguments Throws {A} e st.

(** The state an outcome leaves behind, whether it returned or threw. *)
Definition stateOf {A} (o : Outcome A) : AzurePublisher :=
  match o with
  | Returns _ st | Throws _ st => st
  end.

Definition M (A : Type) : Type := AzurePublisher → Outcome A.

Definition ret {A} (a : A) : M A := λ st, Returns a st.
Definition bind {A B} (m : M A) (k : A → M B) : M B :=
  λ st, match m st with
        | Returns a st' => k a st'
        | Throws e st' => Throws e st'
        end.
(** A read of the state that may throw. *)
Definition read {A} (r : AzurePublisher → Completion A) : M A :=
  λ st, match r st with
        | Normal a => Returns a st
        | Abrupt e => Throws e st
        end.
Definition modify (f : AzurePublisher → AzurePublisher) : M unit :=
  λ st, Returns () (f st).
(** [try { body } catch (e) { handler(e) }]. *)
Definition try_catch {A} (body : M A) (handler : Thrown → M A) : M A :=
  λ st, match body st with
        | Returns a st' => Returns a st'
        | Throws e st' => handler e st'
        end.
(** A call of an async function without [await]: what it did stays done,
    its rejection reaches nobody. *)
Definition detached {A} (m : M A) : M unit :=
  λ st, Returns () (stateOf (m st)).

#[export] Instance M_ret : MRet M := @ret.
#[export] Instance M_bind : MBind M := λ A B k m, bind m k.

Definition throw {A} (e : Thrown) : M A := λ st, Throws e st.
Definition gets {A} (f : AzurePublisher → A) : M A := λ st, Returns (f st) st.
(** The outcome of an expression that does not touch the state. *)
Definition lift {A} (c : Completion A) : M A := read (λ _, c).

(** ** History Store *)

(** What [getHistory] hands out: the array of a key, or, for a profile
    named like a member of [Object.prototype], that member. *)
Inductive History :=
| Entries (entries : list HistoryEntry)
| BuiltIn (m : Member).

(** [getHistory(botId, profileName)] *)
Definition getHistory (botId : BotId) (profileName : string)
  (st : AzurePublisher) : History :=
  match histories st !! botName botId with
  | Some profiles =>
      match getProperty profiles profileName with
      | Own entries => Entries entries
      | Inherited m => BuiltIn m
      | Missing => Entries []
      end
  | None => Entries []
  end.

(** [if (PERSIST_HISTORY) await writeJson(this.historyFilePath,
    this.histories)] *)
Definition persist (st : AzurePublisher) : AzurePublisher :=
  if PERSIST_HISTORY then with_historyFile (Some (histories st)) st else st.

(** [updateHistory(botId, profileName, newHistory)]. The object of the bot
    is created first; for a profile named like a member of
    [Object.prototype] the guard sees the member, no array is created and
    [unshift] is not a function. *)
Definition updateHistory (botId : BotId) (profileName : string)
  (newHistory : HistoryEntry) : M unit :=
  λ st,
  let profiles := default ∅ (histories st !! botName botId) in
  let store h := with_histories (<[botName botId := h]> (histories st)) st in
  match getProperty profiles profileName with
  | Own entries =>
      Returns () (persist (store (<[profileName
                             := JsArray.unshift entries newHistory]> profiles)))
  | Missing =>
      Returns () (persist (store (<[profileName
                             := JsArray.unshift [] newHistory]> profiles)))
  | Inherited _ => Throws notAFunction (store profiles)
  end.

(** ** Job Status Table *)

(** [item => item.result.id === jobId] *)
Definition hasId (o : gmap loc JobRecord) (jobId : string) (item : loc)
  : Completion bool :=
  match o !! item with
  | Some r => Normal (bool_decide (id (result r) = jobId))
  | None => Abrupt undefinedProperty
  end.

(** [addLoadingStatus(botId, profileName, newStatus)], with the same two
    guards as [updateHistory] and [push] in place of [unshift]. *)
Definition addLoadingStatus (botId : BotId) (profileName : string)
  (newStatus : loc) : M unit :=
  λ st,
  let profiles := default ∅ (publishingBots st !! botName botId) in
  let store p :=
    with_publishingBots (<[botName botId := p]> (publishingBots st)) st in
  match getProperty profiles profileName with
  | Own jobs =>
      Returns () (store (<[profileName := JsArray.push jobs newStatus]> profiles))
  | Missing =>
      Returns () (store (<[profileName := JsArray.push [] newStatus]> profiles))
  | Inherited _ => Throws notAFunction (store profiles)
  end.

(** [removeLoadingStatus(botId, profileName, jobId)] *)
Definition removeLoadingStatus (botId : BotId) (profileName jobId : string)
  : M (option loc) :=
  λ st,
  match publishingBots st !! botName botId with
  | Some profiles =>
      match getProperty profiles profileName with
      | Own jobs =>
          match JsArray.findIndex (hasId (objects st) jobId) jobs with
          | Abrupt e => Throws e st
          | Normal index =>
              let status := JsArray.get jobs index in
              let jobs' :=
                JsArray.concat (JsArray.slice jobs 0 (Some index))
                               (JsArray.slice jobs (index + 1) None) in
              Returns status
                (with_publishingBots
                   (<[botName botId := <[profileName := jobs']> profiles]>
                      (publishingBots st)) st)
          end
      | Inherited _ => Throws notAFunction st (* [findIndex] of a member *)
      | Missing => Returns None st
      end
  | None => Returns None st
  end.

(** [getLoadingStatus(botId, profileName, jobId = '')]; the empty string is
    the default of an omitted [jobId] and is falsy. A member of
    [Object.prototype] found under the profile name has a [length] but
    neither [find] nor elements. *)
Definition getLoadingStatus (botId : BotId) (profileName jobId : string)
  (st : AzurePublisher) : Completion (option loc) :=
  match publishingBots st !! botName botId with
  | Some profiles =>
      match getProperty profiles profileName with
      | Missing => Abrupt undefinedProperty (* [undefined.length] *)
      | Own jobs =>
          if 0 <? Z.of_nat (length jobs) then
            if bool_decide (jobId ≠ "") then
              JsArray.find (hasId (objects st) jobId) jobs
            else
              Normal (JsArray.get jobs (Z.of_nat (length jobs) - 1))
          else Normal None
      | Inherited m =>
          if memberHasLength m then
            if bool_decide (jobId ≠ "") then Abrupt notAFunction
            else Normal None
          else Normal None
      end
  | None => Normal None
  end.

(** ** Plugin inputs and the environment *)

(** Truthiness of an optional string: [undefined] and [''] are falsy. *)
Definition truthy (s : option string) : bool :=
  match s with
  | Some s => bool_decide (s ≠ "")
  | None => false
  end.

Record Provision := {
  MicrosoftAppPassword : option string;
}.

Record PublishConfig := {
  settings : string;
  templatePath : string;
  name : string;
  subscriptionID : option string;
  publishName : option string;
  environment : option string;
  location : option string;
  luisAuthoringKey : option string;
  luisAuthoringRegion : option string;
  provision : option Provision;
  accessToken : option string;
}.

Module Project.
Record Runtime := {
  customRuntime : bool;
  path : option string;
}.
Record Settings := {
  runtime : option Runtime;
}.
Record File := {
  relativePath : string;
  content : string;
}.
Record t := {
  id : BotId;
  name : string;
  files : list File;
  settings : option Settings;
}.
End Project.

Module Metadata.
Record t := {
  comment : option string;
}.
End Metadata.

(** What the environment answers during one call of [publish]. *)
Record World := {
  (** [uuid()] *)
  uuid : string;
  (** [new Date()] *)
  now : Z;
  (** [hash(values, namespace)], the version-5 uuid of the package [uuid]:
      it throws when the namespace is not a uuid *)
  hash : list (option string) → option string → Completion string;
  (** the rejection of a file operation of [init], if any *)
  staging : option Thrown;
  (** what [readJson], [writeJson] or [new BotProjectDeploy] throws, if
      anything, while the provisioned settings are merged *)
  settingsMerge : option Thrown;
}.

(** [hash] of the package [uuid] rejects a missing namespace:
    [hash(values, undefined)] throws. *)
Definition namespaceRequired (w : World) : Prop :=
  ∀ values, ∃ e, hash w values None = Abrupt e.

Definition newline : string := String (Ascii.ascii_of_nat 10) EmptyString.

(** An object literal [{ status, result }]: a new object in the store. *)
Definition alloc (r : JobRecord) : M loc :=
  λ st, let l := fresh (dom (objects st)) in
        Returns l (with_objects (<[l := r]> (objects st)) st).

(** A field assignment through the reference [l]. *)
Definition assign (l : loc) (f : JobRecord → JobRecord) : M unit :=
  modify (λ st, with_objects (alter f l (objects st)) st).

Definition deref (l : loc) : M JobRecord :=
  λ st, match objects st !! l with
        | Some r => Returns r st
        | None => Throws undefinedProperty st
        end.

Definition set_status (code : Z) (r : JobRecord) : JobRecord :=
  {| status := code; result := result r |}.
Definition set_message (m : option string) (r : JobRecord) : JobRecord :=
  {| status := status r;
     result := {| id := id (result r); time := time (result r); message := m;
                  log := log (result r); comment := comment (result r) |} |}.
Definition set_log (g : string) (r : JobRecord) : JobRecord :=
  {| status := status r;
     result := {| id := id (result r); time := time (result r);
                  message := message (result r);
                  log := g; comment := comment (result r) |} |}.

(** [{ status: r.status, ...r.result }] *)
Definition snapshot (r : JobRecord) : HistoryEntry :=
  {| entry_status := status r; entry_id := id (result r);
     entry_time := time (result r); entry_message := message (result r);
     entry_log := log (result r); entry_comment := comment (result r) |}.

(** ** Staging *)

(** [init(botFiles, settings, srcTemplate, resourcekey)]: the project folder
    is emptied, filled and receives a copy of the runtime. *)
Definition init (w : World) (botFiles : list Project.File) (settings : string)
  (srcTemplate resourcekey : string) : M unit :=
  match staging w with
  | Some e => throw e
  | None =>
      modify (λ st, with_projectFolders
                      (<[resourcekey := srcTemplate]> (projectFolders st)) st)
  end.

(** [cleanup(resourcekey)]: [emptyDir] then [rmdir] of the project folder. *)
Definition cleanup (resourcekey : string) : M unit :=
  modify (λ st, with_projectFolders (delete resourcekey (projectFolders st)) st).

(** [this.logMessages.push(line)] *)
Definition pushLogMessage (line : option string) : M unit :=
  modify (λ st, with_logMessages (JsArray.push (logMessages st) line) st).

(** The [logger] callback handed to the deployer; [msg] is what
    [JSON.stringify] made of the message, [undefined] for a message that
    has no JSON text. *)
Definition logger (msg : option string) : M unit := pushLogMessage msg.

(** ** Completion of a deployment *)

(** The body shared by the [try] and the [catch] block of
    [createAndDeploy]: update status and history. *)
Definition settle (botId : BotId) (profileName jobId resourcekey : string)
  (code : Z) (text : option string) : M unit :=
  status ← read (getLoadingStatus botId profileName jobId);
  match status with
  | Some status =>
      assign status (set_status code);;
      assign status (set_message text);;
      lines ← gets logMessages;
      assign status (set_log (JsArray.join newline lines));;
      r ← deref status;
      updateHistory botId profileName (snapshot r);;
      removeLoadingStatus botId profileName jobId;;
      cleanup resourcekey
  | None => mret ()
  end.

(** [error ? error.message : 'publish error'] *)
Definition failureMessage (error : Thrown) : option string :=
  if truthyThrown error then
    match messageOf error with
    | Normal m => m
    | Abrupt _ => None
    end
  else Some "publish error".

(** [createAndDeploy(botId, profileName, jobId, resourcekey, _)] from the
    moment [azDeployer.deploy] settles; [deployed] is its rejection, if any. *)
Definition createAndDeploy (botId : BotId)
  (profileName jobId resourcekey : string) (deployed : option Thrown)
  : M unit :=
  try_catch
    (match deployed with
     | Some e => throw e
     | None => mret ()
     end;;
     settle botId profileName jobId resourcekey 200 (Some "Success"))
    (λ error,
       settle botId profileName jobId resourcekey 500 (failureMessage error)).

(** ** Plugin methods *)

Definition missingAccessToken : string :=
  "Required field `accessToken` is missing from publishing profile.".
Definition missingProvision : string :=
  "no successful created resource in Azure according to your config, please run provision script to do the provision".

(** The resource key that maps to one provisioned resource. *)
Definition resourceKey (w : World) (config : PublishConfig)
  (project : Project.t) : Completion string :=
  hash w [Some (Project.name project); subscriptionID config;
          publishName config; location config; environment config;
          provision config ≫= MicrosoftAppPassword;
          luisAuthoringKey config; luisAuthoringRegion config]
       (subscriptionID config).

(** The code of an ejected runtime replaces the built-in template. *)
Definition runtimePath (config : PublishConfig) (project : Project.t)
  : string :=
  match Project.settings project ≫= Project.runtime with
  | Some rt =>
      if Project.customRuntime rt && truthy (Project.path rt)
      then default (templatePath config) (Project.path rt)
      else templatePath config
  | None => templatePath config
  end.

(** The [try] block of [publish]. The deployment it starts is not awaited:
    its completion is a later call of [createAndDeploy]. *)
Definition publishTry (w : World) (config : PublishConfig)
  (project : Project.t) (metadata : Metadata.t) : M loc :=
  let botId := Project.id project in
  let jobId := uuid w in
  (if negb (truthy (accessToken config))
   then throw (Error missingAccessToken) else mret ());;
  (if provision config is None
   then throw (Error missingProvision) else mret ());;
  match settingsMerge w with
  | Some e => throw e
  | None => mret ()
  end;;
  modify (with_logMessages [Some "Publish starting..."]);;
  lines ← gets logMessages;
  response ← alloc
    {| status := 202;
       result := {| id := jobId; time := now w;
                    message := Some "Accepted for publishing.";
                    log := JsArray.join newline lines;
                    comment := Metadata.comment metadata |} |};
  addLoadingStatus botId (name config) response;;
  mret response.

(** The [catch (err)] block of [publish]; neither [updateHistory] nor
    [cleanup] is awaited. *)
Definition publishCatch (w : World) (config : PublishConfig)
  (project : Project.t) (metadata : Metadata.t) (resourcekey : string)
  (err : Thrown) : M loc :=
  let botId := Project.id project in
  let jobId := uuid w in
  text ← lift (messageOf err);
  pushLogMessage text;;
  lines ← gets logMessages;
  response ← alloc
    {| status := 500;
       result := {| id := jobId; time := now w;
                    message := Some "Publish Fail";
                    log := JsArray.join newline lines;
                    comment := Metadata.comment metadata |} |};
  r ← deref response;
  detached (updateHistory botId (name config) (snapshot r));;
  detached (cleanup resourcekey);;
  mret response.

(** [publish(config, project, metadata, user)]; the resource key is
    computed, and the project staged, before the [try] block. *)
Definition publish (w : World) (config : PublishConfig) (project : Project.t)
  (metadata : Metadata.t) : M loc :=
  let botFiles := Project.files project in
  resourcekey ← lift (resourceKey w config project);
  let runtimeCodePath := runtimePath config project in
  init w botFiles (settings config) runtimeCodePath resourcekey;;
  try_catch (publishTry w config project metadata)
            (publishCatch w config project metadata resourcekey).

(** The three shapes [getStatus] answers with. *)
Inductive StatusReply :=
| InFlight (record : loc)
| FromHistory (status : Z) (result : HistoryEntry)
| Synthetic (status : Z) (message : string).

(** [getStatus(config, project, user)] *)
Definition getStatus (config : PublishConfig) (project : Project.t)
  (st : AzurePublisher) : Completion StatusReply :=
  let profileName := name config in
  let botId := Project.id project in
  match getLoadingStatus botId profileName "" st with
  | Abrupt e => Abrupt e
  | Normal (Some status) => Normal (InFlight status)
  | Normal None =>
      match getHistory botId profileName st with
      | Entries current =>
          if 0 <? Z.of_nat (length current) then
            match JsArray.get current 0 with
            | Some newest => Normal (FromHistory (entry_status newest) newest)
            | None => Abrupt undefinedProperty
            end
          else Normal (Synthetic 404 "bot not published")
      | BuiltIn m =>
          (* [m.length > 0], then [m[0].status] with [m[0]] undefined *)
          if memberHasLength m then Abrupt undefinedProperty
          else Normal (Synthetic 404 "bot not published")
      end
  end.


(** ** Text of messages *)

Definition lowerChar (c : Ascii.ascii) : Ascii.ascii :=
  let n := Ascii.nat_of_ascii c in
  if (65 <=? n)%nat && (n <=? 90)%nat then Ascii.ascii_of_nat (n + 32) else c.

Fixpoint lower (s : string) : string :=
  match s with
  | EmptyString => EmptyString
  | String c s' => String (lowerChar c) (lower s')
  end.

Fixpoint contains (needle text : string) : bool :=
  String.prefix needle text
  || match text with
     | EmptyString => false
     | String _ text' => contains needle text'
     end.

(** [text] mentions [word], whatever the case of the letters. *)
Definition mentions (word text : string) : bool :=
  contains (lower word) (lower text).

Definition isHex (c : Ascii.ascii) : bool :=
  let n := Ascii.nat_of_ascii c in
  ((48 <=? n) && (n <=? 57) || (65 <=? n) && (n <=? 70)
   || (97 <=? n) && (n <=? 102))%nat.

(** [s] is made of hex digits where [shape] says [true] and of hyphens
    where it says [false]. *)
Fixpoint hasShape (shape : list bool) (s : string) : bool :=
  match shape, s with
  | [], EmptyString => true
  | hex :: shape', String c s' =>
      (if hex then isHex c else bool_decide (c = Ascii.ascii_of_nat 45))
      && hasShape shape' s'
  | _, _ => false
  end.

(** The text form of a uuid: 8-4-4-4-12 hex digits. *)
Definition isUuid (s : string) : bool :=
  hasShape (replicate 8 true ++ [false] ++ replicate 4 true ++ [false]
            ++ replicate 4 true ++ [false] ++ replicate 4 true ++ [false]
            ++ replicate 12 true) s.

(** ** Observations used in the statements *)

(** The Job Status Table list of a key, if the key has one of its own. *)
Definition jobsOf (botId profileName : string) (st : AzurePublisher)
  : option (list loc) :=
  publishingBots st !! botId ≫= (.!! profileName).

(** The job id of the record behind a reference. *)
Definition jobIdAt (o : gmap loc JobRecord) (l : loc) : option string :=
  (λ r, id (result r)) <$> o !! l.

(** Every element is a record and none has the job id [jobId]. *)
Definition unknownJob (o : gmap loc JobRecord) (jobId : string)
  (jobs : list loc) : Prop :=
  Forall (λ l, ∃ j, jobIdAt o l = Some j ∧ j ≠ jobId) jobs.

(** Every element of the array is a record. *)
Definition records (o : gmap loc JobRecord) (jobs : list loc) : Prop :=
  Forall (λ l, is_Some (o !! l)) jobs.

(** The History sequence stored for a key, if the key has one of its own. *)
Definition storedHistory (botId profileName : string) (st : AzurePublisher)
  : option (list HistoryEntry) :=
  histories st !! botId ≫= (.!! profileName).

(** The entries stored for a key, none if the key has no sequence. *)
Definition historyEntries (botId profileName : string) (st : AzurePublisher)
  : list HistoryEntry :=
  default [] (storedHistory botId profileName st).

(** A run of [updateHistory] calls, first call first; a call that throws
    leaves what it did before throwing. *)
Definition updateHistories (calls : list (BotId * string * HistoryEntry))
  (st : AzurePublisher) : AzurePublisher :=
  foldl (λ st call, stateOf (updateHistory call.1.1 call.1.2 call.2 st))
    st calls.

(** The entries the calls of a run pass for one key, in call order. *)
Definition entriesFor (botId profileName : string)
  (calls : list (BotId * string * HistoryEntry)) : list HistoryEntry :=
  snd <$> filter (λ call, (botName call.1.1, call.1.2) = (botId, profileName))
            calls.

(** The 500 record the [catch] block of [publish] builds. *)
Definition failure (w : World) (metadata : Metadata.t)
  (lines : list (option string)) : JobRecord :=
  {| status := 500;
     result := {| id := uuid w; time := now w; message := Some "Publish Fail";
                  log := JsArray.join newline lines;
                  comment := Metadata.comment metadata |} |}.

(** The 202 record the [try] block of [publish] builds. *)
Definition accepted (w : World) (metadata : Metadata.t) : JobRecord :=
  {| status := 202;
     result := {| id := uuid w; time := now w;
                  message := Some "Accepted for publishing.";
                  log := "Publish starting...";
                  comment := Metadata.comment metadata |} |}.

(** The record after the completion of a deployment wrote status, message
    and log into it. *)
Definition settled (code : Z) (text : option string) (lines : string)
  (r : JobRecord) : JobRecord :=
  {| status := code;
     result := {| id := id (result r); time := time (result r);
                  message := text; log := lines;
                  comment := comment (result r) |} |}.

(** ** Runs of the plugin *)

(** What can happen to the publisher: a call of [publish], a line logged by
    the deployer, a deployment that settles. *)
Inductive Event :=
| Published (w : World) (config : PublishConfig) (project : Project.t)
    (metadata : Metadata.t)
| Logged (msg : option string)
| Deployed (botId : BotId) (profileName jobId resourcekey : string)
    (deployed : option Thrown).

Definition happen (st : AzurePublisher) (e : Event) : AzurePublisher :=
  match e with
  | Published w config project metadata =>
      stateOf (publish w config project metadata st)
  | Logged msg => stateOf (logger msg st)
  | Deployed botId profileName jobId resourcekey deployed =>
      stateOf (createAndDeploy botId profileName jobId resourcekey deployed st)
  end.

Definition happenAll (events : list Event) (st : AzurePublisher)
  : AzurePublisher :=
  foldl happen st events.

(** Deployments are started by [publish] with the job id made by [uuid()],
    which is never the empty string. *)
Definition jobIdsGenerated (events : list Event) : Prop :=
  Forall (λ e, match e with
               | Deployed _ _ jobId _ _ => jobId ≠ ""
               | _ => True
               end) events.

(** Every element of every list of the table is a record, and no list holds
    a record twice. *)
Definition tablesSound (st : AzurePublisher) : Prop :=
  ∀ botId profileName jobs,
    jobsOf botId profileName st = Some jobs →
    records (objects st) jobs ∧ NoDup jobs.

(** From [st] to [st'] the sequence stored for every key only got new
    entries in front, and every record is still there with the job id, the
    time and the comment it had. *)
Definition grows (st st' : AzurePublisher) : Prop :=
  (∀ botId profileName, ∃ newer,
      historyEntries botId profileName st'
      = newer ++ historyEntries botId profileName st)
  ∧ (∀ l r, objects st !! l = Some r →
            ∃ r', objects st' !! l = Some r'
                  ∧ id (result r') = id (result r)
                  ∧ time (result r') = time (result r)
                  ∧ comment (result r') = comment (result r)).

(** What one call may do to the state. The list of a key stays, gets one
    new record at its tail, or loses one element; a list is only created
    for a profile name that names no member of [Object.prototype]. The
    History sequence of a key stays or gets one entry in front, and is only
    created for such a profile name. Every record stays in the store with
    its job id, time and comment. *)
Definition changes (st st' : AzurePublisher) : Prop :=
  (∀ botId profileName,
      jobsOf botId profileName st' = jobsOf botId profileName st
      ∨ (∃ l, jobsOf botId profileName st'
              = Some (default [] (jobsOf botId profileName st) ++ [l])
              ∧ objects st !! l = None
              ∧ is_Some (objects st' !! l)
              ∧ (inherited profileName = None
                 ∨ is_Some (jobsOf botId profileName st)))
      ∨ (∃ l1 x l2, jobsOf botId profileName st = Some (l1 ++ x :: l2)
                    ∧ jobsOf botId profileName st' = Some (l1 ++ l2)))
  ∧ (∀ botId profileName,
      storedHistory botId profileName st' = storedHistory botId profileName st
      ∨ (∃ entry, storedHistory botId profileName st'
                  = Some (entry :: historyEntries botId profileName st)
                  ∧ (inherited profileName = None
                     ∨ is_Some (storedHistory botId profileName st))))
  ∧ (∀ l r, objects st !! l = Some r →
            ∃ r', objects st' !! l = Some r'
                  ∧ id (result r') = id (result r)
                  ∧ time (result r') = time (result r)
                  ∧ comment (result r') = comment (result r)).

(** No key with a profile named like a member of [Object.prototype] has a
    list or a History sequence. *)
Definition plainKeys (st : AzurePublisher) : Prop :=
  ∀ botId profileName,
    is_Some (inherited profileName) →
    jobsOf botId profileName st = None
    ∧ storedHistory botId profileName st = None.

(** The status code and the message a settled deployment is recorded
    with. *)
Definition completionCode (deployed : option Thrown) : Z :=
  if deployed is None then 200 else 500.
Definition completionText (deployed : option Thrown) : option string :=
  match deployed with
  | None => Some "Success"
  | Some (TypeError text) | Some (Error text) => Some text
  | Some Nullish | Some (Other false _) => Some "publish error"
  | Some (Other true text) => text
  end.

(** ** Sample inputs *)

Module Sample.
Definition bot : BotId := {| botName := "bot"; botName_plain := eq_refl |}.

Definition subscription : string := "0a1b2c3d-4e5f-4a6b-8c7d-9e0f1a2b3c4d".

(** A version-5 hash: it takes a uuid as namespace and nothing else. *)
Definition hashV5 (values : list (option string)) (namespace : option string)
  : Completion string :=
  match namespace with
  | Some ns =>
      if isUuid ns then Normal "resource-1"
      else Abrupt (TypeError "Invalid UUID")
  | None => Abrupt (TypeError "Invalid UUID")
  end.

Definition world (jobId : string) (at_ : Z) : World :=
  {| uuid := jobId; now := at_; hash := hashV5;
     staging := None; settingsMerge := None |}.

(** A world whose template has no [appsettings.deployment.json]. *)
Definition brokenTemplate : World :=
  {| uuid := "job-1"; now := 1000; hash := hashV5;
     staging := None;
     settingsMerge := Some (Error "ENOENT: no such file or directory") |}.

Definition config (profile : string) (token : option string)
  : PublishConfig :=
  {| settings := "{}"; templatePath := "/runtime/azurewebapp";
     name := profile; subscriptionID := Some subscription;
     publishName := Some "mybot"; environment := Some "dev";
     location := Some "westus"; luisAuthoringKey := None;
     luisAuthoringRegion := None;
     provision := Some {| MicrosoftAppPassword := Some "secret" |};
     accessToken := token |}.

(** A profile with an access token that was never provisioned. *)
Definition unprovisioned : PublishConfig :=
  {| settings := "{}"; templatePath := "/runtime/azurewebapp";
     name := "production"; subscriptionID := Some subscription;
     publishName := Some "mybot"; environment := Some "dev";
     location := Some "westus"; luisAuthoringKey := None;
     luisAuthoringRegion := None; provision := None;
     accessToken := Some "token" |}.

(** A profile that lacks both the subscription and the access token. *)
Definition noSubscription : PublishConfig :=
  {| settings := "{}"; templatePath := "/runtime/azurewebapp";
     name := "production"; subscriptionID := None;
     publishName := Some "mybot"; environment := Some "dev";
     location := Some "westus"; luisAuthoringKey := None;
     luisAuthoringRegion := None; provision := None;
     accessToken := None |}.

Definition project : Project.t :=
  {| Project.id := bot; Project.name := "MyBot"; Project.files := [];
     Project.settings := None |}.

(** The same bot with an ejected runtime. *)
Definition ejected : Project.t :=
  {| Project.id := bot; Project.name := "MyBot"; Project.files := [];
     Project.settings :=
       Some {| Project.runtime :=
                 Some {| Project.customRuntime := true;
                         Project.path := Some "/bots/mybot/runtime" |} |} |}.

Definition metadata : Metadata.t :=
  {| Metadata.comment := Some "first release" |}.

Definition entry (jobId : string) (code : Z) : HistoryEntry :=
  {| entry_status := code; entry_id := jobId; entry_time := 0;
     entry_message := Some "Success"; entry_log := "";
     entry_comment := None |}.

Definition record (jobId : string) : JobRecord :=
  {| status := 202;
     result := {| id := jobId; time := 0;
                  message := Some "Accepted for publishing.";
                  log := "Publish starting..."; comment := None |} |}.

(** Two accepted publishes of the same bot and profile. *)
Definition twoJobs : M loc :=
  publish (world "job-1" 1000) (config "production" (Some "token"))
    project metadata;;
  publish (world "job-2" 2000) (config "production" (Some "token"))
    project metadata.

(** The state two accepted publishes leave behind. *)
Definition afterTwoJobs : AzurePublisher := stateOf (twoJobs constructor).

(** A store with one record that no list refers to yet. *)
Definition oneRecord : AzurePublisher :=
  with_objects {[0%nat := record "job-1"]} constructor.

(** One list for (bot, production), none for (bot, staging). *)
Definition oneProfile : AzurePublisher :=
  stateOf (addLoadingStatus bot "production" 0%nat oneRecord).

(** A publish for staging that is rejected, then one for production that
    is accepted: staging has a History and no list. *)
Definition stagingRejected : M loc :=
  publish (world "job-1" 1000) (config "staging" None) project metadata;;
  publish (world "job-2" 2000) (config "production" (Some "token"))
    project metadata.

(** The state a publish for staging leaves that was rejected for want of
    an access token. *)
Definition afterRejected : AzurePublisher :=
  stateOf (publish (world "job-1" 1000) (config "staging" None)
             project metadata constructor).

(** A History of two entries for (bot, production). *)
Definition twoEntries : AzurePublisher :=
  stateOf ((updateHistory bot "production" (entry "job-a" 200);;
            updateHistory bot "production" (entry "job-b" 500)) constructor).

Definition calls : list (BotId * string * HistoryEntry) :=
  [(bot, "production", entry "job-1" 200);
   (bot, "staging", entry "job-2" 500);
   (bot, "constructor", entry "job-x" 500);
   (bot, "production", entry "job-3" 200)].

(** A publish that is accepted, two log lines, its deployment that
    succeeds, a publish without access token, a publish for a profile
    named like a member of [Object.prototype], a completion for a job that
    was never started. *)
Definition events : list Event :=
  [Published (world "job-1" 1000) (config "production" (Some "token"))
     project metadata;
   Logged (Some "building");
   Logged (Some "deploying");
   Deployed bot "production" "job-1" "resource-1" None;
   Published (world "job-2" 2000) (config "production" None)
     project metadata;
   Published (world "job-3" 3000) (config "toString" (Some "token"))
     project metadata;
   Deployed bot "staging" "job-9" "resource-1" (Some Nullish)].
End Sample.
(** * Properties *)

(** ** Arrays *)

Section array_facts.
Context {A : Type}.
Implicit Types (l : list A) (p : A → Completion bool).

Lemma relative_nonneg len k :
  0 ≤ k → JsArray.relative len k = Z.min k len.
Proof. intros Hk. unfold JsArray.relative. destruct (Z.ltb_spec k 0); lia. Qed.

Lemma slice_to l e :
  0 ≤ e → JsArray.slice l 0 (Some e) = take (Z.to_nat e) l.
Proof.
  intros He. unfold JsArray.slice. rewrite !relative_nonneg by lia.
  rewrite (Z.min_l 0) by lia. rewrite Z.sub_0_r. cbn [Z.to_nat]. rewrite drop_0.
  destruct (Z.le_gt_cases e (Z.of_nat (length l))).
  - by rewrite Z.min_l by lia.
  - rewrite Z.min_r by lia. rewrite Nat2Z.id.
    rewrite !take_ge; [done | lia | lia].
Qed.

Lemma slice_from l s :
  0 ≤ s → JsArray.slice l s None = drop (Z.to_nat s) l.
Proof.
  intros Hs. unfold JsArray.slice. rewrite !relative_nonneg by lia.
  rewrite take_ge by (rewrite length_drop; lia).
  destruct (Z.le_gt_cases s (Z.of_nat (length l))).
  - by rewrite Z.min_l by lia.
  - rewrite Z.min_r by lia. rewrite Nat2Z.id.
    rewrite !drop_ge; [done | lia | lia].
Qed.

(** [l.slice(0, -1)] drops the last element. *)
Lemma slice_to_minus_one l :
  JsArray.slice l 0 (Some (-1)) = take (length l - 1) l.
Proof.
  unfold JsArray.slice, JsArray.relative. cbn [Z.ltb Z.compare].
  rewrite (Z.min_l 0) by lia. rewrite Z.sub_0_r. cbn [Z.to_nat]. rewrite drop_0.
  f_equal. lia.
Qed.

Lemma slice_before l1 x l2 :
  JsArray.slice (l1 ++ x :: l2) 0 (Some (Z.of_nat (length l1))) = l1.
Proof.
  rewrite slice_to by lia. rewrite Nat2Z.id. by rewrite take_app_length.
Qed.

Lemma slice_after l1 x l2 :
  JsArray.slice (l1 ++ x :: l2) (Z.of_nat (length l1) + 1) None = l2.
Proof.
  rewrite slice_from by lia.
  replace (Z.to_nat _) with (length l1 + 1)%nat by lia.
  rewrite <- drop_drop. rewrite drop_app_length. done.
Qed.

Lemma get_middle l1 x l2 :
  JsArray.get (l1 ++ x :: l2) (Z.of_nat (length l1)) = Some x.
Proof.
  unfold JsArray.get. destruct (Z.ltb_spec (Z.of_nat (length l1)) 0); [lia |].
  rewrite Nat2Z.id. by rewrite list_lookup_middle.
Qed.

Lemma get_last l :
  JsArray.get l (Z.of_nat (length l) - 1) = last l.
Proof.
  unfold JsArray.get. destruct l as [| x l] using rev_ind; [done |].
  rewrite length_app. cbn [length].
  destruct (Z.ltb_spec (Z.of_nat (length l + 1) - 1) 0); [lia |].
  replace (Z.to_nat _) with (length l) by lia.
  by rewrite list_lookup_middle, last_snoc.
Qed.

(** The first element satisfying [p], when the callback does not throw. *)
Lemma findIndexFrom_first p l1 x l2 i :
  Forall (λ y, p y = Normal false) l1 → p x = Normal true →
  JsArray.findIndexFrom p (l1 ++ x :: l2) i
  = Normal (i + Z.of_nat (length l1)).
Proof.
  intros Hl1 Hx. revert i. induction Hl1 as [| y l1 Hy _ IH]; intros i; cbn.
  - rewrite Hx. f_equal. lia.
  - rewrite Hy, IH. f_equal. lia.
Qed.

Lemma findIndexFrom_none p l i :
  Forall (λ y, p y = Normal false) l →
  JsArray.findIndexFrom p l i = Normal (-1).
Proof.
  intros Hl. revert i. induction Hl as [| y l Hy _ IH]; intros i; cbn; [done |].
  by rewrite Hy, IH.
Qed.

Lemma find_first p l1 x l2 :
  Forall (λ y, p y = Normal false) l1 → p x = Normal true →
  JsArray.find p (l1 ++ x :: l2) = Normal (Some x).
Proof.
  intros Hl1 Hx. induction Hl1 as [| y l1 Hy _ IH]; cbn.
  - by rewrite Hx.
  - by rewrite Hy, IH.
Qed.

(** A callback that never throws splits the array at its first hit. *)
Lemma first_hit p l :
  Forall (λ y, ∃ b, p y = Normal b) l →
  Forall (λ y, p y = Normal false) l
  ∨ ∃ l1 x l2, l = l1 ++ x :: l2
      ∧ Forall (λ y, p y = Normal false) l1 ∧ p x = Normal true.
Proof.
  induction 1 as [| y l [b Hb] _ IH]; [by left |].
  destruct b.
  - right. exists [], y, l. by repeat split.
  - destruct IH as [IH | (l1 & x & l2 & -> & Hl1 & Hx)].
    + left. by constructor.
    + right. exists (y :: l1), x, l2. repeat split; [by constructor | done].
Qed.
End array_facts.


(** ** Plain objects *)

Lemma getProperty_own {A} (o : gmap string A) name a :
  o !! name = Some a → getProperty o name = Own a.
Proof. intros Ho. unfold getProperty. by rewrite Ho. Qed.

Lemma getProperty_missing {A} (o : gmap string A) name :
  o !! name = None → inherited name = None → getProperty o name = Missing.
Proof. intros Ho Hname. unfold getProperty. by rewrite Ho, Hname. Qed.

Lemma getProperty_inherited {A} (o : gmap string A) name m :
  o !! name = None → inherited name = Some m →
  getProperty o name = Inherited m.
Proof. intros Ho Hname. unfold getProperty. by rewrite Ho, Hname. Qed.

(** ** Job Status Table *)

Lemma hasId_other o jobId l j :
  jobIdAt o l = Some j → j ≠ jobId → hasId o jobId l = Normal false.
Proof.
  unfold jobIdAt, hasId. destruct (o !! l) as [r |]; [| done].
  intros [= <-] Hne. by rewrite bool_decide_eq_false_2.
Qed.

Lemma hasId_same o jobId l :
  jobIdAt o l = Some jobId → hasId o jobId l = Normal true.
Proof.
  unfold jobIdAt, hasId. destruct (o !! l) as [r |]; [| done].
  intros [= <-]. by rewrite bool_decide_eq_true_2.
Qed.

Lemma hasId_record o jobId l :
  is_Some (o !! l) → ∃ b, hasId o jobId l = Normal b.
Proof. intros [r Hr]. unfold hasId. rewrite Hr. eauto. Qed.

Lemma hasId_false_inv o jobId l :
  hasId o jobId l = Normal false →
  ∃ j, jobIdAt o l = Some j ∧ j ≠ jobId.
Proof.
  unfold hasId, jobIdAt. destruct (o !! l) as [r |]; [| done].
  intros [= Hid%bool_decide_eq_false]. cbn. eauto.
Qed.

Lemma hasId_true_inv o jobId l :
  hasId o jobId l = Normal true →
  ∃ r, o !! l = Some r ∧ id (result r) = jobId.
Proof.
  unfold hasId. destruct (o !! l) as [r |]; [| done].
  intros [= Hid%bool_decide_eq_true]. eauto.
Qed.

Lemma unknownJob_hasId o jobId jobs :
  unknownJob o jobId jobs →
  Forall (λ l, hasId o jobId l = Normal false) jobs.
Proof.
  intros H. eapply Forall_impl; [exact H |].
  intros l (j & Hj & Hne). by eapply hasId_other.
Qed.

Lemma jobsOf_Some botId profileName st jobs :
  jobsOf botId profileName st = Some jobs →
  ∃ profiles, publishingBots st !! botId = Some profiles
              ∧ profiles !! profileName = Some jobs.
Proof.
  unfold jobsOf. destruct (publishingBots st !! botId) as [profiles |]; [| done].
  cbn. eauto.
Qed.

Lemma jobsOf_put botId profileName jobs profiles st :
  jobsOf botId profileName
    (with_publishingBots
       (<[botId := <[profileName := jobs]> profiles]> (publishingBots st)) st)
  = Some jobs.
Proof.
  unfold jobsOf. cbn. rewrite lookup_insert_eq. cbn. by rewrite lookup_insert_eq.
Qed.

Lemma jobsOf_put_ne botId profileName b p jobs profiles st :
  publishingBots st !! botId = Some profiles ∨
    (publishingBots st !! botId = None ∧ profiles = ∅) →
  (b, p) ≠ (botId, profileName) →
  jobsOf b p
    (with_publishingBots
       (<[botId := <[profileName := jobs]> profiles]> (publishingBots st)) st)
  = jobsOf b p st.
Proof.
  intros Hprofiles Hne. unfold jobsOf. cbn.
  destruct (decide (b = botId)) as [-> |].
  - rewrite lookup_insert_eq. cbn. rewrite lookup_insert_ne by congruence.
    destruct Hprofiles as [-> | [-> ->]]; done.
  - by rewrite lookup_insert_ne.
Qed.

(** Storing the object of a bot again, or an empty one for a bot that had
    none, changes no list. *)
Lemma jobsOf_touch botId b p st :
  jobsOf b p
    (with_publishingBots
       (<[botId := default ∅ (publishingBots st !! botId)]> (publishingBots st))
       st)
  = jobsOf b p st.
Proof.
  unfold jobsOf. cbn. destruct (decide (b = botId)) as [-> |].
  - rewrite lookup_insert_eq. by destruct (publishingBots st !! botId).
  - by rewrite lookup_insert_ne.
Qed.

(** The three ways [addLoadingStatus] can end. *)
Lemma addLoadingStatus_appends (botId : BotId) profileName l st :
  inherited profileName = None ∨ is_Some (jobsOf botId profileName st) →
  ∃ st',
    addLoadingStatus botId profileName l st = Returns () st'
    ∧ jobsOf botId profileName st'
      = Some (default [] (jobsOf botId profileName st) ++ [l])
    ∧ (∀ b p, (b, p) ≠ (botName botId, profileName) →
              jobsOf b p st' = jobsOf b p st)
    ∧ objects st' = objects st ∧ histories st' = histories st
    ∧ logMessages st' = logMessages st
    ∧ projectFolders st' = projectFolders st.
Proof.
  intros Hkey. unfold addLoadingStatus.
  assert (publishingBots st !! botName botId
          = Some (default ∅ (publishingBots st !! botName botId))
          ∨ (publishingBots st !! botName botId = None
             ∧ default ∅ (publishingBots st !! botName botId) = ∅)) as Hbot
    by (destruct (publishingBots st !! botName botId); auto).
  destruct (default ∅ (publishingBots st !! botName botId) !! profileName)
    as [jobs |] eqn:Hprofile.
  - rewrite (getProperty_own _ _ _ Hprofile).
    eexists. split; [reflexivity |]. split.
    + rewrite jobsOf_put. unfold jobsOf, JsArray.push. clear Hbot.
      destruct (publishingBots st !! botName botId); cbn in *;
        [by rewrite Hprofile | by rewrite lookup_empty in Hprofile].
    + split; [| done]. intros b p Hne. by apply jobsOf_put_ne.
  - assert (inherited profileName = None) as Hplain.
    { destruct Hkey as [| [jobs Hjobs]]; [done |]. exfalso.
      unfold jobsOf in Hjobs.
      destruct (publishingBots st !! botName botId); cbn in *; congruence. }
    rewrite (getProperty_missing _ _ Hprofile Hplain).
    eexists. split; [reflexivity |]. split.
    + rewrite jobsOf_put. unfold jobsOf, JsArray.push. clear Hbot.
      destruct (publishingBots st !! botName botId); cbn in *;
        [by rewrite Hprofile | done].
    + split; [| done]. intros b p Hne. by apply jobsOf_put_ne.
Qed.

Lemma addLoadingStatus_inherited (botId : BotId) profileName l st m :
  jobsOf botId profileName st = None → inherited profileName = Some m →
  ∃ st',
    addLoadingStatus botId profileName l st = Throws notAFunction st'
    ∧ (∀ b p, jobsOf b p st' = jobsOf b p st)
    ∧ objects st' = objects st ∧ histories st' = histories st
    ∧ logMessages st' = logMessages st
    ∧ projectFolders st' = projectFolders st.
Proof.
  intros Hjobs Hname. unfold addLoadingStatus.
  rewrite (getProperty_inherited _ _ m); [| | done].
  - eexists. split; [reflexivity |]. split; [| done].
    intros b p. apply jobsOf_touch.
  - unfold jobsOf in Hjobs.
    destruct (publishingBots st !! botName botId); cbn in *; [done |].
    apply lookup_empty.
Qed.

(** Removal of a job that is in the list takes out its first record and
    keeps the order of the others. *)
Lemma removeLoadingStatus_first (botId : BotId) profileName jobId st l1 x l2 :
  jobsOf botId profileName st = Some (l1 ++ x :: l2) →
  unknownJob (objects st) jobId l1 →
  jobIdAt (objects st) x = Some jobId →
  ∃ st', removeLoadingStatus botId profileName jobId st = Returns (Some x) st'
    ∧ jobsOf botId profileName st' = Some (l1 ++ l2)
    ∧ (∀ b p, (b, p) ≠ (botName botId, profileName) →
              jobsOf b p st' = jobsOf b p st)
    ∧ objects st' = objects st ∧ histories st' = histories st
    ∧ logMessages st' = logMessages st
    ∧ projectFolders st' = projectFolders st.
Proof.
  intros (profiles & Hbot & Hprofile)%jobsOf_Some Hl1%unknownJob_hasId Hx%hasId_same.
  unfold removeLoadingStatus. rewrite Hbot, (getProperty_own _ _ _ Hprofile).
  unfold JsArray.findIndex. rewrite findIndexFrom_first by done.
  rewrite Z.add_0_l, get_middle, slice_before, slice_after.
  eexists. split; [done |]. split; [apply jobsOf_put |].
  split; [| done]. intros b p Hne. apply jobsOf_put_ne; eauto.
Qed.

(** Removal of a job that is not in the list: [findIndex] answers [-1],
    [slice(0, -1)] keeps all but the last element and [slice(0)] the whole
    list. *)
Lemma removeLoadingStatus_unknown (botId : BotId) profileName jobId st jobs :
  jobsOf botId profileName st = Some jobs →
  unknownJob (objects st) jobId jobs →
  ∃ st', removeLoadingStatus botId profileName jobId st = Returns None st'
    ∧ jobsOf botId profileName st' = Some (take (length jobs - 1) jobs ++ jobs).
Proof.
  intros (profiles & Hbot & Hprofile)%jobsOf_Some Hjobs%unknownJob_hasId.
  unfold removeLoadingStatus. rewrite Hbot, (getProperty_own _ _ _ Hprofile).
  unfold JsArray.findIndex. rewrite findIndexFrom_none by done.
  rewrite slice_to_minus_one. cbn [Z.add Z.opp]. rewrite slice_from by lia.
  cbn [Z.to_nat]. rewrite drop_0.
  eexists. split; [done |]. apply jobsOf_put.
Qed.

Lemma getLoadingStatus_latest (botId : BotId) profileName st jobs :
  jobsOf botId profileName st = Some jobs →
  getLoadingStatus botId profileName "" st = Normal (last jobs).
Proof.
  intros (profiles & Hbot & Hprofile)%jobsOf_Some.
  unfold getLoadingStatus. rewrite Hbot, (getProperty_own _ _ _ Hprofile).
  destruct (Z.ltb_spec 0 (Z.of_nat (length jobs))).
  - rewrite bool_decide_eq_false_2 by naive_solver. by rewrite get_last.
  - destruct jobs; [done | cbn in *; lia].
Qed.

Lemma getLoadingStatus_no_bot (botId : BotId) profileName jobId st :
  publishingBots st !! botName botId = None →
  getLoadingStatus botId profileName jobId st = Normal None.
Proof. intros Hbot. unfold getLoadingStatus. by rewrite Hbot. Qed.

(** A bot that has lists, none of them for the profile asked for. *)
Lemma getLoadingStatus_no_profile (botId : BotId) profileName jobId st
    profiles :
  publishingBots st !! botName botId = Some profiles →
  profiles !! profileName = None →
  inherited profileName = None →
  getLoadingStatus botId profileName jobId st = Abrupt undefinedProperty.
Proof.
  intros Hbot Hprofile Hplain. unfold getLoadingStatus.
  by rewrite Hbot, getProperty_missing.
Qed.

Lemma getLoadingStatus_job (botId : BotId) profileName jobId st l1 x l2 :
  jobId ≠ "" →
  jobsOf botId profileName st = Some (l1 ++ x :: l2) →
  unknownJob (objects st) jobId l1 →
  jobIdAt (objects st) x = Some jobId →
  getLoadingStatus botId profileName jobId st = Normal (Some x).
Proof.
  intros Hid (profiles & Hbot & Hprofile)%jobsOf_Some Hl1%unknownJob_hasId
    Hx%hasId_same.
  unfold getLoadingStatus. rewrite Hbot, (getProperty_own _ _ _ Hprofile).
  destruct (Z.ltb_spec 0 (Z.of_nat (length (l1 ++ x :: l2)))) as [_ | Hlen].
  - rewrite bool_decide_eq_true_2 by done. by apply find_first.
  - rewrite length_app in Hlen. cbn in Hlen. lia.
Qed.

Lemma find_none {A} (p : A → Completion bool) (l : list A) :
  Forall (λ y, p y = Normal false) l → JsArray.find p l = Normal None.
Proof. induction 1 as [| y l Hy _ IH]; [done |]. cbn. by rewrite Hy. Qed.

Lemma getLoadingStatus_unknown_job (botId : BotId) profileName jobId st jobs :
  jobId ≠ "" →
  jobsOf botId profileName st = Some jobs →
  unknownJob (objects st) jobId jobs →
  getLoadingStatus botId profileName jobId st = Normal None.
Proof.
  intros Hid (profiles & Hbot & Hprofile)%jobsOf_Some Hjobs%unknownJob_hasId.
  unfold getLoadingStatus. rewrite Hbot, (getProperty_own _ _ _ Hprofile).
  destruct (0 <? Z.of_nat (length jobs)); [| done].
  rewrite bool_decide_eq_true_2 by done. by apply find_none.
Qed.


(** Adding a record whose job id no record of the key has, and then
    removing that job id, hands back the very record that was added and
    leaves the list of the key as it was before. *)
Lemma add_then_remove (botId : BotId) profileName l r st :
  inherited profileName = None ∨ is_Some (jobsOf botId profileName st) →
  objects st !! l = Some r →
  unknownJob (objects st) (id (result r))
    (default [] (jobsOf botId profileName st)) →
  ∃ st1 st',
    addLoadingStatus botId profileName l st = Returns () st1
    ∧ removeLoadingStatus botId profileName (id (result r)) st1
      = Returns (Some l) st'
    ∧ jobsOf botId profileName st'
      = Some (default [] (jobsOf botId profileName st)).
Proof.
  intros Hkey Hl Hfresh.
  destruct (addLoadingStatus_appends botId profileName l st)
    as (st1 & Hadd & Hjobs1 & _ & Hobjects1 & _); [done |].
  destruct (removeLoadingStatus_first botId profileName (id (result r)) st1
              (default [] (jobsOf botId profileName st)) l [])
    as (st' & Hrun & Hjobs & _).
  - exact Hjobs1.
  - by rewrite Hobjects1.
  - unfold jobIdAt. by rewrite Hobjects1, Hl.
  - exists st1, st'. rewrite app_nil_r in Hjobs. by rewrite Hrun, Hjobs.
Qed.

(** For a profile named like a member of [Object.prototype], without a
    list of its own, neither call gets to the list. *)
Lemma add_then_remove_inherited (botId : BotId) profileName l jobId st m :
  inherited profileName = Some m →
  jobsOf botId profileName st = None →
  ∃ st1,
    addLoadingStatus botId profileName l st = Throws notAFunction st1
    ∧ jobsOf botId profileName st1 = None
    ∧ removeLoadingStatus botId profileName jobId st1
      = Throws notAFunction st1.
Proof.
  intros Hname Hjobs. unfold addLoadingStatus, removeLoadingStatus.
  assert (default ∅ (publishingBots st !! botName botId) !! profileName
          = None) as Hprofile.
  { unfold jobsOf in Hjobs.
    destruct (publishingBots st !! botName botId); cbn in *; [done |].
    apply lookup_empty. }
  rewrite (getProperty_inherited _ _ m) by done.
  eexists. split; [reflexivity |]. split.
  - by rewrite jobsOf_touch.
  - cbn [publishingBots with_publishingBots]. rewrite lookup_insert_eq.
    by rewrite (getProperty_inherited _ _ m).
Qed.

(** C5. For a record whose job id no record of the key has:
    [addLoadingStatus] followed by [removeLoadingStatus] of that job id
    hands back the very record that was added and leaves the list of the
    key as it was before (an absent list counts as empty), so its length is
    the prior length, whenever the key has a list or the profile name names
    no member of [Object.prototype]. For a profile named like such a
    member, without a list of its own, [addLoadingStatus] throws, no list is
    created, and [removeLoadingStatus] throws as well. *)
Theorem add_then_remove_restores (botId : BotId) profileName l r st :
  objects st !! l = Some r →
  unknownJob (objects st) (id (result r))
    (default [] (jobsOf botId profileName st)) →
  (inherited profileName = None ∨ is_Some (jobsOf botId profileName st) →
   ∃ st1 st',
     addLoadingStatus botId profileName l st = Returns () st1
     ∧ removeLoadingStatus botId profileName (id (result r)) st1
       = Returns (Some l) st'
     ∧ jobsOf botId profileName st'
       = Some (default [] (jobsOf botId profileName st))
     ∧ length (default [] (jobsOf botId profileName st'))
       = length (default [] (jobsOf botId profileName st)))
  ∧ (is_Some (inherited profileName) →
     jobsOf botId profileName st = None →
     ∃ st1,
       addLoadingStatus botId profileName l st = Throws notAFunction st1
       ∧ jobsOf botId profileName st1 = None
       ∧ removeLoadingStatus botId profileName (id (result r)) st1
         = Throws notAFunction st1).
Proof.
  intros Hl Hfresh. split.
  - intros Hkey.
    destruct (add_then_remove botId profileName l r st Hkey Hl Hfresh)
      as (st1 & st' & Hadd & Hremove & Hjobs).
    exists st1, st'. by rewrite Hjobs.
  - intros [m Hname] Hjobs. by eapply add_then_remove_inherited.
Qed.

(** ** History Store *)

Lemma storedHistory_Some botId profileName st entries :
  storedHistory botId profileName st = Some entries →
  ∃ profiles, histories st !! botId = Some profiles
              ∧ profiles !! profileName = Some entries.
Proof.
  unfold storedHistory. destruct (histories st !! botId) as [profiles |]; [| done].
  cbn. eauto.
Qed.

Lemma getHistory_own (botId : BotId) profileName st entries :
  storedHistory botId profileName st = Some entries →
  getHistory botId profileName st = Entries entries.
Proof.
  intros (profiles & Hbot & Hprofile)%storedHistory_Some.
  unfold getHistory. by rewrite Hbot, (getProperty_own _ _ _ Hprofile).
Qed.

(** For a profile name that names no member of [Object.prototype],
    [getHistory] hands out the stored entries, none for an unseen key. *)
Lemma getHistory_plain (botId : BotId) profileName st :
  inherited profileName = None →
  getHistory botId profileName st
  = Entries (historyEntries botId profileName st).
Proof.
  intros Hplain. unfold getHistory, historyEntries, storedHistory.
  destruct (histories st !! botName botId) as [profiles |]; [| done]. cbn.
  destruct (profiles !! profileName) as [entries |] eqn:Hprofile.
  - by rewrite (getProperty_own _ _ _ Hprofile).
  - by rewrite getProperty_missing.
Qed.

Lemma storedHistory_put botId profileName entries profiles st :
  storedHistory botId profileName
    (with_histories
       (<[botId := <[profileName := entries]> profiles]> (histories st)) st)
  = Some entries.
Proof.
  unfold storedHistory. cbn. rewrite lookup_insert_eq. cbn.
  by rewrite lookup_insert_eq.
Qed.

Lemma storedHistory_put_ne botId profileName b p entries profiles st :
  histories st !! botId = Some profiles ∨
    (histories st !! botId = None ∧ profiles = ∅) →
  (b, p) ≠ (botId, profileName) →
  storedHistory b p
    (with_histories
       (<[botId := <[profileName := entries]> profiles]> (histories st)) st)
  = storedHistory b p st.
Proof.
  intros Hprofiles Hne. unfold storedHistory. cbn.
  destruct (decide (b = botId)) as [-> |].
  - rewrite lookup_insert_eq. cbn. rewrite lookup_insert_ne by congruence.
    destruct Hprofiles as [-> | [-> ->]]; done.
  - by rewrite lookup_insert_ne.
Qed.

Lemma storedHistory_touch botId b p st :
  storedHistory b p
    (with_histories
       (<[botId := default ∅ (histories st !! botId)]> (histories st)) st)
  = storedHistory b p st.
Proof.
  unfold storedHistory. cbn. destruct (decide (b = botId)) as [-> |].
  - rewrite lookup_insert_eq. by destruct (histories st !! botId).
  - by rewrite lookup_insert_ne.
Qed.

(** [updateHistory] puts the entry in front of the sequence of the key,
    creating what is missing, when the profile name names no member of
    [Object.prototype] or the key has a sequence already. *)
Lemma updateHistory_stores (botId : BotId) profileName entry st :
  inherited profileName = None
  ∨ is_Some (storedHistory botId profileName st) →
  ∃ st',
    updateHistory botId profileName entry st = Returns () st'
    ∧ storedHistory botId profileName st'
      = Some (entry :: historyEntries botId profileName st)
    ∧ (∀ b p, (b, p) ≠ (botName botId, profileName) →
              storedHistory b p st' = storedHistory b p st)
    ∧ publishingBots st' = publishingBots st ∧ objects st' = objects st
    ∧ logMessages st' = logMessages st
    ∧ projectFolders st' = projectFolders st.
Proof.
  intros Hkey. unfold updateHistory, persist, historyEntries. cbn [PERSIST_HISTORY].
  assert (histories st !! botName botId
          = Some (default ∅ (histories st !! botName botId))
          ∨ (histories st !! botName botId = None
             ∧ default ∅ (histories st !! botName botId) = ∅)) as Hbot
    by (destruct (histories st !! botName botId); auto).
  destruct (default ∅ (histories st !! botName botId) !! profileName)
    as [entries |] eqn:Hprofile.
  - rewrite (getProperty_own _ _ _ Hprofile).
    eexists. split; [reflexivity |]. split.
    + rewrite storedHistory_put. unfold storedHistory, JsArray.unshift.
      clear Hbot. destruct (histories st !! botName botId); cbn in *;
        [by rewrite Hprofile | by rewrite lookup_empty in Hprofile].
    + split; [| done]. intros b p Hne. by apply storedHistory_put_ne.
  - assert (inherited profileName = None) as Hplain.
    { destruct Hkey as [| [entries Hentries]]; [done |]. exfalso.
      unfold storedHistory in Hentries.
      destruct (histories st !! botName botId); cbn in *; congruence. }
    rewrite (getProperty_missing _ _ Hprofile Hplain).
    eexists. split; [reflexivity |]. split.
    + rewrite storedHistory_put. unfold storedHistory, JsArray.unshift.
      clear Hbot. destruct (histories st !! botName botId); cbn in *;
        [by rewrite Hprofile | done].
    + split; [| done]. intros b p Hne. by apply storedHistory_put_ne.
Qed.

(** For a profile named like a member of [Object.prototype], without a
    sequence of its own, [updateHistory] throws and stores no entry. *)
Lemma updateHistory_inherited (botId : BotId) profileName entry st m :
  storedHistory botId profileName st = None →
  inherited profileName = Some m →
  ∃ st',
    updateHistory botId profileName entry st = Throws notAFunction st'
    ∧ (∀ b p, storedHistory b p st' = storedHistory b p st)
    ∧ publishingBots st' = publishingBots st ∧ objects st' = objects st
    ∧ logMessages st' = logMessages st
    ∧ projectFolders st' = projectFolders st.
Proof.
  intros Hstored Hname. unfold updateHistory.
  rewrite (getProperty_inherited _ _ m); [| | done].
  - eexists. split; [reflexivity |]. split; [| done].
    intros b p. apply storedHistory_touch.
  - unfold storedHistory in Hstored.
    destruct (histories st !! botName botId); cbn in *; [done |].
    apply lookup_empty.
Qed.

(** Whatever the key, [updateHistory] touches the History Store only, and
    there the sequence of its key only, by one entry in front at most. *)
Lemma updateHistory_effect (botId : BotId) profileName entry st :
  let st' := stateOf (updateHistory botId profileName entry st) in
  (historyEntries botId profileName st'
   = entry :: historyEntries botId profileName st
   ∨ historyEntries botId profileName st' = historyEntries botId profileName st)
  ∧ (∀ b p, (b, p) ≠ (botName botId, profileName) →
            historyEntries b p st' = historyEntries b p st)
  ∧ publishingBots st' = publishingBots st ∧ objects st' = objects st.
Proof.
  destruct (storedHistory botId profileName st) as [entries |] eqn:Hstored.
  - destruct (updateHistory_stores botId profileName entry st)
      as (st' & -> & Hkey & Hothers & Htable & Hobjects & _); [by right |].
    cbn. split; [left; unfold historyEntries at 1; by rewrite Hkey |].
    split; [| done]. intros b p Hne. unfold historyEntries. by rewrite Hothers.
  - destruct (inherited profileName) as [m |] eqn:Hname.
    + destruct (updateHistory_inherited botId profileName entry st m)
        as (st' & -> & Hall & Htable & Hobjects & _); [done .. |].
      cbn. unfold historyEntries.
      split; [right; by rewrite Hall |]. split; [| done].
      intros b p _. by rewrite Hall.
    + destruct (updateHistory_stores botId profileName entry st)
        as (st' & -> & Hkey & Hothers & Htable & Hobjects & _); [by left |].
      cbn. split; [left; unfold historyEntries at 1; by rewrite Hkey |].
      split; [| done]. intros b p Hne. unfold historyEntries. by rewrite Hothers.
Qed.

(** [updateHistory] leaves the sequences of all other keys alone, whether
    it returns or throws. *)
Lemma updateHistory_others (botId : BotId) profileName entry st b p :
  (b, p) ≠ (botName botId, profileName) →
  storedHistory b p (stateOf (updateHistory botId profileName entry st))
  = storedHistory b p st.
Proof.
  intros Hne.
  destruct (decide (inherited profileName = None
                    ∨ is_Some (storedHistory botId profileName st)))
    as [Hkey | Hnokey].
  - destruct (updateHistory_stores botId profileName entry st Hkey)
      as (st' & -> & _ & Hothers & _). by apply Hothers.
  - destruct (inherited profileName) as [m |] eqn:Hname; [| tauto].
    destruct (storedHistory botId profileName st) as [entries |] eqn:Hstored;
      [exfalso; apply Hnokey; right; by eexists |].
    destruct (updateHistory_inherited botId profileName entry st m)
      as (st' & -> & Hall & _); [done .. |]. apply Hall.
Qed.

(** After a call of [updateHistory] the bot has an object in the store,
    whether the call returned or threw, and no call takes one away. *)
Lemma updateHistory_makes_bot (botId : BotId) profileName entry st :
  is_Some (histories (stateOf (updateHistory botId profileName entry st))
             !! botName botId).
Proof.
  unfold updateHistory, persist. cbn [PERSIST_HISTORY].
  destruct (getProperty _ profileName); cbn; rewrite lookup_insert_eq;
    by eexists.
Qed.

Lemma updateHistory_keeps_bot (botId : BotId) profileName entry st b :
  is_Some (histories st !! b) →
  is_Some (histories (stateOf (updateHistory botId profileName entry st)) !! b).
Proof.
  intros Hbot. unfold updateHistory, persist. cbn [PERSIST_HISTORY].
  destruct (getProperty _ profileName); cbn;
    (destruct (decide (b = botName botId)) as [-> |];
     [rewrite lookup_insert_eq; by eexists | by rewrite lookup_insert_ne]).
Qed.

Lemma updateHistories_keep_bot calls st b :
  is_Some (histories st !! b) →
  is_Some (histories (updateHistories calls st) !! b).
Proof.
  revert st. induction calls as [| [[b' p] entry] calls IH]; intros st Hbot;
    [done |].
  unfold updateHistories in *. cbn [foldl fst snd].
  by apply IH, updateHistory_keeps_bot.
Qed.

(** A key named like a member of [Object.prototype] never gets a sequence,
    whatever is passed to [updateHistory]. *)
Lemma updateHistories_inherited botId profileName calls st m :
  inherited profileName = Some m →
  storedHistory botId profileName st = None →
  storedHistory botId profileName (updateHistories calls st) = None.
Proof.
  intros Hname. revert st.
  induction calls as [| [[b p] entry] calls IH]; intros st Hstored; [done |].
  unfold updateHistories in *. cbn [foldl fst snd]. apply IH.
  destruct (decide ((botName b, p) = (botId, profileName))) as [[= <- <-] | Hne].
  - destruct (updateHistory_inherited b p entry st m)
      as (st' & -> & Hall & _); [done .. |]. cbn. by rewrite Hall.
  - rewrite updateHistory_others by congruence. done.
Qed.

(** Once an entry was passed for a bot, the bot has an object in the
    store. *)
Lemma updateHistories_make_bot botId profileName calls st :
  entriesFor botId profileName calls ≠ [] →
  is_Some (histories (updateHistories calls st) !! botId).
Proof.
  revert st. induction calls as [| [[b p] entry] calls IH]; intros st;
    [done |].
  unfold updateHistories, entriesFor in *. cbn [foldl fst snd].
  rewrite filter_cons. cbn [fst snd]. case_decide as Hkey.
  - intros _. injection Hkey as <- <-.
    apply (updateHistories_keep_bot calls), updateHistory_makes_bot.
  - apply IH.
Qed.

(** For a profile name that names no member of [Object.prototype]: after
    any run of [updateHistory] calls, [getHistory] of the key returns the
    entries passed for it, newest first, in front of what it held. *)
Lemma getHistory_after_calls (botId : BotId) profileName calls st :
  inherited profileName = None →
  getHistory botId profileName (updateHistories calls st)
  = Entries (reverse (entriesFor botId profileName calls)
               ++ historyEntries botId profileName st).
Proof.
  intros Hplain. rewrite getHistory_plain by done. f_equal.
  revert st. induction calls as [| [[b p] entry] calls IH]; intros st; [done |].
  unfold updateHistories in *. cbn [foldl fst snd]. rewrite IH.
  unfold entriesFor. rewrite filter_cons. cbn [fst snd].
  destruct (updateHistory_effect b p entry st) as (Hkey & Hothers & _).
  destruct (decide ((botName b, p) = (botName botId, profileName)))
    as [[= Hb ->] | Hne].
  - rewrite fmap_cons, reverse_cons, <- app_assoc. cbn [snd app]. f_equal.
    destruct (updateHistory_stores b profileName entry st)
      as (st' & Hrun & Hstored & _); [by left |].
    rewrite Hrun. cbn [stateOf]. unfold historyEntries at 1.
    by rewrite <- Hb, Hstored, Hb.
  - f_equal. apply Hothers. congruence.
Qed.

(** C6. After any run of [updateHistory] calls, for this and for other
    keys, [getHistory] of a key whose profile name names no member of
    [Object.prototype] returns the entries passed for the key, newest first,
    in front of what the key held before, and the empty sequence for a key
    that holds nothing. For a profile named like a member of
    [Object.prototype], without a sequence of its own, no entry is ever
    stored, and once an entry was passed for the key [getHistory] returns
    that member in place of a sequence. *)
Theorem getHistory_newest_first (botId : BotId) profileName calls st :
  (inherited profileName = None →
   getHistory botId profileName (updateHistories calls st)
   = Entries (reverse (entriesFor botId profileName calls)
                ++ historyEntries botId profileName st)
   ∧ (storedHistory botId profileName st = None →
      getHistory botId profileName st = Entries []))
  ∧ (∀ m, inherited profileName = Some m →
          storedHistory botId profileName st = None →
          storedHistory botId profileName (updateHistories calls st) = None
          ∧ (entriesFor botId profileName calls ≠ [] →
             getHistory botId profileName (updateHistories calls st)
             = BuiltIn m)).
Proof.
  split.
  - intros Hplain. split; [by apply getHistory_after_calls |].
    intros Hnone. rewrite getHistory_plain by done.
    unfold historyEntries. by rewrite Hnone.
  - intros m Hname Hstored.
    pose proof (updateHistories_inherited botId profileName calls st m
                  Hname Hstored) as Hnever.
    split; [done |]. intros Hpassed.
    destruct (updateHistories_make_bot botId profileName calls st Hpassed)
      as [profiles Hbot].
    unfold getHistory. rewrite Hbot.
    unfold storedHistory in Hnever. rewrite Hbot in Hnever. cbn in Hnever.
    by rewrite (getProperty_inherited _ _ m).
Qed.

(** ** Publish coordinator *)

Lemma fresh_object (o : gmap loc JobRecord) : o !! fresh (dom o) = None.
Proof. apply not_elem_of_dom, is_fresh. Qed.

Lemma historyEntries_histories botId profileName st st' :
  histories st = histories st' →
  historyEntries botId profileName st = historyEntries botId profileName st'.
Proof. unfold historyEntries, storedHistory. by intros ->. Qed.

Lemma storedHistory_histories botId profileName st st' :
  histories st = histories st' →
  storedHistory botId profileName st = storedHistory botId profileName st'.
Proof. unfold storedHistory. by intros ->. Qed.

Lemma jobsOf_publishingBots botId profileName st st' :
  publishingBots st = publishingBots st' →
  jobsOf botId profileName st = jobsOf botId profileName st'.
Proof. unfold jobsOf. by intros ->. Qed.

Lemma getLoadingStatus_ext (botId : BotId) profileName st st' :
  publishingBots st = publishingBots st' →
  getLoadingStatus botId profileName "" st
  = getLoadingStatus botId profileName "" st'.
Proof.
  intros Htable. unfold getLoadingStatus. rewrite Htable.
  destruct (publishingBots st' !! botName botId) as [profiles |]; [| done].
  destruct (getProperty profiles profileName) as [jobs | m |]; [| done | done].
  by rewrite bool_decide_eq_false_2 by naive_solver.
Qed.

Ltac run :=
  unfold mbind, M_bind, bind, modify, try_catch, detached, throw, mret,
    M_ret, ret, gets, lift, read.

Lemma publishTry_invalid w config project metadata st :
  truthy (accessToken config) = false ∨ provision config = None →
  publishTry w config project metadata st
  = Throws (Error (if truthy (accessToken config)
                   then missingProvision else missingAccessToken)) st.
Proof.
  intros Hinvalid. unfold publishTry. run.
  destruct (truthy (accessToken config)); cbn [negb]; [| done].
  by destruct Hinvalid as [| ->].
Qed.

Lemma publishTry_merge_fails w config project metadata st pv e :
  truthy (accessToken config) = true → provision config = Some pv →
  settingsMerge w = Some e →
  publishTry w config project metadata st = Throws e st.
Proof.
  intros Htoken Hprovision Hmerge. unfold publishTry. run.
  by rewrite Htoken, Hprovision, Hmerge.
Qed.

(** The [try] block up to the call of [addLoadingStatus]. *)
Lemma publishTry_reaches_add w config project metadata st pv :
  truthy (accessToken config) = true → provision config = Some pv →
  settingsMerge w = None →
  publishTry w config project metadata st
  = match addLoadingStatus (Project.id project) (name config)
            (fresh (dom (objects st)))
            (with_objects
               (<[fresh (dom (objects st)) := accepted w metadata]> (objects st))
               (with_logMessages [Some "Publish starting..."] st)) with
    | Returns _ st' => Returns (fresh (dom (objects st))) st'
    | Throws e st' => Throws e st'
    end.
Proof.
  intros Htoken Hprovision Hmerge. unfold publishTry, alloc. run.
  by rewrite Htoken, Hprovision, Hmerge.
Qed.

Lemma publishTry_accepted w config project metadata st pv :
  truthy (accessToken config) = true → provision config = Some pv →
  settingsMerge w = None →
  inherited (name config) = None →
  ∃ st',
    publishTry w config project metadata st
    = Returns (fresh (dom (objects st))) st'
    ∧ jobsOf (Project.id project) (name config) st'
      = Some (default [] (jobsOf (Project.id project) (name config) st)
                ++ [fresh (dom (objects st))])
    ∧ (∀ b p, (b, p) ≠ (botName (Project.id project), name config) →
              jobsOf b p st' = jobsOf b p st)
    ∧ objects st'
      = <[fresh (dom (objects st)) := accepted w metadata]> (objects st)
    ∧ histories st' = histories st
    ∧ logMessages st' = [Some "Publish starting..."]
    ∧ projectFolders st' = projectFolders st.
Proof.
  intros Htoken Hprovision Hmerge Hplain.
  erewrite publishTry_reaches_add by done.
  edestruct (addLoadingStatus_appends (Project.id project) (name config))
    as (st' & -> & Hjobs & Hframe & Hobjects & Hhistories & Hlog & Hfolders);
    [by left |].
  exists st'. by rewrite Hobjects, Hhistories, Hlog, Hfolders.
Qed.

(** The [catch] block for a thrown value that has a [message] to read. *)
Lemma publishCatch_message w config project metadata resourcekey err text st :
  messageOf err = Normal text →
  inherited (name config) = None
  ∨ is_Some (storedHistory (Project.id project) (name config) st) →
  ∃ l st',
    publishCatch w config project metadata resourcekey err st = Returns l st'
    ∧ objects st !! l = None
    ∧ objects st'
      = <[l := failure w metadata (logMessages st ++ [text])]> (objects st)
    ∧ publishingBots st' = publishingBots st
    ∧ storedHistory (Project.id project) (name config) st'
      = Some (snapshot (failure w metadata (logMessages st ++ [text]))
                :: historyEntries (Project.id project) (name config) st)
    ∧ logMessages st' = logMessages st ++ [text]
    ∧ projectFolders st' = delete resourcekey (projectFolders st).
Proof.
  intros Htext Hkey.
  unfold publishCatch, pushLogMessage, alloc, deref, cleanup, JsArray.push. run.
  rewrite Htext. cbn [objects with_objects with_logMessages logMessages].
  rewrite lookup_insert_eq.
  match goal with
  | |- context [updateHistory ?b ?p ?e ?s] =>
      destruct (updateHistory_stores b p e s)
        as (st' & -> & Hstored & _ & Htable & Hobjects & Hlog & Hfolders);
        [exact Hkey |]
  end.
  cbn [stateOf]. eexists _, _. split; [reflexivity |].
  split; [apply fresh_object |].
  cbn [objects publishingBots with_projectFolders logMessages projectFolders].
  rewrite Hobjects, Htable, Hlog, Hfolders.
  split; [done |]. split; [done |]. split; [| done].
  etrans; [| exact Hstored]. done.
Qed.

(** The [catch] block for a profile named like a member of
    [Object.prototype]: the call of [updateHistory] throws, which nobody
    sees, and no entry is stored. *)
Lemma publishCatch_inherited w config project metadata resourcekey err text st
    m :
  messageOf err = Normal text →
  inherited (name config) = Some m →
  storedHistory (Project.id project) (name config) st = None →
  ∃ l st',
    publishCatch w config project metadata resourcekey err st = Returns l st'
    ∧ objects st !! l = None
    ∧ objects st'
      = <[l := failure w metadata (logMessages st ++ [text])]> (objects st)
    ∧ publishingBots st' = publishingBots st
    ∧ (∀ b p, storedHistory b p st' = storedHistory b p st)
    ∧ logMessages st' = logMessages st ++ [text]
    ∧ projectFolders st' = delete resourcekey (projectFolders st).
Proof.
  intros Htext Hname Hstored.
  unfold publishCatch, pushLogMessage, alloc, deref, cleanup, JsArray.push. run.
  rewrite Htext. cbn [objects with_objects with_logMessages logMessages].
  rewrite lookup_insert_eq.
  match goal with
  | |- context [updateHistory ?b ?p ?e ?s] =>
      destruct (updateHistory_inherited b p e s m)
        as (st' & -> & Hall & Htable & Hobjects & Hlog & Hfolders);
        [exact Hstored | exact Hname |]
  end.
  cbn [stateOf]. eexists _, _. split; [reflexivity |].
  split; [apply fresh_object |].
  cbn [objects publishingBots with_projectFolders logMessages projectFolders].
  rewrite Hobjects, Htable, Hlog, Hfolders.
  split; [done |]. split; [done |]. split; [| done].
  intros b p. etrans; [| apply Hall]. done.
Qed.

Lemma publish_staged w config project metadata st resourcekey :
  resourceKey w config project = Normal resourcekey →
  staging w = None →
  publish w config project metadata st
  = try_catch (publishTry w config project metadata)
      (publishCatch w config project metadata resourcekey)
      (with_projectFolders
         (<[resourcekey := runtimePath config project]> (projectFolders st)) st).
Proof.
  intros Hkey Hstaging. unfold publish, init. run.
  by rewrite Hkey, Hstaging.
Qed.

(** A publish that reaches validation and fails it. *)
Lemma publish_rejected w config project metadata st resourcekey :
  resourceKey w config project = Normal resourcekey →
  staging w = None →
  truthy (accessToken config) = false ∨ provision config = None →
  inherited (name config) = None
  ∨ is_Some (storedHistory (Project.id project) (name config) st) →
  ∃ l st' text,
    publish w config project metadata st = Returns l st'
    ∧ text = (if truthy (accessToken config)
              then missingProvision else missingAccessToken)
    ∧ objects st !! l = None
    ∧ objects st' !! l
      = Some (failure w metadata (logMessages st ++ [Some text]))
    ∧ publishingBots st' = publishingBots st
    ∧ getHistory (Project.id project) (name config) st'
      = Entries (snapshot (failure w metadata (logMessages st ++ [Some text]))
                   :: historyEntries (Project.id project) (name config) st)
    ∧ projectFolders st' !! resourcekey = None.
Proof.
  intros Hkey Hstaging Hinvalid Hplain.
  rewrite (publish_staged _ _ _ _ _ _ Hkey Hstaging). unfold try_catch.
  rewrite publishTry_invalid by done.
  edestruct (publishCatch_message w config project metadata resourcekey)
    as (l & st' & -> & Hnew & Hobjects & Htable & Hstored & _ & Hfolders);
    [reflexivity | done |].
  eexists l, st', _. split; [done |]. split; [done |].
  split; [exact Hnew |].
  split; [by rewrite Hobjects, lookup_insert_eq |].
  split; [exact Htable |].
  split; [by apply getHistory_own |].
  rewrite Hfolders. apply lookup_delete_eq.
Qed.

(** A publish that fails validation for a profile named like a member of
    [Object.prototype]: a record is returned and no History entry stored. *)
Lemma publish_rejected_inherited w config project metadata st resourcekey m :
  resourceKey w config project = Normal resourcekey →
  staging w = None →
  truthy (accessToken config) = false ∨ provision config = None →
  inherited (name config) = Some m →
  storedHistory (Project.id project) (name config) st = None →
  ∃ l st' text,
    publish w config project metadata st = Returns l st'
    ∧ text = (if truthy (accessToken config)
              then missingProvision else missingAccessToken)
    ∧ objects st !! l = None
    ∧ objects st' !! l
      = Some (failure w metadata (logMessages st ++ [Some text]))
    ∧ publishingBots st' = publishingBots st
    ∧ (∀ b p, storedHistory b p st' = storedHistory b p st)
    ∧ projectFolders st' !! resourcekey = None.
Proof.
  intros Hkey Hstaging Hinvalid Hname Hstored.
  rewrite (publish_staged _ _ _ _ _ _ Hkey Hstaging). unfold try_catch.
  rewrite publishTry_invalid by done.
  edestruct (publishCatch_inherited w config project metadata resourcekey)
    as (l & st' & -> & Hnew & Hobjects & Htable & Hall & _ & Hfolders);
    [reflexivity | exact Hname | exact Hstored |].
  eexists l, st', _. split; [done |]. split; [done |].
  split; [exact Hnew |].
  split; [by rewrite Hobjects, lookup_insert_eq |].
  split; [exact Htable |].
  split; [intros b p; etrans; [apply Hall | done] |].
  rewrite Hfolders. apply lookup_delete_eq.
Qed.

(** A publish whose resource key cannot be computed throws what [hash]
    threw, before anything is staged. *)
Lemma publish_unkeyed w config project metadata st e :
  resourceKey w config project = Abrupt e →
  publish w config project metadata st = Throws e st.
Proof. intros Hkey. unfold publish. run. by rewrite Hkey. Qed.

(** ** Text *)

Lemma contains_app_r needle a b :
  contains needle b = true → contains needle (a +:+ b) = true.
Proof.
  intros Hb. induction a as [| c a IH]; [done |].
  change (String c a +:+ b) with (String c (a +:+ b)).
  cbn [contains]. rewrite IH. apply orb_true_r.
Qed.

Lemma lower_app a b : lower (a +:+ b) = lower a +:+ lower b.
Proof.
  induction a as [| c a IH]; [done |].
  change (String c a +:+ b) with (String c (a +:+ b)). cbn [lower].
  by rewrite IH.
Qed.

Lemma append_assoc a b c : (a +:+ b) +:+ c = a +:+ b +:+ c.
Proof.
  induction a as [| x a IH]; [done |].
  change (String x a +:+ b) with (String x (a +:+ b)).
  change (String x (a +:+ b) +:+ c) with (String x ((a +:+ b) +:+ c)).
  by rewrite IH.
Qed.

Lemma concat_snoc sep lines x :
  ∃ before, String.concat sep (lines ++ [x]) = before +:+ x.
Proof.
  induction lines as [| y lines [before IH]].
  - by exists "".
  - exists (y +:+ sep +:+ before). cbn [app String.concat]. rewrite IH.
    destruct (lines ++ [x]) eqn:Hsnoc.
    + by destruct lines.
    + by rewrite !append_assoc.
Qed.

(** A word of the last log line is a word of the joined log. *)
Lemma mentions_last_line word lines x :
  mentions word x = true →
  mentions word (JsArray.join newline (lines ++ [Some x])) = true.
Proof.
  intros Hx. unfold JsArray.join. rewrite fmap_app.
  change (default "" <$> [Some x]) with [x].
  destruct (concat_snoc newline (default "" <$> lines) x) as [before ->].
  unfold mentions. rewrite lower_app. by apply contains_app_r.
Qed.

(** C10. A publish call that fails validation, no access token or no
    provision, after the resource key was computed and the project staged,
    returns a new status-500 record whose [result.id] is the job id
    generated for the call, with the caller's comment and the time of the
    call, and leaves the Job Status Table as it was. When the profile name
    names no member of [Object.prototype] (or the key has a sequence), the
    History entry put at the head of the key is the snapshot of that
    record, so it carries the same job id. For a profile named like such a
    member no History entry is stored at all. A call whose resource key
    cannot be computed throws before validation. *)
Theorem publish_invalid_same_job_id w config project metadata st :
  truthy (accessToken config) = false ∨ provision config = None →
  (∀ resourcekey,
     resourceKey w config project = Normal resourcekey →
     staging w = None →
     ∃ l r st',
       publish w config project metadata st = Returns l st'
       ∧ objects st !! l = None
       ∧ objects st' !! l = Some r
       ∧ status r = 500
       ∧ id (result r) = uuid w
       ∧ comment (result r) = Metadata.comment metadata
       ∧ time (result r) = now w
       ∧ publishingBots st' = publishingBots st
       ∧ (inherited (name config) = None
          ∨ is_Some (storedHistory (Project.id project) (name config) st) →
          getHistory (Project.id project) (name config) st'
          = Entries (snapshot r
                       :: historyEntries (Project.id project) (name config) st)
          ∧ entry_id (snapshot r) = uuid w
          ∧ entry_status (snapshot r) = 500)
       ∧ (is_Some (inherited (name config)) →
          storedHistory (Project.id project) (name config) st = None →
          ∀ b p, storedHistory b p st' = storedHistory b p st))
  ∧ (∀ e, resourceKey w config project = Abrupt e →
          publish w config project metadata st = Throws e st).
Proof.
  intros Hinvalid. split; [| intros e; apply publish_unkeyed].
  intros resourcekey Hkey Hstaging.
  destruct (decide (inherited (name config) = None
                    ∨ is_Some (storedHistory (Project.id project)
                                 (name config) st))) as [Hstore | Hnostore].
  - destruct (publish_rejected w config project metadata st resourcekey
                Hkey Hstaging Hinvalid Hstore)
      as (l & st' & text & Hrun & _ & Hnew & Hl & Hjobs & Hhistory & _).
    exists l, (failure w metadata (logMessages st ++ [Some text])), st'.
    repeat split; try done.
    intros [m Hname] Hstored. exfalso.
    destruct Hstore as [Hplain | [entries Hentries]]; congruence.
  - destruct (inherited (name config)) as [m |] eqn:Hname; [| tauto].
    destruct (storedHistory (Project.id project) (name config) st)
      as [entries |] eqn:Hstored;
      [exfalso; apply Hnostore; right; by eexists |].
    destruct (publish_rejected_inherited w config project metadata st
                resourcekey m Hkey Hstaging Hinvalid Hname Hstored)
      as (l & st' & text & Hrun & _ & Hnew & Hl & Hjobs & Hall & _).
    exists l, (failure w metadata (logMessages st ++ [Some text])), st'.
    repeat split; try done.
    all: intros [Hplain | [entries Hentries]]; congruence.
Qed.

(** C4, as the code has it. A publish call that reaches validation (the
    resource key was computed and the project staged) without an access
    token, for a profile name that names no member of [Object.prototype],
    returns a new record with status 500 and the message 'Publish Fail';
    the text about the missing access token is the last line of its log.
    The Job Status Table is left as it was, one History entry, the
    snapshot of that record, is put at the head of the key, and the
    project folder of the resource key is removed. *)
Theorem publish_without_accessToken w config project metadata st resourcekey :
  resourceKey w config project = Normal resourcekey →
  staging w = None →
  truthy (accessToken config) = false →
  inherited (name config) = None →
  ∃ l r st',
    publish w config project metadata st = Returns l st'
    ∧ objects st' !! l = Some r
    ∧ status r = 500
    ∧ message (result r) = Some "Publish Fail"
    ∧ log (result r)
      = JsArray.join newline (logMessages st ++ [Some missingAccessToken])
    ∧ mentions "accessToken" (log (result r)) = true
    ∧ publishingBots st' = publishingBots st
    ∧ getHistory (Project.id project) (name config) st'
      = Entries (snapshot r
                   :: historyEntries (Project.id project) (name config) st)
    ∧ entry_status (snapshot r) = 500
    ∧ projectFolders st' !! resourcekey = None.
Proof.
  intros Hkey Hstaging Htoken Hplain.
  destruct (publish_rejected w config project metadata st resourcekey
              Hkey Hstaging (or_introl Htoken) (or_introl Hplain))
    as (l & st' & text & Hrun & -> & _ & Hl & Hjobs & Hhistory & Hfolder).
  rewrite Htoken in *.
  exists l, (failure w metadata (logMessages st ++ [Some missingAccessToken])),
    st'.
  repeat split; try done.
  cbn [failure result log]. by apply mentions_last_line.
Qed.

(** ** Completion of a deployment *)

Lemma jobIdAt_alter o l x f :
  (∀ r, id (result (f r)) = id (result r)) →
  jobIdAt (alter f x o) l = jobIdAt o l.
Proof.
  intros Hf. unfold jobIdAt. destruct (decide (l = x)) as [-> |].
  - rewrite lookup_alter_eq. destruct (o !! x); cbn; [| done]. by rewrite Hf.
  - by rewrite lookup_alter_ne.
Qed.

Lemma unknownJob_alter o jobId jobs x f :
  (∀ r, id (result (f r)) = id (result r)) →
  unknownJob o jobId jobs → unknownJob (alter f x o) jobId jobs.
Proof.
  intros Hf Hjobs. eapply Forall_impl; [exact Hjobs |].
  intros l Hl. cbn in *. by rewrite jobIdAt_alter.
Qed.

Lemma alter_twice (f g : JobRecord → JobRecord) x (o : gmap loc JobRecord) :
  alter f x (alter g x o) = alter (λ r, f (g r)) x o.
Proof.
  apply map_eq. intros l. destruct (decide (l = x)) as [-> |].
  - rewrite !lookup_alter_eq. by destruct (o !! x).
  - by rewrite !lookup_alter_ne.
Qed.

(** [settle] up to the call of [updateHistory], for a job that is in the
    list. *)
Lemma settle_reaches_history (botId : BotId) profileName jobId resourcekey
    code text st l1 x l2 r :
  jobId ≠ "" →
  jobsOf botId profileName st = Some (l1 ++ x :: l2) →
  unknownJob (objects st) jobId l1 →
  objects st !! x = Some r → id (result r) = jobId →
  settle botId profileName jobId resourcekey code text st
  = (updateHistory botId profileName
       (snapshot (settled code text (JsArray.join newline (logMessages st)) r));;
     removeLoadingStatus botId profileName jobId;;
     cleanup resourcekey)
      (with_objects
         (alter (settled code text (JsArray.join newline (logMessages st))) x
            (objects st)) st).
Proof.
  intros Hid Hjobs Hl1 Hr Hx.
  assert (jobIdAt (objects st) x = Some jobId) as Hxid
    by (unfold jobIdAt; rewrite Hr; cbn; congruence).
  unfold settle. run.
  rewrite (getLoadingStatus_job _ _ _ _ l1 x l2) by done.
  unfold assign, deref. run.
  cbn [objects with_objects logMessages].
  rewrite !lookup_alter_eq, Hr. cbn [fmap option_fmap option_map].
  rewrite !alter_twice. reflexivity.
Qed.

(** The completion of a job that is in the list, with all it leaves alone,
    when the History Store takes the entry. *)
Lemma settle_found_frame (botId : BotId) profileName jobId resourcekey
    code text st l1 x l2 r :
  jobId ≠ "" →
  jobsOf botId profileName st = Some (l1 ++ x :: l2) →
  unknownJob (objects st) jobId l1 →
  objects st !! x = Some r → id (result r) = jobId →
  inherited profileName = None
  ∨ is_Some (storedHistory botId profileName st) →
  ∃ st',
    settle botId profileName jobId resourcekey code text st = Returns () st'
    ∧ jobsOf botId profileName st' = Some (l1 ++ l2)
    ∧ (∀ b p, (b, p) ≠ (botName botId, profileName) →
              jobsOf b p st' = jobsOf b p st)
    ∧ objects st'
      = alter (settled code text (JsArray.join newline (logMessages st))) x
          (objects st)
    ∧ storedHistory botId profileName st'
      = Some (snapshot
                (settled code text (JsArray.join newline (logMessages st)) r)
                :: historyEntries botId profileName st)
    ∧ (∀ b p, (b, p) ≠ (botName botId, profileName) →
              storedHistory b p st' = storedHistory b p st)
    ∧ logMessages st' = logMessages st
    ∧ projectFolders st' = delete resourcekey (projectFolders st).
Proof.
  intros Hid Hjobs Hl1 Hr Hx Hstore.
  rewrite (settle_reaches_history _ _ _ _ _ _ _ l1 x l2 r) by done.
  set (o' := alter _ x (objects st)).
  assert (∀ r0, id (result (settled code text
                  (JsArray.join newline (logMessages st)) r0))
                = id (result r0)) as Hkeeps by done.
  run. unfold cleanup. run.
  destruct (updateHistory_stores botId profileName
              (snapshot (settled code text
                           (JsArray.join newline (logMessages st)) r))
              (with_objects o' st))
    as (st1 & -> & Hstored1 & Hothers1 & Htable1 & Hobjects1 & Hlog1 & Hfolders1);
    [exact Hstore |].
  destruct (removeLoadingStatus_first botId profileName jobId st1 l1 x l2)
    as (st2 & -> & Hjobs2 & Hframe2 & Hobjects2 & Hhistories2 & Hlog2 & Hfolders2).
  - by rewrite (jobsOf_publishingBots _ _ st1 (with_objects o' st)).
  - rewrite Hobjects1. cbn [objects with_objects]. subst o'.
    by apply unknownJob_alter.
  - rewrite Hobjects1. cbn [objects with_objects]. subst o'.
    rewrite jobIdAt_alter by done. unfold jobIdAt. rewrite Hr. cbn. congruence.
  - eexists. split; [reflexivity |].
    split; [exact Hjobs2 |].
    split.
    { intros b p Hne. etrans; [exact (Hframe2 b p Hne) |].
      by apply jobsOf_publishingBots. }
    cbn [objects with_projectFolders projectFolders logMessages].
    rewrite Hobjects2, Hobjects1, Hlog2, Hlog1, Hfolders2, Hfolders1.
    split; [done |]. split.
    { etrans; [apply (storedHistory_histories _ _ _ st1); done |].
      exact Hstored1. }
    split; [| done].
    intros b p Hne.
    etrans; [apply (storedHistory_histories _ _ _ st1); done |].
    exact (Hothers1 b p Hne).
Qed.

(** The completion of a job that is in the list, for a profile named like
    a member of [Object.prototype]: the record is rewritten, then
    [updateHistory] throws and the job stays in the list. *)
Lemma settle_found_throws (botId : BotId) profileName jobId resourcekey
    code text st l1 x l2 r m :
  jobId ≠ "" →
  jobsOf botId profileName st = Some (l1 ++ x :: l2) →
  unknownJob (objects st) jobId l1 →
  objects st !! x = Some r → id (result r) = jobId →
  storedHistory botId profileName st = None →
  inherited profileName = Some m →
  ∃ st',
    settle botId profileName jobId resourcekey code text st
    = Throws notAFunction st'
    ∧ (∀ b p, jobsOf b p st' = jobsOf b p st)
    ∧ objects st'
      = alter (settled code text (JsArray.join newline (logMessages st))) x
          (objects st)
    ∧ (∀ b p, storedHistory b p st' = storedHistory b p st)
    ∧ logMessages st' = logMessages st
    ∧ projectFolders st' = projectFolders st.
Proof.
  intros Hid Hjobs Hl1 Hr Hx Hstored Hname.
  rewrite (settle_reaches_history _ _ _ _ _ _ _ l1 x l2 r) by done.
  set (o' := alter _ x (objects st)). run.
  destruct (updateHistory_inherited botId profileName
              (snapshot (settled code text
                           (JsArray.join newline (logMessages st)) r))
              (with_objects o' st) m)
    as (st1 & -> & Hall & Htable & Hobjects & Hlog & Hfolders); [done .. |].
  exists st1. split; [done |].
  split; [intros b p; by apply jobsOf_publishingBots |].
  by rewrite Hobjects, Hlog, Hfolders.
Qed.

Lemma settle_no_status (botId : BotId) profileName jobId resourcekey code
    text st :
  getLoadingStatus botId profileName jobId st = Normal None →
  settle botId profileName jobId resourcekey code text st = Returns () st.
Proof. intros Hnone. unfold settle. run. by rewrite Hnone. Qed.

Lemma settle_throws (botId : BotId) profileName jobId resourcekey code text
    st e :
  getLoadingStatus botId profileName jobId st = Abrupt e →
  settle botId profileName jobId resourcekey code text st = Throws e st.
Proof. intros He. unfold settle. run. by rewrite He. Qed.

Lemma createAndDeploy_settles (botId : BotId) profileName jobId resourcekey
    deployed st st' :
  settle botId profileName jobId resourcekey
    (completionCode deployed) (completionText deployed) st = Returns () st' →
  createAndDeploy botId profileName jobId resourcekey deployed st
  = Returns () st'.
Proof.
  intros Hsettle. unfold createAndDeploy. run.
  destruct deployed as [[text | text | | [] text] |]; cbn in Hsettle |- *;
    by rewrite Hsettle.
Qed.

Lemma createAndDeploy_throws (botId : BotId) profileName jobId resourcekey
    deployed st e :
  getLoadingStatus botId profileName jobId st = Abrupt e →
  createAndDeploy botId profileName jobId resourcekey deployed st
  = Throws e st.
Proof.
  intros He. unfold createAndDeploy. run.
  destruct deployed as [e' |]; rewrite !(settle_throws _ _ _ _ _ _ _ e) by done;
    by rewrite ?(settle_throws _ _ _ _ _ _ _ e).
Qed.

(** The list of a job that is in the table splits at its first record. *)
Lemma first_record o jobId jobs la :
  records o jobs → la ∈ jobs → jobIdAt o la = Some jobId →
  ∃ l1 x l2 r, jobs = l1 ++ x :: l2 ∧ unknownJob o jobId l1
               ∧ o !! x = Some r ∧ id (result r) = jobId.
Proof.
  intros Hrecords Hla Hid.
  destruct (first_hit (hasId o jobId) jobs) as [Hnone | (l1 & x & l2 & -> & Hl1 & Hx)].
  - eapply Forall_impl; [exact Hrecords |]. intros l. apply hasId_record.
  - rewrite Forall_forall in Hnone. specialize (Hnone la Hla).
    apply hasId_same in Hid. congruence.
  - apply hasId_true_inv in Hx as (r & Hr & Hx).
    exists l1, x, l2, r. repeat split; [| done | done].
    eapply Forall_impl; [exact Hl1 |]. intros l. apply hasId_false_inv.
Qed.

(** A completion whose [updateHistory] throws, in the [try] block and
    again in the [catch] block: the job stays in the list and only its
    record is rewritten. *)
Lemma createAndDeploy_found_throws (botId : BotId) profileName jobId
    resourcekey deployed st l1 x l2 r m :
  jobId ≠ "" →
  jobsOf botId profileName st = Some (l1 ++ x :: l2) →
  unknownJob (objects st) jobId l1 →
  objects st !! x = Some r → id (result r) = jobId →
  storedHistory botId profileName st = None →
  inherited profileName = Some m →
  ∃ st',
    createAndDeploy botId profileName jobId resourcekey deployed st
    = Throws notAFunction st'
    ∧ (∀ b p, jobsOf b p st' = jobsOf b p st)
    ∧ (∀ l, l ≠ x → objects st' !! l = objects st !! l)
    ∧ (∃ r', objects st' !! x = Some r' ∧ id (result r') = id (result r)
             ∧ time (result r') = time (result r)
             ∧ comment (result r') = comment (result r))
    ∧ (∀ b p, storedHistory b p st' = storedHistory b p st).
Proof.
  intros Hid Hjobs Hl1 Hr Hx Hstored Hname.
  assert (∀ code text s, jobsOf botId profileName s = Some (l1 ++ x :: l2) →
            unknownJob (objects s) jobId l1 →
            (∃ r0, objects s !! x = Some r0 ∧ id (result r0) = jobId
                   ∧ time (result r0) = time (result r)
                   ∧ comment (result r0) = comment (result r)) →
            storedHistory botId profileName s = None →
            (∀ l, l ≠ x → objects s !! l = objects st !! l) →
            ∃ s',
              settle botId profileName jobId resourcekey code text s
              = Throws notAFunction s'
              ∧ (∀ b p, jobsOf b p s' = jobsOf b p s)
              ∧ unknownJob (objects s') jobId l1
              ∧ (∃ r0, objects s' !! x = Some r0 ∧ id (result r0) = jobId
                       ∧ time (result r0) = time (result r)
                       ∧ comment (result r0) = comment (result r))
              ∧ (∀ l, l ≠ x → objects s' !! l = objects st !! l)
              ∧ (∀ b p, storedHistory b p s' = storedHistory b p s)) as Hstep.
  { intros code text s Hjobs_s Hl1_s (r0 & Hr0 & Hid0 & Htime0 & Hcomment0)
      Hstored_s Hsame.
    destruct (settle_found_throws botId profileName jobId resourcekey code
                text s l1 x l2 r0 m)
      as (s' & Hrun & Hjobs' & Hobjects' & Hstored' & _); [done .. |].
    exists s'. split; [done |]. split; [done |].
    rewrite Hobjects'. split; [by apply unknownJob_alter |].
    split.
    - eexists. rewrite lookup_alter_eq, Hr0. cbn. split; [reflexivity |].
      by cbn.
    - split; [| done]. intros l Hne. rewrite lookup_alter_ne by done.
      by apply Hsame. }
  assert (∃ r0, objects st !! x = Some r0 ∧ id (result r0) = jobId
                ∧ time (result r0) = time (result r)
                ∧ comment (result r0) = comment (result r)) as Hstart
    by (by exists r).
  unfold createAndDeploy. run. destruct deployed as [error |].
  - destruct (Hstep 500 (failureMessage error) st)
      as (s1 & -> & Hjobs1 & _ & (r1 & Hr1 & Hid1 & Htime1 & Hcomment1)
          & Hsame1 & Hstored1); [done .. |].
    exists s1. split; [done |]. split; [done |]. split; [done |].
    split; [| done]. exists r1. by rewrite Hid1, Hx.
  - destruct (Hstep 200 (Some "Success") st)
      as (s1 & -> & Hjobs1 & Hl1' & Hx1 & Hsame1 & Hstored1); [done .. |].
    destruct (Hstep 500 (failureMessage notAFunction) s1)
      as (s2 & -> & Hjobs2 & _ & (r2 & Hr2 & Hid2 & Htime2 & Hcomment2)
          & Hsame2 & Hstored2).
    + by rewrite Hjobs1.
    + done.
    + done.
    + by rewrite Hstored1.
    + done.
    + exists s2. split; [done |].
      split; [intros b p; by rewrite Hjobs2, Hjobs1 |].
      split; [done |].
      split; [exists r2; by rewrite Hid2, Hx |].
      intros b p. by rewrite Hstored2, Hstored1.
Qed.

(** C9. With two records of distinct job ids A and B in the list of a key,
    the completion of job A, whether its deployment succeeded or failed,
    keeps the record of B in the list and leaves that record as it was,
    whatever the name of the profile; when the History Store takes the
    entry (the profile name names no member of [Object.prototype], or the
    key has a sequence) the completion returns normally and takes exactly
    one record out of the list. *)
Theorem completion_keeps_other_job (botId : BotId) profileName jobA jobB
    resourcekey deployed st jobs la lb :
  jobA ≠ "" → jobA ≠ jobB →
  jobsOf botId profileName st = Some jobs →
  records (objects st) jobs →
  la ∈ jobs → lb ∈ jobs →
  jobIdAt (objects st) la = Some jobA →
  jobIdAt (objects st) lb = Some jobB →
  ∃ st' jobs',
    stateOf (createAndDeploy botId profileName jobA resourcekey deployed st)
    = st'
    ∧ jobsOf botId profileName st' = Some jobs'
    ∧ lb ∈ jobs'
    ∧ objects st' !! lb = objects st !! lb
    ∧ (inherited profileName = None
       ∨ is_Some (storedHistory botId profileName st) →
       createAndDeploy botId profileName jobA resourcekey deployed st
       = Returns () st'
       ∧ length jobs = S (length jobs')).
Proof.
  intros HA Hdistinct Hjobs Hrecords Hla Hlb HidA HidB.
  destruct (first_record _ _ _ _ Hrecords Hla HidA)
    as (l1 & x & l2 & r & -> & Hl1 & Hr & Hx).
  assert (lb ≠ x) as Hother.
  { intros ->. unfold jobIdAt in HidB. rewrite Hr in HidB. cbn in HidB.
    congruence. }
  assert (lb ∈ l1 ++ l2) as Hkept.
  { rewrite elem_of_app, elem_of_cons in Hlb. rewrite elem_of_app. tauto. }
  assert (length (l1 ++ x :: l2) = S (length (l1 ++ l2))) as Hlength.
  { rewrite !length_app. cbn. lia. }
  destruct (decide (inherited profileName = None
                    ∨ is_Some (storedHistory botId profileName st)))
    as [Hstore | Hnostore].
  - destruct (settle_found_frame botId profileName jobA resourcekey
                (completionCode deployed) (completionText deployed)
                st l1 x l2 r)
      as (st' & Hsettle & Hjobs' & _ & Hobjects & _); [done .. |].
    apply createAndDeploy_settles in Hsettle.
    exists st', (l1 ++ l2). rewrite Hsettle. split; [done |].
    split; [done |]. split; [done |].
    split; [by rewrite Hobjects, lookup_alter_ne |]. done.
  - destruct (inherited profileName) as [m |] eqn:Hname; [| tauto].
    destruct (storedHistory botId profileName st) as [entries |] eqn:Hstored;
      [exfalso; apply Hnostore; right; by eexists |].
    destruct (createAndDeploy_found_throws botId profileName jobA resourcekey
                deployed st l1 x l2 r m)
      as (st' & Hrun & Hjobs' & Hsame & _); [done .. |].
    exists st', (l1 ++ x :: l2). rewrite Hrun. split; [done |].
    split; [by rewrite Hjobs' |]. split; [done |].
    split; [by apply Hsame |].
    intros [Hplain | [entries Hentries]]; congruence.
Qed.

(** ** Acceptance and status *)

(** C8, as the code has it. A publish call whose resource key was computed
    and whose project was staged, that passes validation, whose merge of
    the provisioned settings does not throw, for a profile name that names
    no member of [Object.prototype], creates a new record with the job id
    generated for the call, status 202 and the log line
    'Publish starting...', puts it at the tail of the list of
    (project.id, config.name), where it is the latest status, and returns
    that very record; the History Store is not touched. *)
Theorem publish_accepted w config project metadata st pv resourcekey :
  resourceKey w config project = Normal resourcekey →
  staging w = None →
  truthy (accessToken config) = true →
  provision config = Some pv →
  settingsMerge w = None →
  inherited (name config) = None →
  ∃ l st',
    publish w config project metadata st = Returns l st'
    ∧ objects st !! l = None
    ∧ objects st' !! l = Some (accepted w metadata)
    ∧ jobsOf (Project.id project) (name config) st'
      = Some (default [] (jobsOf (Project.id project) (name config) st) ++ [l])
    ∧ getLoadingStatus (Project.id project) (name config) "" st'
      = Normal (Some l)
    ∧ histories st' = histories st.
Proof.
  intros Hkey Hstaging Htoken Hprovision Hmerge Hplain.
  rewrite (publish_staged _ _ _ _ _ _ Hkey Hstaging). unfold try_catch.
  edestruct (publishTry_accepted w config project metadata) as
    (st' & -> & Hjobs & _ & Hobjects & Hhistories & _); [done .. |].
  eexists _, st'. split; [reflexivity |].
  split; [apply fresh_object |].
  split; [rewrite Hobjects; apply lookup_insert_eq |].
  split; [exact Hjobs |].
  split; [| exact Hhistories].
  rewrite (getLoadingStatus_latest _ _ _ _ Hjobs). by rewrite last_snoc.
Qed.

(** What [getStatus] makes of the History of a key when the table has no
    record to answer with. *)
Lemma getStatus_idle config project st :
  getLoadingStatus (Project.id project) (name config) "" st = Normal None →
  getStatus config project st
  = match getHistory (Project.id project) (name config) st with
    | Entries (newest :: _) => Normal (FromHistory (entry_status newest) newest)
    | Entries [] => Normal (Synthetic 404 "bot not published")
    | BuiltIn m =>
        if memberHasLength m then Abrupt undefinedProperty
        else Normal (Synthetic 404 "bot not published")
    end.
Proof.
  intros Hnone. unfold getStatus. rewrite Hnone.
  by destruct (getHistory _ _ st) as [[| newest current] | m].
Qed.

(** Without a job id, a profile named like a member of [Object.prototype]
    and without a list of its own has no latest status. *)
Lemma getLoadingStatus_inherited_latest (botId : BotId) profileName st :
  jobsOf botId profileName st = None →
  is_Some (inherited profileName) →
  getLoadingStatus botId profileName "" st = Normal None.
Proof.
  intros Hjobs [m Hname]. unfold getLoadingStatus.
  destruct (publishingBots st !! botName botId) as [profiles |] eqn:Hbot;
    [| done].
  unfold jobsOf in Hjobs. rewrite Hbot in Hjobs. cbn in Hjobs.
  rewrite (getProperty_inherited _ _ m) by done.
  by destruct (memberHasLength m).
Qed.

(** What [getHistory] returns, from what the History Store holds. *)
Lemma getHistory_cases (botId : BotId) profileName st :
  (∀ entries, storedHistory botId profileName st = Some entries →
              getHistory botId profileName st = Entries entries)
  ∧ (storedHistory botId profileName st = None →
     inherited profileName = None ∨ histories st !! botName botId = None →
     getHistory botId profileName st = Entries [])
  ∧ (∀ m, storedHistory botId profileName st = None →
          is_Some (histories st !! botName botId) →
          inherited profileName = Some m →
          getHistory botId profileName st = BuiltIn m).
Proof.
  split; [| split].
  - intros entries. apply getHistory_own.
  - intros Hstored Hempty. unfold getHistory, storedHistory in *.
    destruct (histories st !! botName botId) as [profiles |]; [| done].
    cbn in Hstored. destruct Hempty as [Hplain |]; [| done].
    by rewrite getProperty_missing.
  - intros m Hstored [profiles Hbot] Hname. unfold getHistory, storedHistory in *.
    rewrite Hbot in *. cbn in Hstored.
    by rewrite (getProperty_inherited _ _ m).
Qed.

(** C3. When the key has a Job Status Table list with a last record,
    [getStatus] answers with that record. When the table has nothing to
    answer with (the list of the key is empty, the bot has no table entry,
    or the profile is named like a member of [Object.prototype] and has no
    list), [getStatus] answers from the History Store: with the head entry
    of the sequence of the key wrapped as [{ status, result }] where
    [result] is that entry; with status 404 and message 'bot not published'
    when the sequence is empty or the key has none; for a profile named
    like a member of [Object.prototype], without a sequence, of a bot that
    has a History, it throws when that member is a function with
    parameters and answers 404 otherwise. For a bot that has a table entry
    and no list for the profile, the profile name naming no member of
    [Object.prototype], [getStatus] throws, whatever the History holds. *)
Theorem getStatus_cases config project st :
  (∀ jobs record,
     jobsOf (Project.id project) (name config) st = Some jobs →
     last jobs = Some record →
     getStatus config project st = Normal (InFlight record))
  ∧ (jobsOf (Project.id project) (name config) st = Some []
     ∨ publishingBots st !! botName (Project.id project) = None
     ∨ (jobsOf (Project.id project) (name config) st = None
        ∧ is_Some (inherited (name config))) →
     (∀ newest older,
        storedHistory (Project.id project) (name config) st
        = Some (newest :: older) →
        getStatus config project st
        = Normal (FromHistory (entry_status newest) newest))
     ∧ (storedHistory (Project.id project) (name config) st = Some []
        ∨ (storedHistory (Project.id project) (name config) st = None
           ∧ (inherited (name config) = None
              ∨ histories st !! botName (Project.id project) = None)) →
        getStatus config project st
        = Normal (Synthetic 404 "bot not published"))
     ∧ (∀ m,
          storedHistory (Project.id project) (name config) st = None →
          is_Some (histories st !! botName (Project.id project)) →
          inherited (name config) = Some m →
          getStatus config project st
          = if memberHasLength m then Abrupt undefinedProperty
            else Normal (Synthetic 404 "bot not published")))
  ∧ (is_Some (publishingBots st !! botName (Project.id project)) →
     jobsOf (Project.id project) (name config) st = None →
     inherited (name config) = None →
     getStatus config project st = Abrupt undefinedProperty).
Proof.
  split; [| split].
  - intros jobs record Hjobs Hlast. unfold getStatus.
    by rewrite (getLoadingStatus_latest _ _ _ _ Hjobs), Hlast.
  - intros Hidle.
    assert (getLoadingStatus (Project.id project) (name config) "" st
            = Normal None) as Hnone.
    { destruct Hidle as [Hjobs | [Hbot | [Hjobs Hname]]].
      - by rewrite (getLoadingStatus_latest _ _ _ _ Hjobs).
      - by apply getLoadingStatus_no_bot.
      - by apply getLoadingStatus_inherited_latest. }
    rewrite (getStatus_idle _ _ _ Hnone).
    destruct (getHistory_cases (Project.id project) (name config) st)
      as (Hown & Hempty & Hmember).
    split; [| split].
    + intros newest older Hstored. by rewrite (Hown _ Hstored).
    + intros [Hstored | [Hstored Hnothing]].
      * by rewrite (Hown _ Hstored).
      * by rewrite Hempty.
    + intros m Hstored Hbot Hname. by rewrite (Hmember m).
  - intros [profiles Hbot] Hjobs Hplain. unfold getStatus.
    rewrite (getLoadingStatus_no_profile _ _ _ _ profiles); [done .. | | done].
    unfold jobsOf in Hjobs. by rewrite Hbot in Hjobs.
Qed.

(** * The claims on concrete inputs *)


(** C2. After one accepted publish for (bot, production), the bot has a
    table entry but the profile staging has no list: both
    [getLoadingStatus] and [getStatus] for (bot, staging) throw a TypeError
    on [undefined.length] instead of answering. *)
Theorem getStatus_other_profile_throws :
  ∃ l st,
    publish (Sample.world "job-1" 1000)
      (Sample.config "production" (Some "token"))
      Sample.project Sample.metadata constructor = Returns l st
    ∧ jobsOf "bot" "staging" st = None
    ∧ getLoadingStatus Sample.bot "staging" "" st = Abrupt undefinedProperty
    ∧ getLoadingStatus Sample.bot "staging" "job-1" st
      = Abrupt undefinedProperty
    ∧ getStatus (Sample.config "staging" (Some "token")) Sample.project st
      = Abrupt undefinedProperty.
Proof.
  eexists _, _. split; [vm_compute; reflexivity |].
  repeat split; vm_compute; reflexivity.
Qed.

(** C7. With a list for (bot, production) only, the key (bot, staging) is
    absent, and [getLoadingStatus] without a job id throws for it instead
    of answering [undefined]. *)
Theorem getLoadingStatus_absent_profile_throws :
  jobsOf "bot" "production" Sample.oneProfile = Some [0%nat]
  ∧ jobsOf "bot" "staging" Sample.oneProfile = None
  ∧ getLoadingStatus Sample.bot "staging" "" Sample.oneProfile
    = Abrupt undefinedProperty.
Proof. repeat split; vm_compute; reflexivity. Qed.

(** C4 as stated fails: published without an access token, the sample
    returns no record whose message mentions a token. *)
Lemma publish_without_accessToken_message_silent :
  truthy (accessToken (Sample.config "production" None)) = false
  ∧ ¬ ∃ l r st' text,
        publish (Sample.world "job-1" 1000) (Sample.config "production" None)
          Sample.project Sample.metadata constructor = Returns l st'
        ∧ objects st' !! l = Some r
        ∧ status r = 500
        ∧ message (result r) = Some text
        ∧ mentions "token" text = true.
Proof.
  split; [done |]. intros (l & r & st' & text & Hrun & Hr & _ & Htext & Hmentions).
  vm_compute in Hrun. injection Hrun as <- <-.
  vm_compute in Hr. injection Hr as <-.
  vm_compute in Htext. injection Htext as <-.
  vm_compute in Hmentions. discriminate.
Qed.

(** C8 as stated fails: with a token and a provision, but a template
    without deployment settings, the sample returns no status-202 record
    and the table stays empty. *)
Lemma publish_valid_merge_fails :
  truthy (accessToken (Sample.config "production" (Some "token"))) = true
  ∧ is_Some (provision (Sample.config "production" (Some "token")))
  ∧ (¬ ∃ l r st',
         publish Sample.brokenTemplate
           (Sample.config "production" (Some "token"))
           Sample.project Sample.metadata constructor = Returns l st'
         ∧ objects st' !! l = Some r
         ∧ status r = 202)
  ∧ ∃ l st',
      publish Sample.brokenTemplate
        (Sample.config "production" (Some "token"))
        Sample.project Sample.metadata constructor = Returns l st'
      ∧ status <$> objects st' !! l = Some 500
      ∧ jobsOf "bot" "production" st' = None.
Proof.
  split; [done |]. split; [by eexists |]. split.
  - intros (l & r & st' & Hrun & Hr & Hstatus).
    vm_compute in Hrun. injection Hrun as <- <-.
    vm_compute in Hr. injection Hr as <-.
    vm_compute in Hstatus. discriminate.
  - eexists _, _. split; [vm_compute; reflexivity |].
    split; vm_compute; reflexivity.
Qed.

(** * The theorems at the sample inputs *)


(** A publish for staging was rejected, so staging has a History of one
    entry and no list: [getStatus] for staging answers with that entry.
    After a publish for production was accepted, the bot has a list for
    production only, and [getStatus] for staging throws. *)
Lemma getStatus_cases_witness :
  (∃ newest,
     storedHistory "bot" "staging" Sample.afterRejected = Some [newest]
     ∧ getStatus (Sample.config "staging" None) Sample.project
         Sample.afterRejected
       = Normal (FromHistory (entry_status newest) newest)
     ∧ entry_status newest = 500)
  ∧ (∃ newest,
       storedHistory "bot" "staging"
         (stateOf (Sample.stagingRejected constructor)) = Some [newest]
       ∧ entry_status newest = 500)
  ∧ is_Some (publishingBots (stateOf (Sample.stagingRejected constructor))
               !! "bot")
  ∧ jobsOf "bot" "staging" (stateOf (Sample.stagingRejected constructor))
    = None
  ∧ getStatus (Sample.config "staging" None) Sample.project
      (stateOf (Sample.stagingRejected constructor))
    = Abrupt undefinedProperty.
Proof.
  split.
  - destruct (getStatus_cases (Sample.config "staging" None) Sample.project
                Sample.afterRejected) as (_ & Hidle & _).
    destruct Hidle as (Hhead & _ & _); [right; left; reflexivity |].
    eexists. split; [reflexivity |]. split; [| reflexivity].
    apply (Hhead _ []). reflexivity.
  - split; [eexists; split; reflexivity |].
    split; [eexists; reflexivity |].
    split; [reflexivity |].
    apply (getStatus_cases (Sample.config "staging" None) Sample.project
             (stateOf (Sample.stagingRejected constructor))).
    + eexists; reflexivity.
    + reflexivity.
    + reflexivity.
Defined.

Lemma publish_without_accessToken_witness :
  ∃ l r st',
    publish (Sample.world "job-1" 1000) (Sample.config "production" None)
      Sample.project Sample.metadata constructor = Returns l st'
    ∧ objects st' !! l = Some r
    ∧ status r = 500
    ∧ message (result r) = Some "Publish Fail"
    ∧ log (result r) = JsArray.join newline ([] ++ [Some missingAccessToken])
    ∧ mentions "accessToken" (log (result r)) = true
    ∧ publishingBots st' = ∅
    ∧ getHistory Sample.bot "production" st' = Entries [snapshot r]
    ∧ entry_status (snapshot r) = 500
    ∧ projectFolders st' !! "resource-1" = None.
Proof.
  apply (publish_without_accessToken (Sample.world "job-1" 1000)
           (Sample.config "production" None) Sample.project Sample.metadata
           constructor "resource-1"); reflexivity.
Defined.

(** The record of job-1 is added and removed again; for the profile
    constructor [addLoadingStatus] throws. *)
Lemma add_then_remove_restores_witness :
  objects Sample.oneRecord !! 0%nat = Some (Sample.record "job-1")
  ∧ (∃ st1 st',
       addLoadingStatus Sample.bot "production" 0%nat Sample.oneRecord
       = Returns () st1
       ∧ removeLoadingStatus Sample.bot "production" "job-1" st1
         = Returns (Some 0%nat) st'
       ∧ jobsOf "bot" "production" st' = Some []
       ∧ length (default [] (jobsOf "bot" "production" st')) = 0%nat)
  ∧ (∃ st1,
       addLoadingStatus Sample.bot "constructor" 0%nat Sample.oneRecord
       = Throws notAFunction st1
       ∧ jobsOf "bot" "constructor" st1 = None
       ∧ removeLoadingStatus Sample.bot "constructor" "job-1" st1
         = Throws notAFunction st1).
Proof.
  split; [reflexivity |]. split.
  - apply (add_then_remove_restores Sample.bot "production" 0%nat
             (Sample.record "job-1") Sample.oneRecord).
    + reflexivity.
    + constructor.
    + left. reflexivity.
  - apply (add_then_remove_restores Sample.bot "constructor" 0%nat
             (Sample.record "job-1") Sample.oneRecord).
    + reflexivity.
    + constructor.
    + eexists. reflexivity.
    + reflexivity.
Defined.

(** Of the four calls two are for production; the one for the profile
    constructor stores nothing and [getHistory] hands out the built-in
    function. *)
Lemma getHistory_newest_first_witness :
  getHistory Sample.bot "production" (updateHistories Sample.calls constructor)
  = Entries [Sample.entry "job-3" 200; Sample.entry "job-1" 200]
  ∧ getHistory Sample.bot "production" constructor = Entries []
  ∧ storedHistory "bot" "constructor" (updateHistories Sample.calls constructor)
    = None
  ∧ getHistory Sample.bot "constructor"
      (updateHistories Sample.calls constructor)
    = BuiltIn (Method 1).
Proof.
  destruct (getHistory_newest_first Sample.bot "production" Sample.calls
              constructor) as [Hplain _].
  destruct (Hplain eq_refl) as [Hrun Hunseen].
  destruct (getHistory_newest_first Sample.bot "constructor" Sample.calls
              constructor) as [_ Hmember].
  destruct (Hmember (Method 1) eq_refl eq_refl) as [Hnever Hfunction].
  split; [exact Hrun |].
  split; [apply Hunseen; reflexivity |].
  split; [exact Hnever |].
  apply Hfunction. discriminate.
Defined.

Lemma publish_accepted_witness :
  ∃ l st',
    publish (Sample.world "job-1" 1000)
      (Sample.config "production" (Some "token"))
      Sample.project Sample.metadata constructor = Returns l st'
    ∧ objects constructor !! l = None
    ∧ objects st' !! l
      = Some (accepted (Sample.world "job-1" 1000) Sample.metadata)
    ∧ jobsOf "bot" "production" st' = Some ([] ++ [l])
    ∧ getLoadingStatus Sample.bot "production" "" st' = Normal (Some l)
    ∧ histories st' = ∅.
Proof.
  apply (publish_accepted (Sample.world "job-1" 1000)
           (Sample.config "production" (Some "token"))
           Sample.project Sample.metadata constructor
           {| MicrosoftAppPassword := Some "secret" |} "resource-1");
    reflexivity.
Defined.

Lemma completion_keeps_other_job_witness :
  jobsOf "bot" "production" Sample.afterTwoJobs = Some [0; 1]%nat
  ∧ ∃ st' jobs',
      createAndDeploy Sample.bot "production" "job-1" "resource-1" None
        Sample.afterTwoJobs = Returns () st'
      ∧ jobsOf "bot" "production" st' = Some jobs'
      ∧ 1%nat ∈ jobs'
      ∧ objects st' !! 1%nat = objects Sample.afterTwoJobs !! 1%nat
      ∧ length [0; 1]%nat = S (length jobs').
Proof.
  split; [reflexivity |].
  destruct (completion_keeps_other_job Sample.bot "production" "job-1" "job-2"
              "resource-1" None Sample.afterTwoJobs [0; 1]%nat 0%nat 1%nat)
    as (st' & jobs' & _ & Hjobs & Hkept & Hsame & Hreturns).
  - discriminate.
  - discriminate.
  - reflexivity.
  - repeat constructor; eexists; reflexivity.
  - apply list_elem_of_here.
  - apply list_elem_of_further, list_elem_of_here.
  - reflexivity.
  - reflexivity.
  - destruct (Hreturns (or_introl eq_refl)) as [Hrun Hlength].
    exists st', jobs'. repeat split; assumption.
Defined.

(** A publish without access token for production, one for the profile
    constructor, and one without subscription. *)
Lemma publish_invalid_same_job_id_witness :
  (∃ l r st',
     publish (Sample.world "job-1" 1000) (Sample.config "production" None)
       Sample.project Sample.metadata constructor = Returns l st'
     ∧ objects st' !! l = Some r
     ∧ id (result r) = "job-1"
     ∧ comment (result r) = Some "first release"
     ∧ time (result r) = 1000
     ∧ getHistory Sample.bot "production" st' = Entries [snapshot r]
     ∧ entry_id (snapshot r) = "job-1")
  ∧ (∃ l r st',
       publish (Sample.world "job-1" 1000) (Sample.config "constructor" None)
         Sample.project Sample.metadata constructor = Returns l st'
       ∧ objects st' !! l = Some r
       ∧ status r = 500
       ∧ id (result r) = "job-1"
       ∧ storedHistory "bot" "constructor" st' = None)
  ∧ publish (Sample.world "job-1" 1000) Sample.noSubscription
      Sample.project Sample.metadata constructor
    = Throws (TypeError "Invalid UUID") constructor.
Proof.
  split; [| split].
  - destruct (publish_invalid_same_job_id (Sample.world "job-1" 1000)
                (Sample.config "production" None) Sample.project
                Sample.metadata constructor (or_introl eq_refl))
      as [Hkeyed _].
    destruct (Hkeyed "resource-1" eq_refl eq_refl)
      as (l & r & st' & Hrun & _ & Hr & _ & Hid & Hcomment & Htime & _
          & Hplain & _).
    destruct (Hplain (or_introl eq_refl)) as (Hhistory & Hentry & _).
    exists l, r, st'. repeat split; assumption.
  - destruct (publish_invalid_same_job_id (Sample.world "job-1" 1000)
                (Sample.config "constructor" None) Sample.project
                Sample.metadata constructor (or_introl eq_refl))
      as [Hkeyed _].
    destruct (Hkeyed "resource-1" eq_refl eq_refl)
      as (l & r & st' & Hrun & _ & Hr & Hstatus & Hid & _ & _ & _
          & _ & Hmember).
    exists l, r, st'. repeat split; try assumption.
    rewrite (Hmember (ex_intro _ (Method 1) eq_refl) eq_refl).
    reflexivity.
  - apply (publish_invalid_same_job_id (Sample.world "job-1" 1000)
             Sample.noSubscription Sample.project Sample.metadata constructor
             (or_introl eq_refl)).
    reflexivity.
Defined.

(** * Further properties of the Job Status Table *)

(** X1. Removing a job id that the list holds returns the first record with
    that id and takes exactly that element out: the elements before and
    after keep their order, the lists of all other keys, the object store
    and the History Store are left alone. *)
Theorem removeLoadingStatus_present (botId : BotId) profileName jobId st
    l1 x l2 :
  jobsOf botId profileName st = Some (l1 ++ x :: l2) →
  unknownJob (objects st) jobId l1 →
  jobIdAt (objects st) x = Some jobId →
  ∃ st',
    removeLoadingStatus botId profileName jobId st = Returns (Some x) st'
    ∧ jobsOf botId profileName st' = Some (l1 ++ l2)
    ∧ (∀ b p, (b, p) ≠ (botName botId, profileName) →
              jobsOf b p st' = jobsOf b p st)
    ∧ objects st' = objects st
    ∧ histories st' = histories st.
Proof.
  intros Hjobs Hl1 Hx.
  destruct (removeLoadingStatus_first _ _ _ _ _ _ _ Hjobs Hl1 Hx)
    as (st' & Hrun & Hjobs' & Hframe & Hobjects & Hhistories & _).
  by exists st'.
Qed.

(** X2. Removing a job id that no record of an existing list has answers
    [undefined] and replaces the list by all its elements but the last
    followed by the whole list: lists of at most one element stay as they
    are, a list of n >= 2 elements grows to 2n - 1. *)
Theorem removeLoadingStatus_absent_id (botId : BotId) profileName jobId st
    jobs :
  jobsOf botId profileName st = Some jobs →
  unknownJob (objects st) jobId jobs →
  ∃ st' jobs',
    removeLoadingStatus botId profileName jobId st = Returns None st'
    ∧ jobsOf botId profileName st' = Some jobs'
    ∧ jobs' = take (length jobs - 1) jobs ++ jobs
    ∧ (length jobs ≤ 1 → jobs' = jobs)%nat
    ∧ (2 ≤ length jobs → length jobs' = 2 * length jobs - 1)%nat.
Proof.
  intros Hjobs Hunknown.
  destruct (removeLoadingStatus_unknown _ _ _ _ _ Hjobs Hunknown)
    as (st' & Hrun & Hjobs').
  exists st', (take (length jobs - 1) jobs ++ jobs).
  repeat split; [done | done | |].
  - intros Hshort. destruct jobs as [| y [| z jobs]]; [done | done |].
    cbn in Hshort. lia.
  - intros Hlong. rewrite length_app, length_take. lia.
Qed.

(** X3. When [removeLoadingStatus] returns and when it throws, the elements
    of the list of the key being records. It returns for a key that has a
    list, for a bot without table entry and for a profile name that names
    no member of [Object.prototype]; without a list it then answers
    [undefined] and changes nothing. It throws, changing nothing, for a bot
    that has a table entry and a profile named like a member of
    [Object.prototype] that has no list: [findIndex] is not a function of
    that member. *)
Theorem removeLoadingStatus_returns (botId : BotId) profileName jobId st :
  (∀ jobs, jobsOf botId profileName st = Some jobs →
           records (objects st) jobs) →
  (inherited profileName = None
   ∨ is_Some (jobsOf botId profileName st)
   ∨ publishingBots st !! botName botId = None →
   ∃ answer st',
     removeLoadingStatus botId profileName jobId st = Returns answer st'
     ∧ (jobsOf botId profileName st = None → answer = None ∧ st' = st))
  ∧ (is_Some (publishingBots st !! botName botId) →
     jobsOf botId profileName st = None →
     is_Some (inherited profileName) →
     removeLoadingStatus botId profileName jobId st = Throws notAFunction st).
Proof.
  intros Hrecords. unfold removeLoadingStatus. split.
  - intros Hkey.
    destruct (publishingBots st !! botName botId) as [profiles |] eqn:Hbot;
      [| by exists None, st].
    destruct (profiles !! profileName) as [jobs |] eqn:Hprofile.
    + rewrite (getProperty_own _ _ _ Hprofile).
      assert (jobsOf botId profileName st = Some jobs) as Hjobs
        by (unfold jobsOf; rewrite Hbot; done).
      specialize (Hrecords jobs Hjobs).
      destruct (first_hit (hasId (objects st) jobId) jobs)
        as [Hnone | (l1 & x & l2 & -> & Hl1 & Hx)].
      * eapply Forall_impl; [exact Hrecords |]. intros l. apply hasId_record.
      * unfold JsArray.findIndex. rewrite findIndexFrom_none by done.
        eexists _, _. split; [reflexivity |]. by rewrite Hjobs.
      * unfold JsArray.findIndex. rewrite findIndexFrom_first by done.
        eexists _, _. split; [reflexivity |]. by rewrite Hjobs.
    + assert (inherited profileName = None) as Hplain.
      { destruct Hkey as [| [[jobs Hjobs] |]]; [done | | done].
        unfold jobsOf in Hjobs. rewrite Hbot in Hjobs. cbn in Hjobs.
        congruence. }
      rewrite getProperty_missing by done. by exists None, st.
  - intros [profiles Hbot] Hjobs [m Hname]. rewrite Hbot.
    unfold jobsOf in Hjobs. rewrite Hbot in Hjobs. cbn in Hjobs.
    by rewrite (getProperty_inherited _ _ m).
Qed.

(** X4. [getLoadingStatus] throws exactly for a bot that has a table entry
    and no list for the profile asked for, when the profile name names no
    member of [Object.prototype] ([undefined.length]), or when a job id is
    given and the name is that of a built-in function with parameters
    ([find] is not a function of it); in every other state of the table,
    with every list element a record, it answers. *)
Theorem getLoadingStatus_throws_iff (botId : BotId) profileName jobId st :
  (∀ jobs, jobsOf botId profileName st = Some jobs →
           records (objects st) jobs) →
  (∃ e, getLoadingStatus botId profileName jobId st = Abrupt e)
  ↔ (is_Some (publishingBots st !! botName botId)
     ∧ jobsOf botId profileName st = None
     ∧ (inherited profileName = None
        ∨ (jobId ≠ "" ∧ ∃ n, inherited profileName = Some (Method (S n))))).
Proof.
  intros Hrecords. unfold getLoadingStatus, jobsOf in *. split.
  - intros [e He].
    destruct (publishingBots st !! botName botId) as [profiles |] eqn:Hbot;
      [| done].
    split; [by eexists |]. cbn in *.
    destruct (profiles !! profileName) as [jobs |] eqn:Hprofile.
    + exfalso. rewrite (getProperty_own _ _ _ Hprofile) in He.
      specialize (Hrecords jobs eq_refl).
      destruct (0 <? Z.of_nat (length jobs)); [| done].
      destruct (bool_decide (jobId ≠ "")); [| done].
      destruct (first_hit (hasId (objects st) jobId) jobs)
        as [Hnone | (l1 & x & l2 & -> & Hl1 & Hx)].
      * eapply Forall_impl; [exact Hrecords |]. intros l. apply hasId_record.
      * by rewrite find_none in He.
      * by rewrite find_first in He.
    + split; [done |].
      destruct (inherited profileName) as [m |] eqn:Hname; [| by left].
      right. rewrite (getProperty_inherited _ _ m) in He by done.
      destruct m as [[| n] |]; cbn in He; [done | | done].
      case_bool_decide; [| done]. eauto.
  - intros ([profiles Hbot] & Hjobs & Hname). rewrite Hbot in *. cbn in Hjobs.
    destruct Hname as [Hplain | (Hid & n & Hname)].
    + rewrite getProperty_missing by done. eauto.
    + rewrite (getProperty_inherited _ _ (Method (S n))) by done. cbn.
      rewrite bool_decide_eq_true_2 by done. eauto.
Qed.

(** X5. With a job id, [getLoadingStatus] answers with the first element of
    the list whose record has that id, and with [undefined] when there is
    none: it is the search [list_find] over the job ids of the records. *)
Theorem getLoadingStatus_by_id (botId : BotId) profileName jobId st jobs :
  jobId ≠ "" →
  jobsOf botId profileName st = Some jobs →
  records (objects st) jobs →
  getLoadingStatus botId profileName jobId st
  = Normal (snd <$> list_find (λ l, jobIdAt (objects st) l = Some jobId) jobs).
Proof.
  intros Hid (profiles & Hbot & Hprofile)%jobsOf_Some Hrecords.
  unfold getLoadingStatus. rewrite Hbot, (getProperty_own _ _ _ Hprofile).
  rewrite bool_decide_eq_true_2 by done.
  assert (JsArray.find (hasId (objects st) jobId) jobs
          = Normal (snd <$> list_find
                      (λ l, jobIdAt (objects st) l = Some jobId) jobs)) as Hfind.
  { clear Hprofile. induction Hrecords as [| x jobs [r Hr] _ IH]; [done |].
    cbn [JsArray.find list_find]. case_decide as Hx.
    - by rewrite (hasId_same _ _ _ Hx).
    - rewrite (hasId_other _ _ x (id (result r))).
      + rewrite IH. by destruct (list_find _ jobs) as [[i y] |].
      + unfold jobIdAt. by rewrite Hr.
      + intros Heq. apply Hx. unfold jobIdAt. rewrite Hr. cbn. congruence. }
  destruct (Z.ltb_spec 0 (Z.of_nat (length jobs))); [done |].
  destruct jobs; [done | cbn in *; lia].
Qed.

(** X6. For a key that has a list, [getLoadingStatus] without a job id
    answers with the last element of the list, the record added most
    recently, and with [undefined] when the list is empty; an empty job id
    is an omitted one. *)
Theorem getLoadingStatus_tail (botId : BotId) profileName st jobs :
  jobsOf botId profileName st = Some jobs →
  getLoadingStatus botId profileName "" st = Normal (last jobs).
Proof. apply getLoadingStatus_latest. Qed.

(** X7. For a key that has a list or whose profile name names no member of
    [Object.prototype], whatever else the table holds: [addLoadingStatus]
    returns and the latest status of the key is then the record just added,
    also when the bot had lists for other profiles only; the lists of the
    other keys are as before. *)
Theorem getLoadingStatus_after_add (botId : BotId) profileName l st :
  inherited profileName = None ∨ is_Some (jobsOf botId profileName st) →
  ∃ st',
    addLoadingStatus botId profileName l st = Returns () st'
    ∧ getLoadingStatus botId profileName "" st' = Normal (Some l)
    ∧ ∀ b p, (b, p) ≠ (botName botId, profileName) →
             jobsOf b p st' = jobsOf b p st.
Proof.
  intros Hkey.
  destruct (addLoadingStatus_appends botId profileName l st Hkey)
    as (st' & Hrun & Hjobs & Hframe & _).
  exists st'. split; [done |]. split; [| done].
  rewrite (getLoadingStatus_latest _ _ _ _ Hjobs). by rewrite last_snoc.
Qed.

(** * Further properties of the coordinator *)

(** The state an accepted publish leaves. *)
Lemma publish_accepted_frame w config project metadata st pv resourcekey :
  resourceKey w config project = Normal resourcekey →
  staging w = None →
  truthy (accessToken config) = true → provision config = Some pv →
  settingsMerge w = None →
  inherited (name config) = None →
  ∃ st',
    publish w config project metadata st
    = Returns (fresh (dom (objects st))) st'
    ∧ jobsOf (Project.id project) (name config) st'
      = Some (default [] (jobsOf (Project.id project) (name config) st)
                ++ [fresh (dom (objects st))])
    ∧ (∀ b p, (b, p) ≠ (botName (Project.id project), name config) →
              jobsOf b p st' = jobsOf b p st)
    ∧ objects st'
      = <[fresh (dom (objects st)) := accepted w metadata]> (objects st)
    ∧ histories st' = histories st
    ∧ logMessages st' = [Some "Publish starting..."]
    ∧ projectFolders st'
      = <[resourcekey := runtimePath config project]> (projectFolders st).
Proof.
  intros Hkey Hstaging Htoken Hprovision Hmerge Hplain.
  rewrite (publish_staged _ _ _ _ _ _ Hkey Hstaging). unfold try_catch.
  edestruct (publishTry_accepted w config project metadata) as
    (st' & -> & Hjobs & Hframe & Hobjects & Hhistories & Hlog & Hfolders);
    [done .. |].
  by exists st'.
Qed.

(** The record the [catch] block returns, whatever becomes of the call of
    [updateHistory]. *)
Lemma publishCatch_record w config project metadata resourcekey err text st :
  messageOf err = Normal text →
  ∃ l st',
    publishCatch w config project metadata resourcekey err st = Returns l st'
    ∧ objects st !! l = None
    ∧ objects st'
      = <[l := failure w metadata (logMessages st ++ [text])]> (objects st)
    ∧ publishingBots st' = publishingBots st
    ∧ logMessages st' = logMessages st ++ [text]
    ∧ projectFolders st' = delete resourcekey (projectFolders st).
Proof.
  intros Htext.
  destruct (decide (inherited (name config) = None
                    ∨ is_Some (storedHistory (Project.id project)
                                 (name config) st))) as [Hstore | Hnostore].
  - destruct (publishCatch_message w config project metadata resourcekey err
                text st Htext Hstore)
      as (l & st' & Hrun & Hnew & Hobjects & Htable & _ & Hlog & Hfolders).
    by exists l, st'.
  - destruct (inherited (name config)) as [m |] eqn:Hname; [| tauto].
    destruct (storedHistory (Project.id project) (name config) st)
      as [entries |] eqn:Hstored;
      [exfalso; apply Hnostore; right; by eexists |].
    destruct (publishCatch_inherited w config project metadata resourcekey err
                text st m Htext Hname Hstored)
      as (l & st' & Hrun & Hnew & Hobjects & Htable & _ & Hlog & Hfolders).
    by exists l, st'.
Qed.

Lemma happenAll_logged msgs st :
  histories (happenAll (Logged <$> msgs) st) = histories st
  ∧ publishingBots (happenAll (Logged <$> msgs) st) = publishingBots st
  ∧ objects (happenAll (Logged <$> msgs) st) = objects st
  ∧ projectFolders (happenAll (Logged <$> msgs) st) = projectFolders st
  ∧ logMessages (happenAll (Logged <$> msgs) st) = logMessages st ++ msgs.
Proof.
  revert st. induction msgs as [| m msgs IH]; intros st.
  - by rewrite app_nil_r.
  - unfold happenAll in *. cbn [fmap list_fmap foldl happen].
    destruct (IH (stateOf (logger m st))) as (-> & -> & -> & -> & ->).
    repeat split. cbn. unfold JsArray.push. by rewrite <- app_assoc.
Qed.

Lemma unknownJob_insert_fresh o jobId jobs l r :
  o !! l = None → unknownJob o jobId jobs →
  unknownJob (<[l := r]> o) jobId jobs.
Proof.
  intros Hfresh Hjobs. eapply Forall_impl; [exact Hjobs |].
  intros l' (j & Hj & Hne). exists j. split; [| done].
  unfold jobIdAt in *. rewrite lookup_insert_ne; [done |].
  intros ->. by rewrite Hfresh in Hj.
Qed.

(** X8. The life of a job, for a profile name that names no member of
    [Object.prototype] and a resource key that was computed. An accepted
    publish makes [getStatus] answer with the record it returned. When its
    deployment settles, after any lines the deployer logged, the completion
    returns, the list of the key is back to what it was before the publish,
    the very record the caller of [publish] holds now has status 200 and
    message 'Success' (after a failure 500 and the [message] of what was
    thrown, [undefined] when it has none, 'publish error' when it is falsy)
    with the whole log, its snapshot (status, job id, time, message, log
    and comment) is the head of the History of the key, and the project
    folder is gone. If no other job of the key is in flight, [getStatus]
    then answers with that History entry. *)
Theorem publish_then_completion w config project metadata msgs deployed st pv
    resourcekey :
  resourceKey w config project = Normal resourcekey →
  staging w = None →
  truthy (accessToken config) = true →
  provision config = Some pv →
  settingsMerge w = None →
  inherited (name config) = None →
  uuid w ≠ "" →
  unknownJob (objects st) (uuid w)
    (default [] (jobsOf (Project.id project) (name config) st)) →
  ∃ l st1 st2 final,
    publish w config project metadata st = Returns l st1
    ∧ getStatus config project st1 = Normal (InFlight l)
    ∧ projectFolders st1 !! resourcekey = Some (runtimePath config project)
    ∧ createAndDeploy (Project.id project) (name config) (uuid w)
        resourcekey deployed (happenAll (Logged <$> msgs) st1) = Returns () st2
    ∧ final = settled (completionCode deployed) (completionText deployed)
                (JsArray.join newline (Some "Publish starting..." :: msgs))
                (accepted w metadata)
    ∧ objects st2 !! l = Some final
    ∧ jobsOf (Project.id project) (name config) st2
      = Some (default [] (jobsOf (Project.id project) (name config) st))
    ∧ snapshot final
      = {| entry_status := completionCode deployed; entry_id := uuid w;
           entry_time := now w; entry_message := completionText deployed;
           entry_log := JsArray.join newline
                          (Some "Publish starting..." :: msgs);
           entry_comment := Metadata.comment metadata |}
    ∧ getHistory (Project.id project) (name config) st2
      = Entries (snapshot final
                   :: historyEntries (Project.id project) (name config) st)
    ∧ projectFolders st2 !! resourcekey = None
    ∧ (default [] (jobsOf (Project.id project) (name config) st) = [] →
       getStatus config project st2
       = Normal (FromHistory (completionCode deployed) (snapshot final))).
Proof.
  intros Hkey Hstaging Htoken Hprovision Hmerge Hplain Hid Hfresh.
  set (botId := Project.id project). set (prior := default [] _) in *.
  set (l := fresh (dom (objects st))).
  destruct (publish_accepted_frame w config project metadata st pv resourcekey)
    as (st1 & Hpublish & Hjobs1 & _ & Hobjects1 & Hhistories1 & Hlog1 & Hfolders1);
    [done .. |].
  fold l botId in Hpublish, Hjobs1, Hobjects1. fold prior in Hjobs1.
  destruct (happenAll_logged msgs st1) as (Hh & Hp & Ho & Hf & Hlog).
  set (st1' := happenAll (Logged <$> msgs) st1) in *.
  destruct (settle_found_frame botId (name config) (uuid w) resourcekey
              (completionCode deployed) (completionText deployed)
              st1' prior l [] (accepted w metadata))
    as (st2 & Hsettle & Hjobs2 & _ & Hobjects & Hhistory & _ & _ & Hfolder).
  - done.
  - by rewrite (jobsOf_publishingBots _ _ st1' st1).
  - rewrite Ho, Hobjects1.
    apply unknownJob_insert_fresh; [apply fresh_object | done].
  - rewrite Ho, Hobjects1. apply lookup_insert_eq.
  - done.
  - by left.
  - rewrite Hlog, Hlog1 in Hobjects, Hhistory. rewrite app_nil_r in Hjobs2.
    assert (historyEntries botId (name config) st1'
            = historyEntries botId (name config) st) as Hsame.
    { rewrite (historyEntries_histories _ _ st1' st1) by done.
      by apply historyEntries_histories. }
    rewrite Hsame in Hhistory.
    exists l, st1, st2, (settled (completionCode deployed)
                           (completionText deployed)
                           (JsArray.join newline
                              (Some "Publish starting..." :: msgs))
                           (accepted w metadata)).
    split; [done |].
    split.
    { unfold getStatus. fold botId.
      rewrite (getLoadingStatus_latest _ _ _ _ Hjobs1). by rewrite last_snoc. }
    split; [rewrite Hfolders1; apply lookup_insert_eq |].
    split; [by apply createAndDeploy_settles |].
    split; [done |].
    split.
    { rewrite Hobjects, lookup_alter_eq, Ho, Hobjects1.
      by rewrite lookup_insert_eq. }
    split; [done |].
    split; [done |].
    split; [by apply getHistory_own |].
    split; [rewrite Hfolder; apply lookup_delete_eq |].
    intros Hnone. rewrite Hnone in Hjobs2.
    pose proof (getLoadingStatus_latest _ _ _ _ Hjobs2) as Hidle.
    rewrite (getStatus_idle _ _ _ Hidle). fold botId.
    by rewrite (getHistory_own _ _ _ _ Hhistory).
Qed.

(** X9. The completion of a deployment whose job is not in the table (the
    bot has no entry, or the list of the key holds no record with that job
    id) returns without any effect, for a success as for a failure. *)
Theorem completion_of_unknown_job (botId : BotId) profileName jobId
    resourcekey deployed st :
  jobId ≠ "" →
  publishingBots st !! botName botId = None
  ∨ (∃ jobs, jobsOf botId profileName st = Some jobs
             ∧ unknownJob (objects st) jobId jobs) →
  createAndDeploy botId profileName jobId resourcekey deployed st
  = Returns () st.
Proof.
  intros Hid Hunknown. apply createAndDeploy_settles, settle_no_status.
  destruct Hunknown as [Hbot | (jobs & Hjobs & Hnone)].
  - by apply getLoadingStatus_no_bot.
  - by eapply getLoadingStatus_unknown_job.
Qed.

(** X10. A job settles once: when the list holds one record with the job
    id, and the History Store takes the entry (the profile name names no
    member of [Object.prototype], or the key has a sequence), the first
    completion returns and a second completion for the same job id,
    whatever its outcome, returns and changes nothing. *)
Theorem completion_twice (botId : BotId) profileName jobId resourcekey
    deployed again st l1 x l2 r :
  jobId ≠ "" →
  jobsOf botId profileName st = Some (l1 ++ x :: l2) →
  unknownJob (objects st) jobId l1 →
  unknownJob (objects st) jobId l2 →
  objects st !! x = Some r → id (result r) = jobId →
  inherited profileName = None
  ∨ is_Some (storedHistory botId profileName st) →
  ∃ st',
    createAndDeploy botId profileName jobId resourcekey deployed st
    = Returns () st'
    ∧ createAndDeploy botId profileName jobId resourcekey again st'
      = Returns () st'.
Proof.
  intros Hid Hjobs Hl1 Hl2 Hr Hx Hstore.
  destruct (settle_found_frame botId profileName jobId resourcekey
              (completionCode deployed) (completionText deployed)
              st l1 x l2 r)
    as (st' & Hsettle & Hjobs' & _ & Hobjects & _); [done .. |].
  exists st'. split; [by apply createAndDeploy_settles |].
  apply createAndDeploy_settles, settle_no_status.
  eapply getLoadingStatus_unknown_job; [done | exact Hjobs' |].
  rewrite Hobjects. apply unknownJob_alter; [done |]. by apply Forall_app.
Qed.

(** X11. When the merge of the provisioned settings throws a value that has
    a [message] to read, a publish that passed validation ends like a
    rejected one: for a resource key that was computed and a profile name
    that names no member of [Object.prototype], it returns a new status-500
    record with the message 'Publish Fail' whose log ends with that
    [message], puts its snapshot at the head of the History of the key,
    leaves the Job Status Table alone and removes the project folder. When
    the merge throws [undefined] or [null], the [catch] block throws in
    turn and [publish] returns nothing. *)
Theorem publish_merge_error_recorded w config project metadata st pv err
    resourcekey :
  resourceKey w config project = Normal resourcekey →
  staging w = None →
  truthy (accessToken config) = true → provision config = Some pv →
  settingsMerge w = Some err →
  (∀ text, messageOf err = Normal text →
     inherited (name config) = None →
     ∃ l r st',
       publish w config project metadata st = Returns l st'
       ∧ objects st' !! l = Some r
       ∧ status r = 500
       ∧ message (result r) = Some "Publish Fail"
       ∧ id (result r) = uuid w
       ∧ log (result r) = JsArray.join newline (logMessages st ++ [text])
       ∧ publishingBots st' = publishingBots st
       ∧ getHistory (Project.id project) (name config) st'
         = Entries (snapshot r
                      :: historyEntries (Project.id project) (name config) st)
       ∧ projectFolders st' !! resourcekey = None)
  ∧ (err = Nullish →
     ∃ st',
       publish w config project metadata st = Throws undefinedProperty st'
       ∧ publishingBots st' = publishingBots st
       ∧ histories st' = histories st
       ∧ objects st' = objects st).
Proof.
  intros Hkey Hstaging Htoken Hprovision Hmerge.
  rewrite (publish_staged _ _ _ _ _ _ Hkey Hstaging). unfold try_catch.
  erewrite publishTry_merge_fails by done. split.
  - intros text Htext Hplain.
    edestruct (publishCatch_message w config project metadata resourcekey
                 err text)
      as (l & st' & -> & _ & Hobjects & Hjobs & Hstored & _ & Hfolder);
      [done | by left |].
    exists l, (failure w metadata (logMessages st ++ [text])), st'.
    split; [done |].
    split; [by rewrite Hobjects, lookup_insert_eq |].
    repeat split; try done.
    + by apply getHistory_own.
    + rewrite Hfolder. apply lookup_delete_eq.
  - intros ->. unfold publishCatch. run. cbn. by eexists.
Qed.

(** X12. A publish with an access token but without a provision, for a
    resource key that was computed and a profile name that names no member
    of [Object.prototype], is rejected with status 500 and the message
    'Publish Fail'; the last line of its log is the text that asks to run
    the provision script. The Job Status Table is left alone, the snapshot
    is the head of the History of the key and the project folder is
    removed. *)
Theorem publish_without_provision w config project metadata st resourcekey :
  resourceKey w config project = Normal resourcekey →
  staging w = None →
  truthy (accessToken config) = true →
  provision config = None →
  inherited (name config) = None →
  ∃ l r st',
    publish w config project metadata st = Returns l st'
    ∧ objects st' !! l = Some r
    ∧ status r = 500
    ∧ message (result r) = Some "Publish Fail"
    ∧ log (result r)
      = JsArray.join newline (logMessages st ++ [Some missingProvision])
    ∧ mentions "provision script" (log (result r)) = true
    ∧ publishingBots st' = publishingBots st
    ∧ getHistory (Project.id project) (name config) st'
      = Entries (snapshot r
                   :: historyEntries (Project.id project) (name config) st)
    ∧ projectFolders st' !! resourcekey = None.
Proof.
  intros Hkey Hstaging Htoken Hprovision Hplain.
  destruct (publish_rejected w config project metadata st resourcekey
              Hkey Hstaging (or_intror Hprovision) (or_introl Hplain))
    as (l & st' & text & Hrun & -> & _ & Hl & Hjobs & Hhistory & Hfolder).
  rewrite Htoken in *.
  exists l, (failure w metadata (logMessages st ++ [Some missingProvision])),
    st'.
  repeat split; try done.
  cbn [failure result log]. by apply mentions_last_line.
Qed.

(** X13. The log buffer is shared between publishes: an accepted publish
    resets it to 'Publish starting...', and a publish rejected right after
    it, for any bot and profile, returns a log that starts with that line
    of the other job, followed by its own error text; the record of the
    accepted job is not touched. Both resource keys were computed, and the
    profile name of the accepted publish names no member of
    [Object.prototype]. *)
Theorem rejected_log_after_accepted w1 config1 project1 metadata1 pv key1
    w2 config2 project2 metadata2 key2 st :
  resourceKey w1 config1 project1 = Normal key1 →
  staging w1 = None → truthy (accessToken config1) = true →
  provision config1 = Some pv → settingsMerge w1 = None →
  inherited (name config1) = None →
  resourceKey w2 config2 project2 = Normal key2 →
  staging w2 = None →
  truthy (accessToken config2) = false ∨ provision config2 = None →
  ∃ l1 st1 l2 r2 st2,
    publish w1 config1 project1 metadata1 st = Returns l1 st1
    ∧ logMessages st1 = [Some "Publish starting..."]
    ∧ publish w2 config2 project2 metadata2 st1 = Returns l2 st2
    ∧ objects st2 !! l2 = Some r2
    ∧ log (result r2)
      = "Publish starting..." +:+ newline
          +:+ (if truthy (accessToken config2)
               then missingProvision else missingAccessToken)
    ∧ objects st2 !! l1 = Some (accepted w1 metadata1).
Proof.
  intros Hkey1 Hstaging1 Htoken1 Hprovision1 Hmerge1 Hplain1
    Hkey2 Hstaging2 Hinvalid2.
  destruct (publish_accepted_frame w1 config1 project1 metadata1 st pv key1)
    as (st1 & Hfirst & _ & _ & Hobjects1 & _ & Hlog1 & _); [done .. |].
  set (l1 := fresh (dom (objects st))) in *.
  pose proof (publish_staged w2 config2 project2 metadata2 st1 key2
                Hkey2 Hstaging2) as Hsecond.
  unfold try_catch in Hsecond. rewrite publishTry_invalid in Hsecond by done.
  destruct (publishCatch_record w2 config2 project2 metadata2 key2
              (Error (if truthy (accessToken config2)
                      then missingProvision else missingAccessToken))
              (Some (if truthy (accessToken config2)
                     then missingProvision else missingAccessToken))
              (with_projectFolders
                 (<[key2 := runtimePath config2 project2]> (projectFolders st1))
                 st1) eq_refl)
    as (l2 & st2 & Hcatch & Hfresh & Hobjects2 & _).
  rewrite Hcatch in Hsecond.
  cbn [objects with_projectFolders logMessages] in *.
  eexists l1, st1, l2, _, st2.
  split; [done |]. split; [done |]. split; [done |].
  split; [rewrite Hobjects2; apply lookup_insert_eq |].
  split; [by rewrite Hlog1 |].
  assert (l2 ≠ l1) as Hne.
  { intros Heq. rewrite Heq, Hobjects1 in Hfresh.
    by rewrite lookup_insert_eq in Hfresh. }
  rewrite Hobjects2, lookup_insert_ne, Hobjects1 by done.
  apply lookup_insert_eq.
Qed.

(** X14. With no job of the key in flight (its list is empty, or the bot
    has no table entry), for a key that has a History or whose profile name
    names no member of [Object.prototype]: [updateHistory] returns, and
    [getStatus] answers right after it with the entry just stored, wrapped
    as [{ status, result }]. *)
Theorem getStatus_after_updateHistory config project entry st :
  jobsOf (Project.id project) (name config) st = Some []
  ∨ publishingBots st !! botName (Project.id project) = None →
  inherited (name config) = None
  ∨ is_Some (storedHistory (Project.id project) (name config) st) →
  ∃ st',
    updateHistory (Project.id project) (name config) entry st = Returns () st'
    ∧ getStatus config project st'
      = Normal (FromHistory (entry_status entry) entry).
Proof.
  intros Hidle Hkey.
  destruct (updateHistory_stores (Project.id project) (name config) entry st
              Hkey) as (st' & Hrun & Hstored & _ & Htable & _).
  exists st'. split; [done |].
  rewrite getStatus_idle.
  - by rewrite (getHistory_own _ _ _ _ Hstored).
  - rewrite (getLoadingStatus_ext _ _ st' st) by done.
    destruct Hidle as [Hjobs | Hbot].
    + by rewrite (getLoadingStatus_latest _ _ _ _ Hjobs).
    + by apply getLoadingStatus_no_bot.
Qed.

(** * Invariants of the runs *)

Lemma tablesSound_constructor : tablesSound constructor.
Proof.
  intros b p jobs Hjobs. unfold jobsOf in Hjobs. cbn in Hjobs.
  by rewrite lookup_empty in Hjobs.
Qed.

Lemma plainKeys_constructor : plainKeys constructor.
Proof. intros b p _. unfold jobsOf, storedHistory. cbn. by rewrite !lookup_empty. Qed.

Lemma grows_refl st : grows st st.
Proof. split; [intros b p; by exists [] | eauto]. Qed.

Lemma grows_trans st1 st2 st3 : grows st1 st2 → grows st2 st3 → grows st1 st3.
Proof.
  intros [Hh12 Ho12] [Hh23 Ho23]. split.
  - intros b p. destruct (Hh12 b p) as [n12 H12], (Hh23 b p) as [n23 H23].
    exists (n23 ++ n12). by rewrite H23, H12, app_assoc.
  - intros l r Hr.
    destruct (Ho12 l r Hr) as (r2 & Hr2 & Hid2 & Htime2 & Hcomment2).
    destruct (Ho23 l r2 Hr2) as (r3 & Hr3 & Hid3 & Htime3 & Hcomment3).
    exists r3. split; [done |]. split; [congruence |]. split; congruence.
Qed.

Lemma records_mono o o' jobs :
  (∀ l, is_Some (o !! l) → is_Some (o' !! l)) →
  records o jobs → records o' jobs.
Proof. intros Hmono Hjobs. eapply Forall_impl; [exact Hjobs |]. exact Hmono. Qed.

(** A state that differs in nothing the invariants look at. *)
Lemma changes_same st st' :
  (∀ b p, jobsOf b p st' = jobsOf b p st) →
  (∀ b p, storedHistory b p st' = storedHistory b p st) →
  (∀ l r, objects st !! l = Some r → objects st' !! l = Some r) →
  changes st st'.
Proof.
  intros Htable Hhistories Hobjects. split; [| split].
  - intros b p. by left.
  - intros b p. by left.
  - intros l r Hr. exists r. auto.
Qed.

Lemma changes_refl st : changes st st.
Proof. by apply changes_same. Qed.

Lemma changes_tablesSound st st' :
  changes st st' → tablesSound st → tablesSound st'.
Proof.
  intros (Htable & _ & Hobjects) Hsound b p jobs' Hjobs'.
  assert (∀ l, is_Some (objects st !! l) → is_Some (objects st' !! l)) as Hmono.
  { intros l [r Hr]. destruct (Hobjects l r Hr) as (r' & Hr' & _). by eexists. }
  destruct (Htable b p)
    as [Hsame | [(l & Happended & Hfresh & Hl & _) | (l1 & x & l2 & Hjobs & Hremoved)]].
  - rewrite Hsame in Hjobs'. destruct (Hsound b p jobs' Hjobs').
    split; [by eapply records_mono | done].
  - rewrite Happended in Hjobs'. injection Hjobs' as <-.
    assert (records (objects st) (default [] (jobsOf b p st))
            ∧ NoDup (default [] (jobsOf b p st))) as [Hrecords Hnodup].
    { destruct (jobsOf b p st) as [prior |] eqn:Hprior.
      - exact (Hsound _ _ _ Hprior).
      - split; constructor. }
    split.
    + apply Forall_app. split; [by eapply records_mono |]. by repeat constructor.
    + apply NoDup_app. split; [done |]. split; [| apply NoDup_singleton].
      intros l' Hl' ->%list_elem_of_singleton.
      unfold records in Hrecords. rewrite Forall_forall in Hrecords.
      destruct (Hrecords l Hl') as [r Hr]. by rewrite Hfresh in Hr.
  - rewrite Hremoved in Hjobs'. injection Hjobs' as <-.
    destruct (Hsound b p _ Hjobs) as [Hrecords Hnodup].
    unfold records in Hrecords.
    apply Forall_app in Hrecords as [Hr1 Hr2].
    apply Forall_cons in Hr2 as [_ Hr2].
    split.
    + apply Forall_app. split; by eapply records_mono.
    + apply NoDup_app in Hnodup as (Hn1 & Hdisjoint & Hn2).
      apply NoDup_cons in Hn2 as [_ Hn2].
      apply NoDup_app. split; [done |]. split; [| done].
      intros l Hl Hl2. apply (Hdisjoint l Hl). by right.
Qed.

Lemma changes_grows st st' : changes st st' → grows st st'.
Proof.
  intros (_ & Hhistories & Hobjects). split; [| done].
  intros b p. unfold historyEntries at 1.
  destruct (Hhistories b p) as [-> | (entry & -> & _)].
  - by exists [].
  - by exists [entry].
Qed.

Lemma changes_plainKeys st st' : changes st st' → plainKeys st → plainKeys st'.
Proof.
  intros (Htable & Hhistories & _) Hplain b p Hname.
  destruct (Hplain b p Hname) as [Hjobs Hstored].
  destruct Hname as [m Hname]. split.
  - destruct (Htable b p)
      as [-> | [(l & _ & _ & _ & [Hnone | [jobs Hsome]]) | (l1 & x & l2 & Hsome & _)]];
      congruence.
  - destruct (Hhistories b p) as [-> | (entry & _ & [Hnone | [entries Hsome]])];
      congruence.
Qed.

Lemma changes_keeps_history st st' b p :
  changes st st' →
  is_Some (storedHistory b p st) → is_Some (storedHistory b p st').
Proof.
  intros (_ & Hhistories & _) Hstored.
  destruct (Hhistories b p) as [-> | (entry & -> & _)]; [done | by eexists].
Qed.

(** What [updateHistory] does to the sequences, whether it returns or
    throws. *)
Lemma updateHistory_changes (botId : BotId) profileName entry st b p :
  storedHistory b p (stateOf (updateHistory botId profileName entry st))
  = storedHistory b p st
  ∨ (∃ e, storedHistory b p (stateOf (updateHistory botId profileName entry st))
          = Some (e :: historyEntries b p st)
          ∧ (inherited p = None ∨ is_Some (storedHistory b p st))).
Proof.
  destruct (decide ((b, p) = (botName botId, profileName))) as [[= -> ->] | Hne].
  - destruct (decide (inherited profileName = None
                      ∨ is_Some (storedHistory botId profileName st)))
      as [Hkey | Hnokey].
    + destruct (updateHistory_stores botId profileName entry st Hkey)
        as (st' & -> & Hstored & _). right. by exists entry.
    + destruct (inherited profileName) as [m |] eqn:Hname; [| tauto].
      destruct (storedHistory botId profileName st) as [entries |] eqn:Hstored;
        [exfalso; apply Hnokey; right; by eexists |].
      destruct (updateHistory_inherited botId profileName entry st m)
        as (st' & -> & Hall & _); [done .. |]. left. cbn. by rewrite Hall.
  - left. by apply updateHistory_others.
Qed.

(** The [catch] block of [publish], as a function of the state. *)
Lemma publishCatch_state w config project metadata resourcekey err text st :
  messageOf err = Normal text →
  ∃ st1,
    st1 = stateOf
            (updateHistory (Project.id project) (name config)
               (snapshot (failure w metadata (logMessages st ++ [text])))
               (with_objects
                  (<[fresh (dom (objects st))
                     := failure w metadata (logMessages st ++ [text])]>
                     (objects st))
                  (with_logMessages (logMessages st ++ [text]) st)))
    ∧ publishCatch w config project metadata resourcekey err st
      = Returns (fresh (dom (objects st)))
          (with_projectFolders (delete resourcekey (projectFolders st1)) st1).
Proof.
  intros Htext. eexists. split; [reflexivity |].
  unfold publishCatch, pushLogMessage, alloc, deref, cleanup, JsArray.push. run.
  rewrite Htext. cbn [objects with_objects with_logMessages logMessages].
  by rewrite lookup_insert_eq.
Qed.

Lemma publishCatch_throws w config project metadata resourcekey err e st :
  messageOf err = Abrupt e →
  publishCatch w config project metadata resourcekey err st = Throws e st.
Proof. intros Htext. unfold publishCatch. run. by rewrite Htext. Qed.

(** The [catch] block entered in a state [s] that has the lists and the
    History of [st] and at least its records. *)
Lemma publishCatch_changes w config project metadata resourcekey err st s :
  (∀ b p, jobsOf b p s = jobsOf b p st) →
  histories s = histories st →
  (∀ l r, objects st !! l = Some r → objects s !! l = Some r) →
  changes st (stateOf (publishCatch w config project metadata resourcekey err s)).
Proof.
  intros Htable Hhistories Hobjects.
  destruct (messageOf err) as [text | e] eqn:Htext.
  2: { rewrite (publishCatch_throws _ _ _ _ _ _ e) by done. cbn [stateOf].
       apply changes_same; [done | | done].
       intros b p. by apply storedHistory_histories. }
  destruct (publishCatch_state w config project metadata resourcekey err text s
              Htext) as (st1 & Hst1 & ->).
  cbn [stateOf].
  set (s' := with_objects _ (with_logMessages _ s)) in Hst1.
  destruct (updateHistory_effect (Project.id project) (name config)
              (snapshot (failure w metadata (logMessages s ++ [text]))) s')
    as (_ & _ & Htable1 & Hobjects1).
  rewrite <- Hst1 in Htable1, Hobjects1.
  split; [| split].
  - intros b p. left.
    rewrite (jobsOf_publishingBots b p _ s') by done. apply Htable.
  - intros b p.
    pose proof (updateHistory_changes (Project.id project) (name config)
                  (snapshot (failure w metadata (logMessages s ++ [text])))
                  s' b p) as Hchange.
    rewrite <- Hst1 in Hchange.
    assert (storedHistory b p s' = storedHistory b p st) as Hsame
      by (by apply storedHistory_histories).
    assert (historyEntries b p s' = historyEntries b p st) as Hentries
      by (by apply historyEntries_histories).
    rewrite Hsame, Hentries in Hchange. exact Hchange.
  - intros l r Hr. exists r. split; [| done].
    cbn [objects with_projectFolders]. rewrite Hobjects1. subst s'.
    cbn [objects with_objects]. rewrite lookup_insert_ne; [by apply Hobjects |].
    intros <-. apply Hobjects in Hr. by rewrite fresh_object in Hr.
Qed.

(** Every call of [publish], however it ends, changes the state in the
    allowed ways only. *)
Lemma publish_changes w config project metadata st :
  changes st (stateOf (publish w config project metadata st)).
Proof.
  destruct (resourceKey w config project) as [resourcekey | e] eqn:Hkey.
  2: { rewrite (publish_unkeyed _ _ _ _ _ e) by done. apply changes_refl. }
  destruct (staging w) as [e |] eqn:Hstaging.
  { unfold publish, init. run. rewrite Hkey, Hstaging. apply changes_refl. }
  rewrite (publish_staged _ _ _ _ _ _ Hkey Hstaging). unfold try_catch.
  set (st0 := with_projectFolders _ st).
  destruct (truthy (accessToken config)) eqn:Htoken.
  2: { rewrite publishTry_invalid by auto. by apply publishCatch_changes. }
  destruct (provision config) as [pv |] eqn:Hprovision.
  2: { rewrite publishTry_invalid by auto. by apply publishCatch_changes. }
  destruct (settingsMerge w) as [err |] eqn:Hmerge.
  { erewrite publishTry_merge_fails by done. by apply publishCatch_changes. }
  erewrite publishTry_reaches_add by done.
  set (l := fresh (dom (objects st0))).
  set (s1 := with_objects _ (with_logMessages _ st0)).
  assert (objects st !! l = None) as Hfresh by apply fresh_object.
  assert (∀ l0 r, objects st !! l0 = Some r → objects s1 !! l0 = Some r)
    as Hkept.
  { intros l0 r Hr. subst s1. cbn [objects with_objects].
    rewrite lookup_insert_ne; [done |]. intros <-. congruence. }
  destruct (decide (inherited (name config) = None
                    ∨ is_Some (jobsOf (Project.id project) (name config) s1)))
    as [Hstore | Hnostore].
  - destruct (addLoadingStatus_appends (Project.id project) (name config) l s1
                Hstore)
      as (st' & -> & Hjobs & Hframe & Hobjects & Hhistories & _).
    cbn [stateOf]. split; [| split].
    + intros b p.
      destruct (decide ((b, p) = (botName (Project.id project), name config)))
        as [[= -> ->] | Hne].
      * right. left. exists l. split; [exact Hjobs |]. split; [done |].
        split; [| exact Hstore].
        rewrite Hobjects. subst s1. cbn [objects with_objects].
        rewrite lookup_insert_eq. by eexists.
      * left. by rewrite Hframe.
    + intros b p. left. by apply storedHistory_histories.
    + intros l0 r Hr. exists r. rewrite Hobjects. auto.
  - destruct (inherited (name config)) as [m |] eqn:Hname; [| tauto].
    destruct (jobsOf (Project.id project) (name config) s1) as [jobs |]
      eqn:Hjobs; [exfalso; apply Hnostore; right; by eexists |].
    destruct (addLoadingStatus_inherited (Project.id project) (name config) l
                s1 m Hjobs Hname)
      as (st' & -> & Htable & Hobjects & Hhistories & _).
    apply publishCatch_changes.
    + intros b p. by rewrite Htable.
    + by rewrite Hhistories.
    + intros l0 r Hr. rewrite Hobjects. auto.
Qed.

Lemma logger_changes msg st : changes st (stateOf (logger msg st)).
Proof. by apply changes_same. Qed.

(** With a job id, a bot that has no list for the profile has no status to
    settle: the lookup throws or finds nothing. *)
Lemma getLoadingStatus_no_list (botId : BotId) profileName jobId st :
  jobsOf botId profileName st = None →
  getLoadingStatus botId profileName jobId st = Normal None
  ∨ ∃ e, getLoadingStatus botId profileName jobId st = Abrupt e.
Proof.
  intros Hjobs. unfold getLoadingStatus, jobsOf in *.
  destruct (publishingBots st !! botName botId) as [profiles |]; [| by left].
  cbn in Hjobs. unfold getProperty. rewrite Hjobs.
  destruct (inherited profileName) as [m |]; [| eauto].
  destruct (memberHasLength m); [| by left].
  case_bool_decide; eauto.
Qed.

(** Every completion of a deployment changes the state in the allowed ways
    only. *)
Lemma createAndDeploy_changes (botId : BotId) profileName jobId resourcekey
    deployed st :
  jobId ≠ "" →
  tablesSound st →
  changes st
    (stateOf (createAndDeploy botId profileName jobId resourcekey deployed st)).
Proof.
  intros Hid Hsound.
  destruct (jobsOf botId profileName st) as [jobs |] eqn:Hjobs.
  2: { destruct (getLoadingStatus_no_list botId profileName jobId st Hjobs)
         as [Hnone | [e He]].
       - rewrite (createAndDeploy_settles _ _ _ _ _ _ st)
           by (by apply settle_no_status).
         apply changes_refl.
       - rewrite (createAndDeploy_throws _ _ _ _ _ _ e) by done.
         apply changes_refl. }
  destruct (Hsound _ _ _ Hjobs) as [Hrecords Hnodup].
  destruct (first_hit (hasId (objects st) jobId) jobs)
    as [Hnone | (l1 & x & l2 & -> & Hl1 & Hx)].
  { eapply Forall_impl; [exact Hrecords |]. intros l. apply hasId_record. }
  { rewrite (createAndDeploy_settles _ _ _ _ _ _ st).
    - apply changes_refl.
    - apply settle_no_status.
      eapply getLoadingStatus_unknown_job; [done | exact Hjobs |].
      eapply Forall_impl; [exact Hnone |]. intros l. apply hasId_false_inv. }
  apply hasId_true_inv in Hx as (r & Hr & Hx).
  assert (unknownJob (objects st) jobId l1) as Hunknown.
  { eapply Forall_impl; [exact Hl1 |]. intros l. apply hasId_false_inv. }
  destruct (decide (inherited profileName = None
                    ∨ is_Some (storedHistory botId profileName st)))
    as [Hstore | Hnostore].
  - destruct (settle_found_frame botId profileName jobId resourcekey
                (completionCode deployed) (completionText deployed)
                st l1 x l2 r)
      as (st' & Hsettle & Hjobs' & Hframe & Hobjects & Hhistory & Hothers & _);
      [done .. |].
    rewrite (createAndDeploy_settles _ _ _ _ _ _ _ Hsettle). cbn [stateOf].
    split; [| split].
    + intros b p.
      destruct (decide ((b, p) = (botName botId, profileName)))
        as [[= -> ->] | Hne].
      * right. right. by exists l1, x, l2.
      * left. by apply Hframe.
    + intros b p.
      destruct (decide ((b, p) = (botName botId, profileName)))
        as [[= -> ->] | Hne].
      * right. by eexists.
      * left. by apply Hothers.
    + intros l r0 Hr0. rewrite Hobjects.
      destruct (decide (l = x)) as [-> |].
      * rewrite lookup_alter_eq, Hr0. cbn. by eexists.
      * rewrite lookup_alter_ne by done. by exists r0.
  - destruct (inherited profileName) as [m |] eqn:Hname; [| tauto].
    destruct (storedHistory botId profileName st) as [entries |] eqn:Hstored;
      [exfalso; apply Hnostore; right; by eexists |].
    destruct (createAndDeploy_found_throws botId profileName jobId resourcekey
                deployed st l1 x l2 r m)
      as (st' & -> & Htable & Hsame & (r' & Hr' & Hid' & Htime' & Hcomment')
          & Hhistories); [done .. |].
    cbn [stateOf]. split; [| split].
    + intros b p. by left.
    + intros b p. by left.
    + intros l r0 Hr0. destruct (decide (l = x)) as [-> |].
      * exists r'. assert (r0 = r) as -> by congruence. done.
      * exists r0. by rewrite Hsame.
Qed.

Lemma happen_changes st e :
  match e with
  | Deployed _ _ jobId _ _ => jobId ≠ ""
  | _ => True
  end →
  tablesSound st → changes st (happen st e).
Proof.
  intros He Hsound. destruct e as [w config project metadata | msg | b p j rk d].
  - apply publish_changes.
  - apply logger_changes.
  - by apply createAndDeploy_changes.
Qed.

Lemma happenAll_sound events st :
  jobIdsGenerated events → tablesSound st →
  tablesSound (happenAll events st)
  ∧ grows st (happenAll events st)
  ∧ (plainKeys st → plainKeys (happenAll events st))
  ∧ (∀ b p, is_Some (storedHistory b p st) →
            is_Some (storedHistory b p (happenAll events st))).
Proof.
  intros Hevents. revert st.
  induction Hevents as [| e events He _ IH]; intros st Hsound.
  - split; [done |]. split; [apply grows_refl | done].
  - unfold happenAll in *. cbn [foldl].
    pose proof (happen_changes st e He Hsound) as Hstep.
    destruct (IH _ (changes_tablesSound _ _ Hstep Hsound))
      as (Hsound2 & Hgrows2 & Hplain2 & Hstored2).
    split; [done |]. split; [| split].
    + eapply grows_trans; [by apply changes_grows | done].
    + intros Hplain. by apply Hplain2, (changes_plainKeys st).
    + intros b p Hstored. by apply Hstored2, (changes_keeps_history st).
Qed.

(** X15. In every state reached by calls of [publish], lines logged and
    deployments that settle, every element of every list of the Job Status
    Table is a record of the object store and no list holds a record twice,
    provided this held at the start, as it does for a new publisher. *)
Theorem reachable_tables_sound events st :
  jobIdsGenerated events → tablesSound st →
  tablesSound (happenAll events st).
Proof. intros Hevents Hsound. by apply happenAll_sound. Qed.

(** X16. The History Store only grows at the head: whatever is published,
    logged and settled, the sequence stored for every key afterwards is the
    sequence stored before with new entries in front; no entry is dropped,
    changed or reordered. For a key that has a sequence, and for every
    profile name that names no member of [Object.prototype], this is what
    [getHistory] returns, before and after. *)
Theorem history_only_grows events st (botId : BotId) profileName :
  jobIdsGenerated events → tablesSound st →
  ∃ newer,
    historyEntries botId profileName (happenAll events st)
    = newer ++ historyEntries botId profileName st
    ∧ (inherited profileName = None
       ∨ is_Some (storedHistory botId profileName st) →
       getHistory botId profileName st
       = Entries (historyEntries botId profileName st)
       ∧ getHistory botId profileName (happenAll events st)
         = Entries (newer ++ historyEntries botId profileName st)).
Proof.
  intros Hevents Hsound.
  destruct (happenAll_sound events st Hevents Hsound)
    as (_ & [Hhistory _] & _ & Hstored).
  destruct (Hhistory botId profileName) as [newer Hnewer].
  exists newer. split; [done |]. rewrite <- Hnewer.
  intros [Hplain | Hown].
  - by rewrite !getHistory_plain.
  - pose proof (Hstored _ _ Hown) as Hafter.
    destruct Hown as [entries Hentries], Hafter as [entries' Hentries'].
    unfold historyEntries. rewrite Hentries, Hentries'.
    split; by apply getHistory_own.
Qed.

(** X17. A status record is never discarded from the object store and
    never changes its job id, its time or its comment, whatever is
    published, logged and settled: completions rewrite its status, message
    and log only. *)
Theorem records_keep_job_id events st l r :
  jobIdsGenerated events → tablesSound st →
  objects st !! l = Some r →
  ∃ r', objects (happenAll events st) !! l = Some r'
        ∧ id (result r') = id (result r)
        ∧ time (result r') = time (result r)
        ∧ comment (result r') = comment (result r).
Proof.
  intros Hevents Hsound.
  destruct (happenAll_sound events st Hevents Hsound) as (_ & [_ Hrecords] & _).
  apply Hrecords.
Qed.


(** X19. A key whose profile is named like a member of [Object.prototype]
    never gets a list in the Job Status Table nor a sequence in the History
    Store, whatever is published, logged and settled, provided it had none
    at the start, as for a new publisher. *)
Theorem member_names_stay_empty events st botId profileName :
  jobIdsGenerated events → tablesSound st → plainKeys st →
  is_Some (inherited profileName) →
  jobsOf botId profileName (happenAll events st) = None
  ∧ storedHistory botId profileName (happenAll events st) = None.
Proof.
  intros Hevents Hsound Hplain Hname.
  destruct (happenAll_sound events st Hevents Hsound) as (_ & _ & Hkeys & _).
  by apply Hkeys.
Qed.

(** X20. A publish whose config has no [subscriptionID] throws before
    validation, whatever its other fields: [hash] gets [undefined] as
    namespace. Nothing is staged, no record is created, nothing reaches the
    Job Status Table or the History Store, and the caller gets no result. *)
Theorem publish_without_subscription w config project metadata st :
  namespaceRequired w →
  subscriptionID config = None →
  ∃ e, publish w config project metadata st = Throws e st.
Proof.
  intros Hhash Hnone.
  destruct (Hhash [Some (Project.name project); subscriptionID config;
                   publishName config; location config; environment config;
                   provision config ≫= MicrosoftAppPassword;
                   luisAuthoringKey config; luisAuthoringRegion config])
    as [e He].
  exists e. apply publish_unkeyed. unfold resourceKey. by rewrite Hnone at 2.
Qed.

(** X21. What an accepted publish stages in the project folder of its
    resource key: the code of an ejected runtime, when the settings of the
    project say [customRuntime] and give a non-empty [path], and the
    built-in template of the profile otherwise. *)
Theorem publish_stages_runtime w config project metadata st pv resourcekey :
  resourceKey w config project = Normal resourcekey →
  staging w = None →
  truthy (accessToken config) = true →
  provision config = Some pv →
  settingsMerge w = None →
  inherited (name config) = None →
  ∃ l st',
    publish w config project metadata st = Returns l st'
    ∧ (∀ rt p,
         Project.settings project ≫= Project.runtime = Some rt →
         Project.customRuntime rt = true →
         Project.path rt = Some p → p ≠ "" →
         projectFolders st' !! resourcekey = Some p)
    ∧ (Project.settings project ≫= Project.runtime = None
       ∨ (∃ rt, Project.settings project ≫= Project.runtime = Some rt
                ∧ (Project.customRuntime rt = false
                   ∨ Project.path rt = None
                   ∨ Project.path rt = Some "")) →
       projectFolders st' !! resourcekey = Some (templatePath config)).
Proof.
  intros Hkey Hstaging Htoken Hprovision Hmerge Hplain.
  destruct (publish_accepted_frame w config project metadata st pv resourcekey)
    as (st' & Hrun & _ & _ & _ & _ & _ & Hfolders); [done .. |].
  eexists _, st'. split; [exact Hrun |].
  rewrite Hfolders, lookup_insert_eq. unfold runtimePath. split.
  - intros rt p -> -> -> Hp. cbn. by rewrite bool_decide_eq_true_2.
  - intros [-> | (rt & -> & [-> | [-> | ->]])]; [done | done | |].
    + by rewrite andb_false_r.
    + by rewrite andb_false_r.
Qed.

(** * The further properties at the sample inputs *)

Lemma removeLoadingStatus_present_witness :
  ∃ st',
    removeLoadingStatus Sample.bot "production" "job-1" Sample.afterTwoJobs
    = Returns (Some 0%nat) st'
    ∧ jobsOf "bot" "production" st' = Some ([] ++ [1%nat])
    ∧ (∀ b p, (b, p) ≠ ("bot", "production") →
              jobsOf b p st' = jobsOf b p Sample.afterTwoJobs)
    ∧ objects st' = objects Sample.afterTwoJobs
    ∧ histories st' = histories Sample.afterTwoJobs.
Proof.
  apply (removeLoadingStatus_present Sample.bot "production" "job-1"
           Sample.afterTwoJobs [] 0%nat [1%nat]).
  - reflexivity.
  - constructor.
  - reflexivity.
Defined.

Lemma removeLoadingStatus_absent_id_witness :
  ∃ st' jobs',
    removeLoadingStatus Sample.bot "production" "job-3" Sample.afterTwoJobs
    = Returns None st'
    ∧ jobsOf "bot" "production" st' = Some jobs'
    ∧ jobs' = take (length [0; 1]%nat - 1) [0; 1]%nat ++ [0; 1]%nat
    ∧ (length [0; 1]%nat ≤ 1 → jobs' = [0; 1]%nat)%nat
    ∧ (2 ≤ length [0; 1]%nat → length jobs' = 2 * length [0; 1]%nat - 1)%nat.
Proof.
  apply (removeLoadingStatus_absent_id Sample.bot "production" "job-3"
           Sample.afterTwoJobs [0; 1]%nat).
  - reflexivity.
  - repeat constructor.
    + exists "job-1". split; [reflexivity | discriminate].
    + exists "job-2". split; [reflexivity | discriminate].
Defined.

Lemma records_afterTwoJobs botId profileName jobs :
  jobsOf botId profileName Sample.afterTwoJobs = Some jobs →
  records (objects Sample.afterTwoJobs) jobs ∧ NoDup jobs.
Proof.
  assert (Sample.afterTwoJobs
          = happenAll
              [Published (Sample.world "job-1" 1000)
                 (Sample.config "production" (Some "token"))
                 Sample.project Sample.metadata;
               Published (Sample.world "job-2" 2000)
                 (Sample.config "production" (Some "token"))
                 Sample.project Sample.metadata] constructor) as ->
    by (vm_compute; reflexivity).
  apply happenAll_sound; [by repeat constructor | apply tablesSound_constructor].
Qed.

(** With the two jobs of production in flight: removing job-1 returns, and
    removing from the profile toString, which has no list, throws. *)
Lemma removeLoadingStatus_returns_witness :
  (∃ answer st',
     removeLoadingStatus Sample.bot "production" "job-1" Sample.afterTwoJobs
     = Returns answer st'
     ∧ (jobsOf "bot" "production" Sample.afterTwoJobs = None →
        answer = None ∧ st' = Sample.afterTwoJobs))
  ∧ removeLoadingStatus Sample.bot "toString" "job-1" Sample.afterTwoJobs
    = Throws notAFunction Sample.afterTwoJobs.
Proof.
  split.
  - apply (removeLoadingStatus_returns Sample.bot "production" "job-1"
             Sample.afterTwoJobs).
    + intros jobs Hjobs. apply (records_afterTwoJobs _ _ _ Hjobs).
    + left. reflexivity.
  - apply (removeLoadingStatus_returns Sample.bot "toString" "job-1"
             Sample.afterTwoJobs).
    + intros jobs Hjobs. apply (records_afterTwoJobs _ _ _ Hjobs).
    + eexists. reflexivity.
    + reflexivity.
    + eexists. reflexivity.
Defined.

(** The bot has a list for production only: the lookup throws for staging
    and, with a job id, for the profile constructor. *)
Lemma getLoadingStatus_throws_iff_witness :
  (∃ e, getLoadingStatus Sample.bot "staging" "job-1" Sample.oneProfile
        = Abrupt e)
  ∧ (∃ e, getLoadingStatus Sample.bot "constructor" "job-1" Sample.oneProfile
          = Abrupt e).
Proof.
  split.
  - apply (getLoadingStatus_throws_iff Sample.bot "staging" "job-1"
             Sample.oneProfile).
    + intros jobs Hjobs. vm_compute in Hjobs. discriminate.
    + split; [eexists; reflexivity |]. split; [reflexivity |].
      left. reflexivity.
  - apply (getLoadingStatus_throws_iff Sample.bot "constructor" "job-1"
             Sample.oneProfile).
    + intros jobs Hjobs. vm_compute in Hjobs. discriminate.
    + split; [eexists; reflexivity |]. split; [reflexivity |].
      right. split; [discriminate |]. exists 0%nat. reflexivity.
Defined.

Lemma getLoadingStatus_by_id_witness :
  getLoadingStatus Sample.bot "production" "job-2" Sample.afterTwoJobs
  = Normal (snd <$> list_find
              (λ l, jobIdAt (objects Sample.afterTwoJobs) l = Some "job-2")
              [0; 1]%nat).
Proof.
  apply (getLoadingStatus_by_id Sample.bot "production" "job-2"
           Sample.afterTwoJobs [0; 1]%nat).
  - discriminate.
  - reflexivity.
  - repeat constructor; eexists; reflexivity.
Defined.

Lemma getLoadingStatus_tail_witness :
  getLoadingStatus Sample.bot "production" "" Sample.afterTwoJobs
  = Normal (last [0; 1]%nat).
Proof.
  apply (getLoadingStatus_tail Sample.bot "production" Sample.afterTwoJobs
           [0; 1]%nat).
  reflexivity.
Defined.

Lemma getLoadingStatus_after_add_witness :
  ∃ st',
    addLoadingStatus Sample.bot "staging" 0%nat Sample.oneProfile
    = Returns () st'
    ∧ getLoadingStatus Sample.bot "staging" "" st' = Normal (Some 0%nat)
    ∧ jobsOf "bot" "production" st' = jobsOf "bot" "production" Sample.oneProfile.
Proof.
  destruct (getLoadingStatus_after_add Sample.bot "staging" 0%nat
              Sample.oneProfile (or_introl eq_refl))
    as (st' & Hrun & Hlatest & Hframe).
  exists st'. split; [exact Hrun |]. split; [exact Hlatest |].
  apply Hframe. discriminate.
Defined.

(** A job whose deployment is rejected with a value that has no
    [message]. *)
Lemma publish_then_completion_witness :
  ∃ l st1 st2 final,
    publish (Sample.world "job-1" 1000)
      (Sample.config "production" (Some "token"))
      Sample.project Sample.metadata constructor = Returns l st1
    ∧ getStatus (Sample.config "production" (Some "token")) Sample.project st1
      = Normal (InFlight l)
    ∧ projectFolders st1 !! "resource-1" = Some "/runtime/azurewebapp"
    ∧ createAndDeploy Sample.bot "production" "job-1" "resource-1"
        (Some (Other true None))
        (happenAll (Logged <$> [Some "building"; Some "deploying"]) st1)
      = Returns () st2
    ∧ final = settled 500 None
                (JsArray.join newline
                   [Some "Publish starting..."; Some "building";
                    Some "deploying"])
                (accepted (Sample.world "job-1" 1000) Sample.metadata)
    ∧ objects st2 !! l = Some final
    ∧ jobsOf "bot" "production" st2 = Some []
    ∧ snapshot final
      = {| entry_status := 500; entry_id := "job-1"; entry_time := 1000;
           entry_message := None;
           entry_log := JsArray.join newline
                          [Some "Publish starting..."; Some "building";
                           Some "deploying"];
           entry_comment := Some "first release" |}
    ∧ getHistory Sample.bot "production" st2 = Entries [snapshot final]
    ∧ projectFolders st2 !! "resource-1" = None
    ∧ (@nil loc = [] →
       getStatus (Sample.config "production" (Some "token")) Sample.project st2
       = Normal (FromHistory 500 (snapshot final))).
Proof.
  apply (publish_then_completion (Sample.world "job-1" 1000)
           (Sample.config "production" (Some "token"))
           Sample.project Sample.metadata [Some "building"; Some "deploying"]
           (Some (Other true None))
           constructor {| MicrosoftAppPassword := Some "secret" |}
           "resource-1").
  - reflexivity.
  - reflexivity.
  - reflexivity.
  - reflexivity.
  - reflexivity.
  - reflexivity.
  - discriminate.
  - constructor.
Defined.

Lemma completion_of_unknown_job_witness :
  createAndDeploy Sample.bot "production" "job-3" "resource-1"
    (Some (Error "timeout")) Sample.afterTwoJobs
  = Returns () Sample.afterTwoJobs.
Proof.
  apply (completion_of_unknown_job Sample.bot "production" "job-3" "resource-1"
           (Some (Error "timeout")) Sample.afterTwoJobs).
  - discriminate.
  - right. exists [0; 1]%nat. split; [reflexivity |].
    repeat constructor.
    + exists "job-1". split; [reflexivity | discriminate].
    + exists "job-2". split; [reflexivity | discriminate].
Defined.

Lemma completion_twice_witness :
  ∃ st',
    createAndDeploy Sample.bot "production" "job-1" "resource-1" None
      Sample.afterTwoJobs = Returns () st'
    ∧ createAndDeploy Sample.bot "production" "job-1" "resource-1"
        (Some (Error "late failure")) st' = Returns () st'.
Proof.
  apply (completion_twice Sample.bot "production" "job-1" "resource-1" None
           (Some (Error "late failure")) Sample.afterTwoJobs [] 0%nat [1%nat]
           (accepted (Sample.world "job-1" 1000) Sample.metadata)).
  - discriminate.
  - reflexivity.
  - constructor.
  - repeat constructor. exists "job-2". split; [reflexivity | discriminate].
  - reflexivity.
  - reflexivity.
  - left. reflexivity.
Defined.

Lemma publish_merge_error_recorded_witness :
  ∃ l r st',
    publish Sample.brokenTemplate (Sample.config "production" (Some "token"))
      Sample.project Sample.metadata constructor = Returns l st'
    ∧ objects st' !! l = Some r
    ∧ status r = 500
    ∧ message (result r) = Some "Publish Fail"
    ∧ id (result r) = "job-1"
    ∧ log (result r)
      = JsArray.join newline ([] ++ [Some "ENOENT: no such file or directory"])
    ∧ publishingBots st' = ∅
    ∧ getHistory Sample.bot "production" st' = Entries [snapshot r]
    ∧ projectFolders st' !! "resource-1" = None.
Proof.
  apply (publish_merge_error_recorded Sample.brokenTemplate
           (Sample.config "production" (Some "token"))
           Sample.project Sample.metadata constructor
           {| MicrosoftAppPassword := Some "secret" |}
           (Error "ENOENT: no such file or directory") "resource-1").
  - reflexivity.
  - reflexivity.
  - reflexivity.
  - reflexivity.
  - reflexivity.
  - reflexivity.
  - reflexivity.
Defined.

Lemma publish_without_provision_witness :
  ∃ l r st',
    publish (Sample.world "job-1" 1000) Sample.unprovisioned
      Sample.project Sample.metadata constructor = Returns l st'
    ∧ objects st' !! l = Some r
    ∧ status r = 500
    ∧ message (result r) = Some "Publish Fail"
    ∧ log (result r) = JsArray.join newline ([] ++ [Some missingProvision])
    ∧ mentions "provision script" (log (result r)) = true
    ∧ publishingBots st' = ∅
    ∧ getHistory Sample.bot "production" st' = Entries [snapshot r]
    ∧ projectFolders st' !! "resource-1" = None.
Proof.
  apply (publish_without_provision (Sample.world "job-1" 1000)
           Sample.unprovisioned Sample.project Sample.metadata constructor
           "resource-1");
    reflexivity.
Defined.

Lemma rejected_log_after_accepted_witness :
  ∃ l1 st1 l2 r2 st2,
    publish (Sample.world "job-1" 1000)
      (Sample.config "production" (Some "token"))
      Sample.project Sample.metadata constructor = Returns l1 st1
    ∧ logMessages st1 = [Some "Publish starting..."]
    ∧ publish (Sample.world "job-2" 2000) (Sample.config "staging" None)
        Sample.project Sample.metadata st1 = Returns l2 st2
    ∧ objects st2 !! l2 = Some r2
    ∧ log (result r2)
      = "Publish starting..." +:+ newline +:+ missingAccessToken
    ∧ objects st2 !! l1
      = Some (accepted (Sample.world "job-1" 1000) Sample.metadata).
Proof.
  apply (rejected_log_after_accepted (Sample.world "job-1" 1000)
           (Sample.config "production" (Some "token"))
           Sample.project Sample.metadata
           {| MicrosoftAppPassword := Some "secret" |} "resource-1"
           (Sample.world "job-2" 2000) (Sample.config "staging" None)
           Sample.project Sample.metadata "resource-1" constructor).
  - reflexivity.
  - reflexivity.
  - reflexivity.
  - reflexivity.
  - reflexivity.
  - reflexivity.
  - reflexivity.
  - reflexivity.
  - left. reflexivity.
Defined.

Lemma getStatus_after_updateHistory_witness :
  ∃ st',
    updateHistory Sample.bot "production" (Sample.entry "job-1" 200) constructor
    = Returns () st'
    ∧ getStatus (Sample.config "production" None) Sample.project st'
      = Normal (FromHistory 200 (Sample.entry "job-1" 200)).
Proof.
  apply (getStatus_after_updateHistory (Sample.config "production" None)
           Sample.project (Sample.entry "job-1" 200) constructor).
  - right. reflexivity.
  - left. reflexivity.
Defined.

Lemma jobIdsGenerated_events : jobIdsGenerated Sample.events.
Proof. repeat constructor; discriminate. Qed.

Lemma reachable_tables_sound_witness :
  tablesSound (happenAll Sample.events constructor).
Proof.
  apply (reachable_tables_sound Sample.events constructor).
  - exact jobIdsGenerated_events.
  - exact tablesSound_constructor.
Defined.

Lemma tablesSound_twoEntries : tablesSound Sample.twoEntries.
Proof.
  intros b p jobs Hjobs. unfold jobsOf in Hjobs.
  change (publishingBots Sample.twoEntries) with (publishingBots constructor)
    in Hjobs.
  cbn in Hjobs. by rewrite lookup_empty in Hjobs.
Qed.

(** The sample run puts two entries in front of the two that production
    had. *)
Lemma history_only_grows_witness :
  ∃ newer,
    historyEntries "bot" "production" (happenAll Sample.events Sample.twoEntries)
    = newer ++ [Sample.entry "job-b" 500; Sample.entry "job-a" 200]
    ∧ getHistory Sample.bot "production"
        (happenAll Sample.events Sample.twoEntries)
      = Entries (newer ++ [Sample.entry "job-b" 500; Sample.entry "job-a" 200])
    ∧ length newer = 2%nat.
Proof.
  destruct (history_only_grows Sample.events Sample.twoEntries Sample.bot
              "production" jobIdsGenerated_events tablesSound_twoEntries)
    as (newer & Hnewer & Hplain).
  destruct (Hplain (or_introl eq_refl)) as [_ Hafter].
  exists newer. split; [exact Hnewer |]. split; [exact Hafter |].
  assert (length (historyEntries Sample.bot "production"
                    (happenAll Sample.events Sample.twoEntries)) = 4%nat)
    as Hlength by (vm_compute; reflexivity).
  rewrite Hnewer, length_app in Hlength.
  change (historyEntries Sample.bot "production" Sample.twoEntries)
    with [Sample.entry "job-b" 500; Sample.entry "job-a" 200] in Hlength.
  cbn [length] in Hlength. lia.
Defined.

(** The record of job-1 at address 0 is rewritten by the completion of its
    deployment: the status is now 200, the job id, time and comment are
    those of the publish. *)
Lemma records_keep_job_id_witness :
  ∃ r',
    objects
      (happenAll
         [Logged (Some "building");
          Deployed Sample.bot "production" "job-1" "resource-1" None]
         Sample.afterTwoJobs) !! 0%nat = Some r'
    ∧ id (result r') = "job-1"
    ∧ time (result r') = 1000
    ∧ comment (result r') = Some "first release"
    ∧ status r' = 200
    ∧ message (result r') = Some "Success".
Proof.
  destruct (records_keep_job_id
              [Logged (Some "building");
               Deployed Sample.bot "production" "job-1" "resource-1" None]
              Sample.afterTwoJobs 0%nat
              (accepted (Sample.world "job-1" 1000) Sample.metadata))
    as (r' & Hr' & Hid & Htime & Hcomment).
  - repeat constructor. discriminate.
  - intros b p jobs Hjobs. apply (records_afterTwoJobs _ _ _ Hjobs).
  - reflexivity.
  - exists r'. split; [exact Hr' |]. split; [exact Hid |].
    split; [exact Htime |]. split; [exact Hcomment |].
    vm_compute in Hr'. injection Hr' as <-. split; reflexivity.
Defined.


(** The sample run publishes for the profile toString: no list and no
    History for it afterwards. *)
Lemma member_names_stay_empty_witness :
  jobsOf "bot" "toString" (happenAll Sample.events constructor) = None
  ∧ storedHistory "bot" "toString" (happenAll Sample.events constructor) = None.
Proof.
  apply (member_names_stay_empty Sample.events constructor "bot" "toString").
  - exact jobIdsGenerated_events.
  - exact tablesSound_constructor.
  - exact plainKeys_constructor.
  - eexists. reflexivity.
Defined.

Lemma publish_without_subscription_witness :
  ∃ e,
    publish (Sample.world "job-1" 1000) Sample.noSubscription Sample.project
      Sample.metadata Sample.afterTwoJobs
    = Throws e Sample.afterTwoJobs.
Proof.
  apply (publish_without_subscription (Sample.world "job-1" 1000)
           Sample.noSubscription Sample.project Sample.metadata
           Sample.afterTwoJobs).
  - intros values. eexists. reflexivity.
  - reflexivity.
Defined.

Lemma publish_stages_runtime_witness :
  ∃ l st',
    publish (Sample.world "job-1" 1000)
      (Sample.config "production" (Some "token"))
      Sample.ejected Sample.metadata constructor = Returns l st'
    ∧ projectFolders st' !! "resource-1" = Some "/bots/mybot/runtime".
Proof.
  destruct (publish_stages_runtime (Sample.world "job-1" 1000)
              (Sample.config "production" (Some "token"))
              Sample.ejected Sample.metadata constructor
              {| MicrosoftAppPassword := Some "secret" |} "resource-1")
    as (l & st' & Hrun & Hejected & _); try reflexivity.
  exists l, st'. split; [exact Hrun |].
  apply (Hejected {| Project.customRuntime := true;
                     Project.path := Some "/bots/mybot/runtime" |}
           "/bots/mybot/runtime"); [reflexivity .. | discriminate].
Defined.
